(** * NCAA betting engine: scoring, dispatch, pick assembly and backtest

    A shallow embedding of [ncaa_betting.analysis.scoring],
    [ncaa_betting.analysis.backtest] and the dispatcher / single-game part of
    [ncaa_betting.analysis.pipeline], with the properties of the engine's
    specification stated and settled on it.

    Conventions of the embedding.
    - A Python [float] is an exact rational ([Q], compared with [==]); the
      Kelly sizing, which needs [math.exp], is over the reals ([R]).
    - A Python [int] is a [Z]; [len] of a table is a [nat].
    - A Python [dict] read with [.get] is a [gmap]; a dict that is iterated
      (the weight table) is kept as an association list in source order.
    - Code that can raise returns an [Exc]; [except Exception] is a match
      on it.  Logging is an explicit list of log records. *)

From Stdlib Require Import Reals Lra.
From Stdlib Require Import QArith Qabs Qround Qminmax Lqa Lia ZArith.
From Stdlib Require Import String Ascii List Sorted.
From stdpp Require Import base strings gmap list pretty.

Local Open Scope Q_scope.

(** ** Exceptions *)

(** The subclasses of Python's [Exception] that the modelled code raises or
    can receive from a collaborator.  What is not an [Exception]
    ([KeyboardInterrupt], [SystemExit]) is outside the embedding. *)
Inductive exn : Type :=
  | KeyError (msg : string)
  | ValueError (msg : string)
  | TypeError (msg : string)
  | OverflowError (msg : string)
  | DatabaseError (msg : string)
  | OtherException (msg : string).

(** The outcome of a call: a returned value or a raised exception. *)
Inductive Exc (A : Type) : Type :=
  | Return (a : A)
  | Raise (e : exn).
Arguments Return {A} a.
Arguments Raise {A} e.

(** ** Logging *)

Inductive LogLevel : Type := DEBUG | INFO | WARNING | ERROR.

Record LogRecord : Type := mkLog { levelname : LogLevel; message : string }.

(** ** Stateful, fallible code: state passing with exceptions.  A raise
    keeps the state reached so far, as in Python. *)
Definition M (S A : Type) : Type := S -> Exc A * S.

Definition ret {S A : Type} (a : A) : M S A := fun s => (Return a, s).

Definition raise {S A : Type} (e : exn) : M S A := fun s => (Raise e, s).

Definition bind {S A B : Type} (m : M S A) (k : A -> M S B) : M S B :=
  fun s =>
    match m s with
    | (Return a, s') => k a s'
    | (Raise e, s') => (Raise e, s')
    end.

(** [try: body  except Exception: handler] *)
Definition try_except {S A : Type} (body : M S A) (handler : exn -> M S A)
    : M S A :=
  fun s =>
    match body s with
    | (Return a, s') => (Return a, s')
    | (Raise e, s') => handler e s'
    end.

Notation "x <- m ;; k" := (bind m (fun x => k))
  (at level 100, m at next level, right associativity).

(** [repr] of a string without quotes or escapes in it. *)
Definition repr (s : string) : string := ("'" ++ s ++ "'")%string.

(** ** scoring.py *)

Module scoring.

(** [class ConfidenceTier(str, Enum)] *)
Inductive ConfidenceTier : Type := LOCK | STRONG | LEAN | SKIP.

Definition value (t : ConfidenceTier) : string :=
  match t with
  | LOCK => "LOCK"
  | STRONG => "STRONG"
  | LEAN => "LEAN"
  | SKIP => "SKIP"
  end.

(** [DimensionResult] (declared in pipeline.py, consumed here).  [raw_data]
    keeps the numeric diagnostics, the only ones the pipeline reads. *)
Record DimensionResult : Type := mkDimensionResult {
  name : string;
  spread_edge : Q;
  total_edge : Q;
  confidence : Q;
  narrative : string;
  raw_data : option (gmap string Q)
}.

(** The two values of [edge_attr] the callers pass, with [getattr]. *)
Inductive EdgeAttr : Type := attr_spread_edge | attr_total_edge.

Definition getattr (dim : DimensionResult) (edge_attr : EdgeAttr) : Q :=
  match edge_attr with
  | attr_spread_edge => spread_edge dim
  | attr_total_edge => total_edge dim
  end.

Definition _COMPOSITE_FLOOR : Q := 0.0.
Definition _COMPOSITE_CEILING : Q := 10.0.
Definition _RAW_TO_SCALE_FACTOR : Q := 10.0.

Definition _clip (value lo hi : Q) : Q := Qmax lo (Qmin hi value).

(** One iteration of the loop of [_weighted_edge] on the pair
    [(total_weight, weighted_sum)]. *)
Definition _weighted_edge_step (weights : gmap string Q) (edge_attr : EdgeAttr)
    (acc : Q * Q) (dim : DimensionResult) : Q * Q :=
  let '(total_weight, weighted_sum) := acc in
  let w := default 0.0 (weights !! name dim) in
  let edge := getattr dim edge_attr in
  (total_weight + w, weighted_sum + edge * confidence dim * w).

Definition _weighted_edge (results : list DimensionResult)
    (weights : gmap string Q) (edge_attr : EdgeAttr) : Q :=
  match results with
  | [] => 0.0
  | _ =>
      let '(total_weight, weighted_sum) :=
        fold_left (_weighted_edge_step weights edge_attr) results (0.0, 0.0) in
      if Qeq_bool total_weight 0.0 then 0.0
      else
        let normalised := weighted_sum / total_weight in
        let scaled := Qabs normalised * _RAW_TO_SCALE_FACTOR in
        _clip scaled _COMPOSITE_FLOOR _COMPOSITE_CEILING
  end.

Definition compute_spread_composite (results : list DimensionResult)
    (weights : gmap string Q) : Q :=
  _weighted_edge results weights attr_spread_edge.

Definition compute_total_composite (results : list DimensionResult)
    (weights : gmap string Q) : Q :=
  _weighted_edge results weights attr_total_edge.

Definition assign_tier (composite : Q) : ConfidenceTier :=
  if Qle_bool 7.0 composite then LOCK
  else if Qle_bool 4.5 composite then STRONG
  else if Qle_bool 2.0 composite then LEAN
  else SKIP.

(** [_clip] and [compute_kelly_fraction] over the reals. *)
Definition _clip_R (value lo hi : R) : R := Rmax lo (Rmin hi value).

Definition compute_kelly_fraction (composite implied_prob : R) : R :=
  let midpoint := 5%R in
  let steepness := (6 / 10)%R in
  let z := (- steepness * (composite - midpoint))%R in
  let z := _clip_R z (-500)%R 500%R in
  let estimated_prob := (1 / (1 + exp z))%R in
  if Rge_dec implied_prob 1 then 0%R
  else
    let edge := (estimated_prob - implied_prob)%R in
    if Rle_dec edge 0 then 0%R
    else
      let kelly := (edge / (1 - implied_prob))%R in
      let max_fraction := (25 / 100)%R in
      _clip_R kelly 0%R max_fraction.

End scoring.

(** ** backtest.py *)

Module backtest.

(** A row of the [pick_history] table (db/schema.py).  [REAL] and [TEXT]
    columns without [NOT NULL] are options: [None] is NULL.  In a frame, a
    NULL of a score column that holds a number reads as NaN; a score column
    with no number at all is read as Python [None] objects (see
    [run_backtest]). *)
Record PickRow : Type := mkPickRow {
  analysis_date : string;
  game_date : string;
  season : Z;
  away_team : string;
  home_team : string;
  pick_type : string;
  pick_side : string;
  confidence : option Q;
  composite_score : option Q;
  spread_at_pick : option Q;
  total_at_pick : option Q;
  result : option string
}.

Definition _JUICE_RISK : Q := 110.0.
Definition _JUICE_WIN : Q := 100.0.

(** [composite >= bound] on a float: [None] is NaN, for which every
    comparison is false. *)
Definition ge_nan (composite : option Q) (bound : Q) : bool :=
  match composite with
  | Some c => Qle_bool bound c
  | None => false
  end.

Definition _tier_from_composite (composite : option Q) : string :=
  if ge_nan composite 7.0 then "LOCK"
  else if ge_nan composite 4.5 then "STRONG"
  else if ge_nan composite 2.0 then "LEAN"
  else "SKIP".

Definition _compute_roi (wins losses pushes : Z) : Q :=
  let decided := (wins + losses)%Z in
  if (decided =? 0)%Z then 0.0
  else
    let profit := inject_Z wins * _JUICE_WIN - inject_Z losses * _JUICE_RISK in
    let total_risked := inject_Z decided * _JUICE_RISK in
    profit / total_risked.

Definition _compute_accuracy (wins losses : Z) : Q :=
  let decided := (wins + losses)%Z in
  if (decided =? 0)%Z then 0.0
  else inject_Z wins / inject_Z decided.

(** [Series.isin(values)] on a nullable text cell. *)
Definition isin (cell : option string) (values : list string) : bool :=
  match cell with
  | Some s => bool_decide (s ∈ values)
  | None => false
  end.

(** [numpy.searchsorted(bins, x, side="right")] on sorted [bins]: the number
    of edges that are [<= x]. *)
Definition searchsorted_right (bins : list Q) (x : Q) : nat :=
  length (List.filter (fun b => Qle_bool b x) bins).

(** [pandas.cut(x, bins, labels=labels, right=False, include_lowest=True)]
    on one cell: intervals closed on the left; a NaN or a value outside
    every interval has no bin. *)
Definition pd_cut (x : option Q) (bins : list Q) (labels : list string)
    : option string :=
  match x with
  | None => None
  | Some x =>
      let ids := searchsorted_right bins x in
      let ids :=
        match bins with
        | b0 :: _ => if Qeq_bool x b0 then 1%nat else ids
        | [] => ids
        end in
      if ((ids =? 0)%nat || (ids =? length bins)%nat)%bool then None
      else labels !! (ids - 1)%nat
  end.

Record CalibrationRow : Type := mkCalibrationRow {
  bin : string;
  predicted : Q;
  actual : Q;
  count : nat
}.

Definition bin_edges : list Q := [0.0; 2.0; 4.5; 7.0; 8.5; 10.01].
Definition bin_labels : list string :=
  ["0-2"; "2-4.5"; "4.5-7"; "7-8.5"; "8.5-10"]%string.

Definition bin_midpoints : gmap string Q :=
  list_to_map
    [("0-2"%string, 0.10); ("2-4.5"%string, 0.325); ("4.5-7"%string, 0.575);
     ("7-8.5"%string, 0.775); ("8.5-10"%string, 0.925)].

(** A row of [decided] after the columns [is_win] and [bin] are added. *)
Record DecidedRow : Type := mkDecidedRow {
  pick : PickRow;
  is_win : Z;
  bin_of : option string
}.

Definition mk_decided (r : PickRow) : DecidedRow :=
  {| pick := r;
     is_win := if bool_decide (result r = Some "W"%string) then 1%Z else 0%Z;
     bin_of := pd_cut (composite_score r) bin_edges bin_labels |}.

(** [Series.mean()] of an integer column of a non-empty frame. *)
Definition mean (xs : list Z) : Q :=
  inject_Z (fold_left Z.add xs 0%Z) / inject_Z (Z.of_nat (length xs)).

(** The body of the loop over [bin_labels]: the rows appended for one
    label.  [bin_midpoints[bin_label]] cannot raise: every label is a key. *)
Definition calibration_rows_for (decided : list DecidedRow)
    (bin_label : string) : list CalibrationRow :=
  let bin_data :=
    List.filter (fun d => bool_decide (bin_of d = Some bin_label)) decided in
  match bin_data with
  | [] => []
  | _ =>
      [ {| bin := bin_label;
           predicted := default 0.0 (bin_midpoints !! bin_label);
           actual := mean (map is_win bin_data);
           count := length bin_data |} ]
  end.

Definition _build_calibration (df : list PickRow) : list CalibrationRow :=
  let decided :=
    List.filter (fun r => isin (result r) ["W"; "L"]%string) df in
  match decided with
  | [] => []
  | _ =>
      let decided := map mk_decided decided in
      flat_map (calibration_rows_for decided) bin_labels
  end.

(** [str.upper] and [str.lower] on the ASCII range, where the fixed
    enumerations live. *)
Definition ascii_upper (c : ascii) : ascii :=
  let n := nat_of_ascii c in
  if ((97 <=? n)%nat && (n <=? 122)%nat)%bool then ascii_of_nat (n - 32)
  else c.

Definition ascii_lower (c : ascii) : ascii :=
  let n := nat_of_ascii c in
  if ((65 <=? n)%nat && (n <=? 90)%nat)%bool then ascii_of_nat (n + 32)
  else c.

Fixpoint upper (s : string) : string :=
  match s with
  | EmptyString => EmptyString
  | String c s' => String (ascii_upper c) (upper s')
  end.

Fixpoint lower (s : string) : string :=
  match s with
  | EmptyString => EmptyString
  | String c s' => String (ascii_lower c) (lower s')
  end.

(** The connection as [record_result] sees it: the [pick_history] table and
    the log written so far. *)
Record Conn : Type := mkConn {
  pick_history : list PickRow;
  log : list LogRecord
}.

(** The [WHERE] clause of the [UPDATE] (text compared bytewise). *)
Definition where_unresolved (game_date' away_team' home_team' pick_type' : string)
    (r : PickRow) : bool :=
  bool_decide (game_date r = game_date') &&
  bool_decide (away_team r = away_team') &&
  bool_decide (home_team r = home_team') &&
  bool_decide (pick_type r = pick_type') &&
  bool_decide (result r = None).

Definition set_result (res : string) (r : PickRow) : PickRow :=
  {| analysis_date := analysis_date r; game_date := game_date r;
     season := season r; away_team := away_team r; home_team := home_team r;
     pick_type := pick_type r; pick_side := pick_side r;
     confidence := confidence r; composite_score := composite_score r;
     spread_at_pick := spread_at_pick r; total_at_pick := total_at_pick r;
     result := Some res |}.

(** [conn.execute(UPDATE ...)]: the new table and [cursor.rowcount]. *)
Definition execute_update (res game_date' away_team' home_team' pick_type' : string)
    (table : list PickRow) : list PickRow * nat :=
  let hit := where_unresolved game_date' away_team' home_team' pick_type' in
  (map (fun r => if hit r then set_result res r else r) table,
   length (List.filter hit table)).

Definition logger (lvl : LogLevel) (msg : string) : M Conn unit :=
  fun c =>
    (Return tt,
     {| pick_history := pick_history c;
        log := log c ++ [ {| levelname := lvl; message := msg |} ] |}).

Definition record_result (game_date' away_team' home_team' pick_type' result' : string)
    : M Conn unit :=
  let result' := upper result' in
  let pick_type' := lower pick_type' in
  if negb (bool_decide (result' ∈ ["W"; "L"; "P"]%string)) then
    raise (ValueError
             ("result must be 'W', 'L', or 'P', got " ++ repr result'))
  else if negb (bool_decide (pick_type' ∈ ["spread"; "total"]%string)) then
    raise (ValueError
             ("pick_type must be 'spread' or 'total', got " ++ repr pick_type'))
  else
    rows_updated <-
      (fun c =>
         let '(table, n) :=
           execute_update result' game_date' away_team' home_team' pick_type'
             (pick_history c) in
         (Return n, {| pick_history := table; log := log c |})) ;;
    if (rows_updated =? 0)%nat then
      logger WARNING
        ("No unresolved pick found for " ++ away_team' ++ " @ " ++ home_team'
         ++ " on " ++ game_date' ++ " (" ++ pick_type' ++ "). "
         ++ "The pick may already have a result or may not exist.")
    else
      logger INFO
        ("Recorded result " ++ result' ++ " for " ++ away_team' ++ " @ "
         ++ home_team' ++ " on " ++ game_date' ++ " (" ++ pick_type' ++ ")").

End backtest.

(** ** output/pick_card.py *)

Module pick_card.

Record PickCard : Type := mkPickCard {
  away_team : string;
  home_team : string;
  game_date : string;
  spread : Q;
  total : Q;
  projected_away_score : Q;
  projected_home_score : Q;
  projected_total : Q;
  true_spread : Q;
  spread_pick : string;
  spread_confidence : string;
  spread_composite : Q;
  spread_value : Q;
  total_pick : string;
  total_confidence : string;
  total_composite : Q;
  total_value : Q;
  dimension_results : list scoring.DimensionResult;
  headline : string;
  key_factors : list string;
  trap_warnings : list string
}.

(** [max_confidence]: the higher of the two tier labels. *)
Definition _ORDER : gmap string Z :=
  list_to_map
    [("LOCK", 4%Z); ("STRONG", 3%Z); ("LEAN", 2%Z); ("SKIP", 1%Z);
     ("", 0%Z)]%string.

Definition max_confidence (self : PickCard) : string :=
  let spread_rank := default 0%Z (_ORDER !! spread_confidence self) in
  let total_rank := default 0%Z (_ORDER !! total_confidence self) in
  if (total_rank <=? spread_rank)%Z then spread_confidence self
  else total_confidence self.

Definition max_composite (self : PickCard) : Q :=
  Qmax (spread_composite self) (total_composite self).

Definition favored_team (self : PickCard) : string :=
  if negb (Qle_bool 0 (spread self)) then home_team self
  else if negb (Qle_bool (spread self) 0) then away_team self
  else "".

Definition has_actionable_pick (self : PickCard) : bool :=
  negb (bool_decide (spread_confidence self ∈ ["SKIP"; ""]%string))
  || negb (bool_decide (total_confidence self ∈ ["SKIP"; ""]%string)).

End pick_card.

(** ** output/terminal.py and output/markdown.py: the sort keys *)

Module terminal.

Definition _TIER_SORT_ORDER : gmap string Z :=
  list_to_map
    [("LOCK", 4%Z); ("STRONG", 3%Z); ("LEAN", 2%Z); ("SKIP", 1%Z);
     ("", 0%Z)]%string.

Definition _sort_key (card : pick_card.PickCard) : Z :=
  let spread_rank :=
    default 0%Z (_TIER_SORT_ORDER !! pick_card.spread_confidence card) in
  let total_rank :=
    default 0%Z (_TIER_SORT_ORDER !! pick_card.total_confidence card) in
  Z.max spread_rank total_rank.

End terminal.

Module markdown.

Definition _TIER_SORT_ORDER : gmap string Z :=
  list_to_map
    [("LOCK", 4%Z); ("STRONG", 3%Z); ("LEAN", 2%Z); ("SKIP", 1%Z);
     ("", 0%Z)]%string.

Definition _sort_key (card : pick_card.PickCard) : Z * Q :=
  let spread_rank :=
    default 0%Z (_TIER_SORT_ORDER !! pick_card.spread_confidence card) in
  let total_rank :=
    default 0%Z (_TIER_SORT_ORDER !! pick_card.total_confidence card) in
  (Z.max spread_rank total_rank, pick_card.max_composite card).

End markdown.

(** ** pipeline.py *)

Module pipeline.

Import scoring.

(** A [pd.Series] read by label: the numeric cells of one database row, a
    NULL cell being [None].  A [pd.DataFrame] is its list of rows. *)
Abbreviation Series := (gmap string (option Q)).
Abbreviation DataFrame := (list (gmap string (option Q))).

Record MatchupContext : Type := mkMatchupContext {
  away_team : string;
  home_team : string;
  game_date : string;
  season : Z;
  away_ratings : Series;
  home_ratings : Series;
  away_four_factors : Series;
  home_four_factors : Series;
  away_game_logs : DataFrame;
  home_game_logs : DataFrame;
  away_ats : DataFrame;
  home_ats : DataFrame;
  away_ou : DataFrame;
  home_ou : DataFrame;
  line : Series;
  away_ratings_history : DataFrame;
  home_ratings_history : DataFrame
}.

(** [series.empty] and [series.get(key, default)]. *)
Definition empty (s : Series) : bool := (size s =? 0)%nat.

Definition get (s : Series) (key : string) (default : Q) : option Q :=
  match s !! key with
  | Some cell => cell
  | None => Some default
  end.

(** A signal source: [(ctx: MatchupContext) -> DimensionResult], which may
    raise. *)
Definition DimFunc : Type := MatchupContext -> Exc DimensionResult.

Definition _DIMENSION_REGISTRY : gmap string (string * string) :=
  list_to_map
    [("pace_adjusted", (".dimensions.pace_adjusted", "analyze"));
     ("four_factors", (".dimensions.four_factors", "analyze"));
     ("opponent_quality", (".dimensions.opponent_quality", "analyze"));
     ("home_away", (".dimensions.home_away", "analyze"));
     ("recency", (".dimensions.recency", "analyze"));
     ("shooting_zones", (".dimensions.shooting_zones", "analyze"));
     ("turnover_chain", (".dimensions.turnover_chain", "analyze"));
     ("ft_rate", (".dimensions.ft_rate", "analyze"));
     ("ats_correlation", (".dimensions.ats_correlation", "analyze"));
     ("variance", (".dimensions.variance", "analyze"));
     ("rank_asymmetry", (".dimensions.rank_asymmetry", "analyze"));
     ("trap_detect", (".dimensions.trap_detect", "analyze"))]%string.

(** [AnalysisPipeline.DIMENSION_WEIGHTS], in the order the dict is written
    (the order [for dim_name in self.DIMENSION_WEIGHTS] visits). *)
Definition DIMENSION_WEIGHTS : list (string * Q) :=
  [("pace_adjusted"%string, 0.14);
   ("four_factors"%string, 0.14);
   ("opponent_quality"%string, 0.10);
   ("home_away"%string, 0.08);
   ("recency"%string, 0.09);
   ("shooting_zones"%string, 0.07);
   ("turnover_chain"%string, 0.07);
   ("ft_rate"%string, 0.05);
   ("ats_correlation"%string, 0.08);
   ("variance"%string, 0.06);
   ("rank_asymmetry"%string, 0.06);
   ("trap_detect"%string, 0.06)].

(** The state of an [AnalysisPipeline] instance that the single-game path
    touches: the cache [_dim_funcs], and the log. *)
Record Pipeline : Type := mkPipeline {
  _dim_funcs : gmap string DimFunc;
  log : list LogRecord
}.

(** [AnalysisPipeline.__init__] *)
Definition __init__ : Pipeline := {| _dim_funcs := ∅; log := [] |}.

(** The cache only ever holds registered names: true of a fresh pipeline and
    kept by every method. *)
Definition cache_registered (self : Pipeline) : Prop :=
  forall dim_name : string,
    is_Some (_dim_funcs self !! dim_name) ->
    is_Some (_DIMENSION_REGISTRY !! dim_name).

Definition logger (lvl : LogLevel) (msg : string) : M Pipeline unit :=
  fun self =>
    (Return tt,
     {| _dim_funcs := _dim_funcs self;
        log := log self ++ [ {| levelname := lvl; message := msg |} ] |}).

(** A call that raises or returns without touching the pipeline. *)
Definition lift {A : Type} (r : Exc A) : M Pipeline A := fun self => (r, self).

(** [round(x, ndigits)] on an exact value: to the nearest multiple of
    [10^-ndigits], ties to the even one. *)
Definition round_half_even (x : Q) : Z :=
  let n := Qfloor x in
  match Qcompare (x - inject_Z n) (1 # 2) with
  | Lt => n
  | Gt => (n + 1)%Z
  | Eq => if Z.even n then n else (n + 1)%Z
  end.

Definition round (x : Q) (ndigits : nat) : Q :=
  let scale := inject_Z (10 ^ Z.of_nat ndigits) in
  inject_Z (round_half_even (x * scale)) / scale.

(** [sorted(xs, key=key, reverse=True)]: descending, equal keys in their
    original order. *)
Fixpoint insert_desc {A : Type} (key : A -> Q) (x : A) (l : list A) : list A :=
  match l with
  | [] => [x]
  | y :: l' =>
      if Qle_bool (key y) (key x) then x :: y :: l'
      else y :: insert_desc key x l'
  end.

Definition sorted_reverse {A : Type} (l : list A) (key : A -> Q) : list A :=
  fold_right (insert_desc key) [] l.

(** [for x in xs: ys.append(f(x))] *)
Fixpoint for_each {S A B : Type} (xs : list A) (f : A -> M S B) : M S (list B) :=
  match xs with
  | [] => ret []
  | x :: xs' =>
      y <- f x ;;
      ys <- for_each xs' f ;;
      ret (y :: ys)
  end.

(** [a + b] on two cells: a [None] operand is a [TypeError]. *)
Definition add_cells (a b : option Q) : Exc Q :=
  match a, b with
  | Some x, Some y => Return (x + y)
  | _, _ => Raise (TypeError "unsupported operand type(s) for +")
  end.

(** Truth value of [r.raw_data]: a non-empty dict. *)
Definition truthy_raw_data (r : DimensionResult) : option (gmap string Q) :=
  match raw_data r with
  | Some d => if (size d =? 0)%nat then None else Some d
  | None => None
  end.

Definition _aggregate_direction (results : list DimensionResult)
    (edge_attr : EdgeAttr) : Q :=
  fold_left Qplus
    (map (fun r => getattr r edge_attr * confidence r) results) 0.

Section Dispatcher.

(** [getattr(importlib.import_module(module_path, package=__package__),
    func_name)]: the signal sources are collaborators of the engine. *)
Variable import_attr : string -> string -> Exc DimFunc.

Definition _get_dimension_func (dim_name : string) : M Pipeline DimFunc :=
  fun self =>
    match _dim_funcs self !! dim_name with
    | Some func => (Return func, self)
    | None =>
        match _DIMENSION_REGISTRY !! dim_name with
        | None =>
            (Raise (KeyError ("Unknown dimension: " ++ repr dim_name)), self)
        | Some (module_path, func_name) =>
            match import_attr module_path func_name with
            | Raise e => (Raise e, self)
            | Return func =>
                (Return func,
                 {| _dim_funcs := <[dim_name := func]> (_dim_funcs self);
                    log := log self |})
            end
        end
    end.

(** The neutral result of the [except] branch. *)
Definition neutral (dim_name : string) : DimensionResult :=
  {| name := dim_name;
     spread_edge := 0.0;
     total_edge := 0.0;
     confidence := 0.0;
     narrative := "[" ++ dim_name ++ "] dimension unavailable.";
     raw_data := None |}.

Definition set_confidence (r : DimensionResult) (c : Q) : DimensionResult :=
  {| name := name r; spread_edge := spread_edge r; total_edge := total_edge r;
     confidence := c; narrative := narrative r; raw_data := raw_data r |}.

Definition _run_dimension (dim_name : string) (ctx : MatchupContext)
    : M Pipeline DimensionResult :=
  try_except
    (func <- _get_dimension_func dim_name ;;
     result <- lift (func ctx) ;;
     ret (set_confidence result (Qmax 0.0 (Qmin 1.0 (confidence result)))))
    (fun _ =>
       _ <- logger ERROR
              ("Dimension '" ++ dim_name ++ "' failed for " ++ away_team ctx
               ++ " @ " ++ home_team ctx ++ "; returning neutral result.") ;;
       ret (neutral dim_name)).

(** The projected scores [(proj_away, proj_home)]. *)
Definition project_scores (ctx : MatchupContext)
    (results : list DimensionResult) : Exc (Q * Q) :=
  let pace_result :=
    List.find (fun r => bool_decide (name r = "pace_adjusted"%string)) results in
  match pace_result ≫= truthy_raw_data with
  | Some d =>
      Return (default 70.0 (d !! "away_pts"%string),
              default 70.0 (d !! "home_pts"%string))
  | None =>
      let away_o :=
        if negb (empty (away_ratings ctx))
        then get (away_ratings ctx) "adj_o" 105.0 else Some 105.0 in
      let home_d :=
        if negb (empty (home_ratings ctx))
        then get (home_ratings ctx) "adj_d" 105.0 else Some 105.0 in
      let home_o :=
        if negb (empty (home_ratings ctx))
        then get (home_ratings ctx) "adj_o" 105.0 else Some 105.0 in
      let away_d :=
        if negb (empty (away_ratings ctx))
        then get (away_ratings ctx) "adj_d" 105.0 else Some 105.0 in
      let avg_tempo := 67.5 in
      match add_cells away_o home_d with
      | Raise e => Raise e
      | Return a =>
          match add_cells home_o away_d with
          | Raise e => Raise e
          | Return h =>
              Return (a / 2.0 * avg_tempo / 100.0, h / 2.0 * avg_tempo / 100.0)
          end
      end
  end.

(** [float(v) if v is not None else d] and [float(v or d)] on a cell. *)
Definition float_or_default (v : option Q) (d : Q) : Q :=
  match v with
  | Some x => x
  | None => d
  end.

Definition float_or (v : option Q) (d : Q) : Q :=
  match v with
  | Some x => if Qeq_bool x 0 then d else x
  | None => d
  end.

Definition analyze_matchup (ctx : MatchupContext) : M Pipeline pick_card.PickCard :=
  results <- for_each (map fst DIMENSION_WEIGHTS)
               (fun dim_name => _run_dimension dim_name ctx) ;;
  let weights : gmap string Q := list_to_map DIMENSION_WEIGHTS in
  let spread_composite := compute_spread_composite results weights in
  let total_composite := compute_total_composite results weights in
  let spread_direction := _aggregate_direction results attr_spread_edge in
  let total_direction := _aggregate_direction results attr_total_edge in
  let spread_tier := assign_tier spread_composite in
  let total_tier := assign_tier total_composite in
  let primary_tier :=
    if Qle_bool total_composite spread_composite then spread_tier
    else total_tier in
  let spread_pick_side :=
    if Qle_bool 0 spread_direction then away_team ctx else home_team ctx in
  let total_pick_side : string :=
    if Qle_bool 0 total_direction then "OVER" else "UNDER" in
  let vegas_spread :=
    if negb (empty (line ctx)) then get (line ctx) "spread" 0.0
    else Some 0.0 in
  let vegas_total :=
    if negb (empty (line ctx)) then get (line ctx) "total" 140.0
    else Some 140.0 in
  proj <- lift (project_scores ctx results) ;;
  let '(proj_away, proj_home) := proj in
  let projected_total := proj_away + proj_home in
  let true_spread := proj_away - proj_home in
  let sorted_results :=
    sorted_reverse results (fun r => Qabs (spread_edge r) * confidence r) in
  let key_factors :=
    map narrative
      (List.filter (fun r => negb (bool_decide (narrative r = ""%string)))
         (take 3 sorted_results)) in
  let trap_result :=
    List.find (fun r => bool_decide (name r = "trap_detect"%string)) results in
  let trap_warnings :=
    match trap_result with
    | Some r =>
        match truthy_raw_data r with
        | Some d =>
            if negb (Qle_bool (default 0 (d !! "trap_score"%string)) 0.3)
            then [narrative r] else []
        | None => []
        end
    | None => []
    end in
  let headline :=
    (spread_pick_side ++ " " ++ value spread_tier ++ " ("
     ++ (if bool_decide (spread_pick_side = "") then "N/A" else "covers")
     ++ ") | " ++ total_pick_side ++ " " ++ value total_tier)%string in
  ret {| pick_card.away_team := away_team ctx;
         pick_card.home_team := home_team ctx;
         pick_card.game_date := game_date ctx;
         pick_card.spread := float_or_default vegas_spread 0.0;
         pick_card.total := float_or_default vegas_total 140.0;
         pick_card.projected_away_score := round proj_away 1;
         pick_card.projected_home_score := round proj_home 1;
         pick_card.projected_total := round projected_total 1;
         pick_card.true_spread := round true_spread 1;
         pick_card.spread_pick := spread_pick_side;
         pick_card.spread_confidence := value spread_tier;
         pick_card.spread_composite := spread_composite;
         pick_card.spread_value :=
           round (true_spread - float_or vegas_spread 0) 1;
         pick_card.total_pick := total_pick_side;
         pick_card.total_confidence := value total_tier;
         pick_card.total_composite := total_composite;
         pick_card.total_value :=
           round (projected_total - float_or vegas_total 140) 1;
         pick_card.dimension_results := results;
         pick_card.headline := headline;
         pick_card.key_factors := key_factors;
         pick_card.trap_warnings := trap_warnings |}.

End Dispatcher.

(** No NULL cell among the ratings the fallback projection adds up. *)
Definition ratings_numeric (ctx : MatchupContext) : Prop :=
  forall key : string,
    key = "adj_o"%string \/ key = "adj_d"%string ->
    away_ratings ctx !! key <> Some None /\
    home_ratings ctx !! key <> Some None.

End pipeline.

(** ** backtest.py: the public entry point *)

Module sqlite3.

(** What SQLite stores as [INTEGER]: a signed 64-bit value.  Binding a
    Python [int] outside it raises [OverflowError]. *)
Definition fits_int64 (n : Z) : bool :=
  ((- 2 ^ 63 <=? n) && (n <? 2 ^ 63))%Z.

End sqlite3.

Module backtest_api.

Import backtest.

(** One value of the [record] dict: [{"W": n, "L": n, "P": n}]. *)
Record TierRecord : Type := mkTierRecord { W : Z; L : Z; P : Z }.

(** [BacktestResult]; the dicts keyed by tier keep their insertion order. *)
Record BacktestResult : Type := mkBacktestResult {
  total_picks : nat;
  record : list (string * TierRecord);
  roi_by_tier : list (string * Q);
  overall_roi : Q;
  accuracy_by_tier : list (string * Q);
  calibration_data : list CalibrationRow
}.

(** The [WHERE] clause built from the optional filters (text compared
    bytewise, as SQLite does). *)
Definition where_resolved (season' : option Z)
    (start_date end_date : option string) (r : PickRow) : bool :=
  negb (bool_decide (result r = None))
  && match season' with
     | Some s => (season r =? s)%Z
     | None => true
     end
  && match start_date with
     | Some d => String.leb d (game_date r)
     | None => true
     end
  && match end_date with
     | Some d => String.leb (game_date r) d
     | None => true
     end.

(** [ORDER BY game_date], rows of one date in table order. *)
Fixpoint insert_by_date (x : PickRow) (l : list PickRow) : list PickRow :=
  match l with
  | [] => [x]
  | y :: l' =>
      if String.leb (game_date x) (game_date y) then x :: y :: l'
      else y :: insert_by_date x l'
  end.

Definition order_by_game_date (l : list PickRow) : list PickRow :=
  fold_right insert_by_date [] l.

(** Binding [params]: the season, when given, must fit SQLite's integer. *)
Definition params_bind (season' : option Z) : bool :=
  match season' with
  | Some s => sqlite3.fits_int64 s
  | None => true
  end.

(** [pd.read_sql_query(sql, conn, params)] for the query of [run_backtest],
    once the parameters are bound; the frame keeps the selected columns, the
    others are not read. *)
Definition read_sql_query (table : list PickRow) (season' : option Z)
    (start_date end_date : option string) : list PickRow :=
  order_by_game_date
    (List.filter (where_resolved season' start_date end_date) table).

(** The dtype of the frame's [composite_score]: when no selected row has a
    number there, pandas keeps the column as objects, every cell [None]. *)
Definition object_column (df : list PickRow) : bool :=
  forallb (fun r => bool_decide (composite_score r = None)) df.

(** [int((frame["result"] == code).sum())] *)
Definition count_result (code : string) (frame : list PickRow) : Z :=
  Z.of_nat
    (length (List.filter (fun r => bool_decide (result r = Some code)) frame)).

(** The body of the loop over the tiers: the entry added to [record]. *)
Definition tier_record (df : list PickRow) (tier : string)
    : list (string * TierRecord) :=
  let tier_df :=
    List.filter
      (fun r => bool_decide (_tier_from_composite (composite_score r) = tier))
      df in
  match tier_df with
  | [] => []
  | _ =>
      [ (tier,
         {| W := count_result "W" tier_df;
            L := count_result "L" tier_df;
            P := count_result "P" tier_df |}) ]
  end.

(** [sum(...)] over integers. *)
Definition sum (xs : list Z) : Z := fold_left Z.add xs 0%Z.

(** ["%d"] and ["%.1f"] of the log message. *)
Definition fmt_d (n : nat) : string := pretty n.

Definition fmt_1f (x : Q) : string :=
  let n := Z.abs (pipeline.round_half_even (x * 10)) in
  ((if Qlt_le_dec x 0 then "-" else "")
   ++ pretty (n / 10)%Z ++ "." ++ pretty (n mod 10)%Z)%string.

(** A season that cannot be bound makes sqlite3 raise [OverflowError], which
    pandas raises again as [DatabaseError] (message abridged).  On an object
    column the first call of [_tier_from_composite], on [None], raises
    [TypeError]. *)
Definition run_backtest (season' : option Z)
    (start_date end_date : option string) : M Conn BacktestResult :=
  fun conn =>
    if negb (params_bind season') then
      (Raise (DatabaseError
                "Execution failed on sql: Python int too large to convert to SQLite INTEGER"),
       conn)
    else
    let df := read_sql_query (pick_history conn) season' start_date end_date in
    match df with
    | [] =>
        (_ <- logger WARNING "No resolved picks found for backtest query." ;;
         ret {| total_picks := 0;
                record := [];
                roi_by_tier := [];
                overall_roi := 0.0;
                accuracy_by_tier := [];
                calibration_data := [] |}) conn
    | _ =>
        if object_column df then
          (Raise (TypeError
                    "'>=' not supported between instances of 'NoneType' and 'float'"),
           conn)
        else
        let record' :=
          flat_map (tier_record df) ["LOCK"; "STRONG"; "LEAN"; "SKIP"]%string in
        let roi_by_tier' :=
          map (fun '(tier, rec) =>
                 (tier, _compute_roi (W rec) (L rec) (P rec))) record' in
        let accuracy_by_tier' :=
          map (fun '(tier, rec) =>
                 (tier, _compute_accuracy (W rec) (L rec))) record' in
        let total_wins := sum (map (fun '(_, rec) => W rec) record') in
        let total_losses := sum (map (fun '(_, rec) => L rec) record') in
        let total_pushes := sum (map (fun '(_, rec) => P rec) record') in
        let overall_roi' := _compute_roi total_wins total_losses total_pushes in
        let calibration_data' := _build_calibration df in
        let result' :=
          {| total_picks := length df;
             record := record';
             roi_by_tier := roi_by_tier';
             overall_roi := overall_roi';
             accuracy_by_tier := accuracy_by_tier';
             calibration_data := calibration_data' |} in
        (_ <- logger INFO
                ("Backtest complete: " ++ fmt_d (total_picks result')
                 ++ " picks, overall ROI "
                 ++ fmt_1f (overall_roi result' * 100) ++ "%") ;;
         ret result') conn
    end.

End backtest_api.

(** ** db/loader.py, on the [pick_history] table *)

Module loader.

Import backtest.

(** The [UNIQUE(analysis_date, game_date, away_team, home_team, pick_type)]
    constraint of db/schema.py: two rows in conflict. *)
Definition same_key (a b : PickRow) : bool :=
  bool_decide (analysis_date a = analysis_date b) &&
  bool_decide (game_date a = game_date b) &&
  bool_decide (away_team a = away_team b) &&
  bool_decide (home_team a = home_team b) &&
  bool_decide (pick_type a = pick_type b).

(** The columns of that constraint. *)
Definition unique_key (r : PickRow) : string * string * string * string * string :=
  (analysis_date r, game_date r, away_team r, home_team r, pick_type r).

(** One [INSERT OR REPLACE]: the rows in conflict are deleted, the new row
    is added with a fresh id. *)
Definition insert_or_replace (table : list PickRow) (row : PickRow)
    : list PickRow :=
  List.filter (fun r => negb (same_key r row)) table ++ [row].

(** [conn.executemany(sql, chunk)]: the rows are bound and written in order;
    a season outside SQLite's integer raises [OverflowError], the rows
    before it staying written in the open transaction. *)
Fixpoint executemany (chunk : list PickRow) : M Conn unit :=
  match chunk with
  | [] => ret tt
  | row :: chunk' =>
      if sqlite3.fits_int64 (season row) then
        fun conn =>
          executemany chunk'
            {| pick_history := insert_or_replace (pick_history conn) row;
               log := log conn |}
      else
        raise (OverflowError "Python int too large to convert to SQLite INTEGER")
  end.

(** [range(0, n, chunk_size)] *)
Definition range_starts (n chunk_size : nat) : list nat :=
  map (fun k => (k * chunk_size)%nat)
    (seq 0 ((n + chunk_size - 1) / chunk_size)).

(** The loop over the chunks, with the running [total]. *)
Fixpoint upsert_chunks (data : list PickRow) (chunk_size : nat)
    (starts : list nat) (total : nat) : M Conn nat :=
  match starts with
  | [] => ret total
  | start :: starts' =>
      let chunk := take chunk_size (drop start data) in
      _ <- executemany chunk ;;
      upsert_chunks data chunk_size starts' (total + length chunk)
  end.

(** [upsert_dataframe(conn, df, "pick_history")] with the default columns
    (the frame's own, so none is missing) and the default chunk size. *)
Definition upsert_dataframe (df : list PickRow) : M Conn nat :=
  let chunk_size := 500%nat in
  match df with
  | [] =>
      _ <- logger DEBUG "Empty DataFrame -- nothing to upsert into pick_history" ;;
      ret 0%nat
  | _ =>
      total <- upsert_chunks df chunk_size
                 (range_starts (length df) chunk_size) 0 ;;
      _ <- logger INFO
             ("Upserted " ++ pretty total ++ " rows into pick_history") ;;
      ret total
  end.

Definition upsert_records (records : list PickRow) : M Conn nat :=
  match records with
  | [] => ret 0%nat
  | _ => upsert_dataframe records
  end.

End loader.

(** ** cli.py: saving the picks of a slate *)

Module cli.

Import backtest.

(** The records that [_save_pick_history] builds for one card; [today] is
    [date.today().isoformat()]. *)
Definition records_of_card (today : string) (season' : Z)
    (card : pick_card.PickCard) : list PickRow :=
  (if negb (bool_decide (pick_card.spread_pick card = ""%string))
      && negb (bool_decide (pick_card.spread_confidence card = "SKIP"%string))
   then
     [ {| analysis_date := today;
          game_date := pick_card.game_date card;
          season := season';
          away_team := pick_card.away_team card;
          home_team := pick_card.home_team card;
          pick_type := "spread";
          pick_side := pick_card.spread_pick card;
          confidence := Some (pick_card.spread_composite card);
          composite_score := Some (pick_card.spread_composite card);
          spread_at_pick := Some (pick_card.spread card);
          total_at_pick := Some (pick_card.total card);
          result := None |} ]
   else [])
  ++
  (if negb (bool_decide (pick_card.total_pick card = ""%string))
      && negb (bool_decide (pick_card.total_confidence card = "SKIP"%string))
   then
     [ {| analysis_date := today;
          game_date := pick_card.game_date card;
          season := season';
          away_team := pick_card.away_team card;
          home_team := pick_card.home_team card;
          pick_type := "total";
          pick_side := pick_card.total_pick card;
          confidence := Some (pick_card.total_composite card);
          composite_score := Some (pick_card.total_composite card);
          spread_at_pick := Some (pick_card.spread card);
          total_at_pick := Some (pick_card.total card);
          result := None |} ]
   else []).

Definition _save_pick_history (today : string)
    (cards : list pick_card.PickCard) (game_date' : string) (season' : Z)
    : M Conn unit :=
  let records := flat_map (records_of_card today season') cards in
  match records with
  | [] => ret tt
  | _ =>
      count <- loader.upsert_records records ;;
      logger INFO ("Saved " ++ pretty count ++ " picks to history.")
  end.

(** The process running a subcommand: the database file with the logging
    output, and what was printed. *)
Record Process : Type := mkProcess {
  conn : Conn;
  stdout : list string
}.

Definition print (line : string) : M Process unit :=
  fun p => (Return tt, {| conn := conn p; stdout := stdout p ++ [line] |}).

(** [with get_connection(db_path) as conn: body] of db/connection.py: the
    transaction is committed when the body returns; when it raises, the
    table is rolled back and the exception raised again. *)
Definition get_connection {A : Type} (body : M Conn A) : M Process A :=
  fun p =>
    match body (conn p) with
    | (Return a, c) => (Return a, {| conn := c; stdout := stdout p |})
    | (Raise e, c) =>
        (Raise e,
         {| conn := {| pick_history := pick_history (conn p); log := log c |};
            stdout := stdout p |})
    end.

(** [initialize_db(db_path)]: every statement is [CREATE ... IF NOT EXISTS],
    so the rows of an existing table are left alone; [db_path] is the text
    of [db_path or DEFAULT_DB_PATH]. *)
Definition initialize_db (db_path : string) : M Process unit :=
  get_connection (logger INFO ("Database initialized at " ++ db_path)).

(** The arguments of the [result] subcommand. *)
Record Namespace : Type := mkNamespace {
  db : string;
  date : string;
  away : string;
  home : string;
  type : string;
  result : string
}.

Definition _handle_result (args : Namespace) : M Process unit :=
  let db_path := db args in
  _ <- initialize_db db_path ;;
  _ <- get_connection
         (record_result (date args) (away args) (home args) (type args)
            (result args)) ;;
  print ("Recorded " ++ result args ++ " for " ++ away args ++ " @ "
         ++ home args ++ " on " ++ date args ++ " (" ++ type args ++ ").").

End cli.

(** ** Concrete inputs *)

Module example.

Import scoring pipeline.

(** A game for which the database holds nothing: every container empty. *)
Definition ctx0 : MatchupContext :=
  {| away_team := "Duke"; home_team := "UNC"; game_date := "2025-02-14";
     season := 2025;
     away_ratings := ∅; home_ratings := ∅;
     away_four_factors := ∅; home_four_factors := ∅;
     away_game_logs := []; home_game_logs := [];
     away_ats := []; home_ats := [];
     away_ou := []; home_ou := [];
     line := ∅;
     away_ratings_history := []; home_ratings_history := [] |}.

(** A signal source that raises, and an import system that serves it for
    every module. *)
Definition failing_source : DimFunc :=
  fun _ => Raise (OtherException "division by zero").

Definition import_failing : string -> string -> Exc DimFunc :=
  fun _ _ => Return failing_source.

(** Signal sources that each report a weak signal towards the away side and
    the under, named after their module ([".dimensions.<name>"]). *)
Definition weak_source (dim_name : string) : DimFunc :=
  fun _ =>
    Return {| name := dim_name;
              spread_edge := 0.1;
              total_edge := - 0.1;
              confidence := 0.5;
              narrative := "Weak signal.";
              raw_data := None |}.

Definition import_weak : string -> string -> Exc DimFunc :=
  fun module_path _ =>
    Return (weak_source
              (substring 12 (String.length module_path - 12) module_path)).

(** A signal source that reports a confidence outside [0, 1]. *)
Definition overconfident_source : DimFunc :=
  fun _ =>
    Return {| name := "recency";
              spread_edge := 2.0;
              total_edge := 1.0;
              confidence := 1.7;
              narrative := "Hot streak.";
              raw_data := None |}.

Definition import_overconfident : string -> string -> Exc DimFunc :=
  fun _ _ => Return overconfident_source.

(** Resolved picks: two wins and a loss in the top band, a loss in the
    lowest, and a push. *)
Definition resolved (score : Q) (outcome : string) : backtest.PickRow :=
  {| backtest.analysis_date := "2025-02-13";
     backtest.game_date := "2025-02-14";
     backtest.season := 2025;
     backtest.away_team := "Duke";
     backtest.home_team := "UNC";
     backtest.pick_type := "spread";
     backtest.pick_side := "Duke";
     backtest.confidence := Some score;
     backtest.composite_score := Some score;
     backtest.spread_at_pick := Some (- 3.5);
     backtest.total_at_pick := Some 151.5;
     backtest.result := Some outcome |}.

Definition resolved_picks : list backtest.PickRow :=
  [resolved 10.0 "W"; resolved 9.0 "W"; resolved 8.5 "L";
   resolved 0.0 "L"; resolved 5.0 "P"].

(** A resolved pick whose score was left NULL. *)
Definition unscored_pick : backtest.PickRow :=
  {| backtest.analysis_date := "2025-02-12";
     backtest.game_date := "2025-02-13";
     backtest.season := 2025;
     backtest.away_team := "Kansas";
     backtest.home_team := "Baylor";
     backtest.pick_type := "spread";
     backtest.pick_side := "Baylor";
     backtest.confidence := None;
     backtest.composite_score := None;
     backtest.spread_at_pick := Some 2.5;
     backtest.total_at_pick := Some 139.5;
     backtest.result := Some "L" |}.

(** A connection whose table holds one unresolved and one resolved pick. *)
Definition unresolved_pick : backtest.PickRow :=
  {| backtest.analysis_date := "2025-02-13";
     backtest.game_date := "2025-02-14";
     backtest.season := 2025;
     backtest.away_team := "Duke";
     backtest.home_team := "UNC";
     backtest.pick_type := "total";
     backtest.pick_side := "OVER";
     backtest.confidence := Some 4.8;
     backtest.composite_score := Some 4.8;
     backtest.spread_at_pick := Some (- 3.5);
     backtest.total_at_pick := Some 151.5;
     backtest.result := None |}.

Definition conn0 : backtest.Conn :=
  {| backtest.pick_history := [unresolved_pick; resolved 9.0 "W"];
     backtest.log := [] |}.

End example.

(** ** The specification's formulas, written from its words *)

Module spec.

Import scoring.

Section Composite.

Variable edge : DimensionResult -> Q.
Variable weights : gmap string Q.

(** The weight of a listed dimension; an unweighted one counts for zero. *)
Definition weight_of (d : DimensionResult) : Q :=
  default 0 (weights !! name d).

(** The summed weights of the listed dimensions. *)
Definition summed_weights (results : list DimensionResult) : Q :=
  fold_right (fun d acc => weight_of d + acc) 0 results.

(** The sum over the results of edge * confidence * weight. *)
Definition weighted_sum (results : list DimensionResult) : Q :=
  fold_right (fun d acc => edge d * confidence d * weight_of d + acc) 0 results.

(** 0.0 on an empty list or zero summed weights; otherwise the absolute
    normalised sum, times 10.0, clamped to [0.0, 10.0]. *)
Definition composite (results : list DimensionResult) : Q :=
  match results with
  | [] => 0
  | _ =>
      if Qeq_bool (summed_weights results) 0 then 0
      else
        Qmax 0
          (Qmin 10
             (Qabs (weighted_sum results / summed_weights results) * 10))
  end.

End Composite.

(** The order of the tiers, lowest first. *)
Definition tier_rank (t : ConfidenceTier) : nat :=
  match t with
  | SKIP => 0
  | LEAN => 1
  | STRONG => 2
  | LOCK => 3
  end.

(** The logistic estimate 1 / (1 + e^(-0.6 * (composite - 5.0))). *)
Definition logistic (composite : R) : R :=
  (1 / (1 + exp (- (6 / 10) * (composite - 5))))%R.

(** The five calibration bands: label, bounds, whether the upper bound
    belongs to the band, and the fixed predicted value. *)
Record Band : Type := mkBand {
  label : string;
  lo : Q;
  hi : Q;
  closed_above : bool;
  midpoint : Q
}.

Definition bands : list Band :=
  [ mkBand "0-2" 0 2 false 0.10;
    mkBand "2-4.5" 2 4.5 false 0.325;
    mkBand "4.5-7" 4.5 7 false 0.575;
    mkBand "7-8.5" 7 8.5 false 0.775;
    mkBand "8.5-10" 8.5 10 true 0.925 ].

Definition in_band (b : Band) (c : Q) : bool :=
  Qle_bool (lo b) c &&
  (if closed_above b then Qle_bool c (hi b) else negb (Qle_bool (hi b) c)).

Definition in_band_row (b : Band) (r : backtest.PickRow) : bool :=
  match backtest.composite_score r with
  | Some c => in_band b c
  | None => false
  end.

(** A decided pick is a win or a loss, not a push. *)
Definition decided (r : backtest.PickRow) : bool :=
  bool_decide (backtest.result r = Some "W"%string
               \/ backtest.result r = Some "L"%string).

Definition won (r : backtest.PickRow) : bool :=
  bool_decide (backtest.result r = Some "W"%string).

Definition decided_in (b : Band) (df : list backtest.PickRow)
    : list backtest.PickRow :=
  List.filter (fun r => decided r && in_band_row b r) df.

Definition won_in (b : Band) (df : list backtest.PickRow)
    : list backtest.PickRow :=
  List.filter (fun r => won r && in_band_row b r) df.

(** The rows [record_result] is to update: exact match on date, teams and
    pick type, outcome still unset. *)
Definition unresolved_match (game_date away_team home_team pick_type : string)
    (r : backtest.PickRow) : Prop :=
  backtest.game_date r = game_date /\
  backtest.away_team r = away_team /\
  backtest.home_team r = home_team /\
  backtest.pick_type r = pick_type /\
  backtest.result r = None.

End spec.

(** ** Transformations of inputs used to state symmetries *)

Module transform.

Import scoring.

(** The same signal read for the other side: both edges negated. *)
Definition mirrored (d : DimensionResult) : DimensionResult :=
  {| name := name d;
     spread_edge := - spread_edge d;
     total_edge := - total_edge d;
     confidence := confidence d;
     narrative := narrative d;
     raw_data := raw_data d |}.

End transform.

(** * Properties *)

(** ** Composite scoring *)

Section CompositeFacts.

Import scoring.

Variable weights : gmap string Q.
Variable edge_attr : EdgeAttr.

Let edge := fun d => getattr d edge_attr.

Lemma weighted_edge_loop (results : list DimensionResult) (acc : Q * Q) :
  fst (fold_left (_weighted_edge_step weights edge_attr) results acc)
    == fst acc + spec.summed_weights weights results /\
  snd (fold_left (_weighted_edge_step weights edge_attr) results acc)
    == snd acc + spec.weighted_sum edge weights results.
Proof.
  revert acc.
  induction results as [|d results IH]; intros [tw ws]; simpl.
  - split; ring.
  - destruct (IH (tw + default 0.0 (weights !! name d),
                  ws + getattr d edge_attr * confidence d
                       * default 0.0 (weights !! name d))) as [Ht Hs].
    simpl in Ht, Hs. rewrite Ht, Hs.
    unfold spec.weight_of, edge.
    destruct (weights !! name d); simpl; split; ring.
Qed.

Lemma clip_bounds (x lo hi : Q) : lo <= hi -> lo <= _clip x lo hi <= hi.
Proof.
  intros Hle. unfold _clip. split.
  - apply Q.le_max_l.
  - apply Q.max_lub; [exact Hle | apply Q.le_min_l].
Qed.

Lemma weighted_edge_spec (results : list DimensionResult) :
  _weighted_edge results weights edge_attr
    == spec.composite edge weights results.
Proof.
  unfold _weighted_edge, spec.composite.
  destruct results as [|d results]; [reflexivity|].
  set (rs := d :: results).
  destruct (weighted_edge_loop rs (0.0, 0.0)) as [Ht Hs].
  destruct (fold_left _ rs _) as [tw ws]. cbn [fst snd] in Ht, Hs.
  assert (Ht' : tw == spec.summed_weights weights rs). { rewrite Ht; ring. }
  assert (Hs' : ws == spec.weighted_sum edge weights rs) by (rewrite Hs; ring).
  destruct (Qeq_bool tw 0.0) eqn:E1;
    destruct (Qeq_bool (spec.summed_weights weights rs) 0) eqn:E2.
  - reflexivity.
  - apply Qeq_bool_iff in E1. apply Qeq_bool_neq in E2.
    exfalso. apply E2. rewrite <- Ht', E1. reflexivity.
  - apply Qeq_bool_iff in E2. apply Qeq_bool_neq in E1.
    exfalso. apply E1. rewrite Ht', E2. reflexivity.
  - unfold _clip, _RAW_TO_SCALE_FACTOR, _COMPOSITE_FLOOR, _COMPOSITE_CEILING.
    rewrite Ht', Hs'.
    setoid_replace 10.0 with 10 using relation Qeq by reflexivity.
    setoid_replace 0.0 with 0 using relation Qeq by reflexivity.
    reflexivity.
Qed.

Lemma weighted_edge_range (results : list DimensionResult) :
  0 <= _weighted_edge results weights edge_attr <= 10.
Proof.
  unfold _weighted_edge.
  destruct results as [|d results]; [split; discriminate|].
  destruct (fold_left _ (d :: results) _) as [tw ws].
  destruct (Qeq_bool tw 0.0); [split; discriminate|].
  cbv zeta.
  set (scaled := Qabs (ws / tw) * _RAW_TO_SCALE_FACTOR).
  destruct (clip_bounds scaled _COMPOSITE_FLOOR _COMPOSITE_CEILING) as [Hlo Hhi];
    [discriminate|].
  unfold _COMPOSITE_FLOOR, _COMPOSITE_CEILING in *.
  split.
  - apply Qle_trans with 0.0; [discriminate | exact Hlo].
  - apply Qle_trans with 10.0; [exact Hhi | discriminate].
Qed.

End CompositeFacts.

(** C3: the spread and the total composite equal the specification's
    formula (0.0 on an empty list or zero summed weights, otherwise the
    absolute normalised weighted sum times 10.0 clamped to [0.0, 10.0]),
    and so always lie in [0.0, 10.0]. *)
Theorem composite_formula_and_range
    (results : list scoring.DimensionResult) (weights : gmap string Q) :
  scoring.compute_spread_composite results weights
    == spec.composite scoring.spread_edge weights results /\
  scoring.compute_total_composite results weights
    == spec.composite scoring.total_edge weights results /\
  0 <= scoring.compute_spread_composite results weights <= 10 /\
  0 <= scoring.compute_total_composite results weights <= 10.
Proof.
  unfold scoring.compute_spread_composite, scoring.compute_total_composite.
  repeat split.
  - apply (weighted_edge_spec weights scoring.attr_spread_edge).
  - apply (weighted_edge_spec weights scoring.attr_total_edge).
  - apply weighted_edge_range.
  - apply weighted_edge_range.
  - apply weighted_edge_range.
  - apply weighted_edge_range.
Qed.

(** ** Tier assignment *)

Lemma Qle_bool_false (x y : Q) : Qle_bool x y = false <-> y < x.
Proof.
  split; intros H.
  - apply Qnot_le_lt. intros Hle. apply Qle_bool_iff in Hle. congruence.
  - destruct (Qle_bool x y) eqn:E; [|reflexivity].
    apply Qle_bool_iff in E. exfalso. exact (Qlt_not_le _ _ H E).
Qed.

Ltac tier_cases :=
  repeat match goal with
    | H : Qle_bool _ _ = true |- _ => apply Qle_bool_iff in H
    | H : Qle_bool _ _ = false |- _ => apply Qle_bool_false in H
    | |- context [Qle_bool ?a ?b] => destruct (Qle_bool a b) eqn:?
    end.

Lemma assign_tier_cases (c : Q) :
  (7 <= c /\ scoring.assign_tier c = scoring.LOCK) \/
  (4.5 <= c < 7 /\ scoring.assign_tier c = scoring.STRONG) \/
  (2 <= c < 4.5 /\ scoring.assign_tier c = scoring.LEAN) \/
  (c < 2 /\ scoring.assign_tier c = scoring.SKIP).
Proof.
  unfold scoring.assign_tier. tier_cases.
  - left. split; [lra | reflexivity].
  - right; left. split; [lra | reflexivity].
  - right; right; left. split; [lra | reflexivity].
  - right; right; right. split; [lra | reflexivity].
Qed.

(** C4: [assign_tier] is the step function with inclusive lower bounds
    7.0 / 4.5 / 2.0, it is monotone in the composite, and it takes the stated
    values at 7.0, 6.999, 4.5, 4.499, 2.0 and 1.999. *)
Theorem assign_tier_step_function :
  (forall c, 7 <= c -> scoring.assign_tier c = scoring.LOCK) /\
  (forall c, 4.5 <= c -> c < 7 -> scoring.assign_tier c = scoring.STRONG) /\
  (forall c, 2 <= c -> c < 4.5 -> scoring.assign_tier c = scoring.LEAN) /\
  (forall c, c < 2 -> scoring.assign_tier c = scoring.SKIP) /\
  (forall c1 c2, c1 <= c2 ->
     (spec.tier_rank (scoring.assign_tier c1)
      <= spec.tier_rank (scoring.assign_tier c2))%nat) /\
  scoring.assign_tier 7.0 = scoring.LOCK /\
  scoring.assign_tier 6.999 = scoring.STRONG /\
  scoring.assign_tier 4.5 = scoring.STRONG /\
  scoring.assign_tier 4.499 = scoring.LEAN /\
  scoring.assign_tier 2.0 = scoring.LEAN /\
  scoring.assign_tier 1.999 = scoring.SKIP.
Proof.
  repeat split; try reflexivity.
  - intros c H.
    destruct (assign_tier_cases c) as [[_ E]|[[B E]|[[B E]|[B E]]]];
      rewrite E; try reflexivity; exfalso; lra.
  - intros c H1 H2.
    destruct (assign_tier_cases c) as [[B E]|[[_ E]|[[B E]|[B E]]]];
      rewrite E; try reflexivity; exfalso; lra.
  - intros c H1 H2.
    destruct (assign_tier_cases c) as [[B E]|[[B E]|[[_ E]|[B E]]]];
      rewrite E; try reflexivity; exfalso; lra.
  - intros c H.
    destruct (assign_tier_cases c) as [[B E]|[[B E]|[[B E]|[_ E]]]];
      rewrite E; try reflexivity; exfalso; lra.
  - intros c1 c2 Hle.
    destruct (assign_tier_cases c1) as [[B1 E1]|[[B1 E1]|[[B1 E1]|[B1 E1]]]];
    destruct (assign_tier_cases c2) as [[B2 E2]|[[B2 E2]|[[B2 E2]|[B2 E2]]]];
      rewrite E1, E2; simpl; try lia; exfalso; lra.
Qed.

(** The backtest's own copy of the thresholds gives the label of
    [assign_tier]. *)
Lemma tier_from_composite_mirrors_assign_tier (c : Q) :
  backtest._tier_from_composite (Some c) = scoring.value (scoring.assign_tier c).
Proof.
  unfold backtest._tier_from_composite, backtest.ge_nan, scoring.assign_tier.
  destruct (Qle_bool 7.0 c); [reflexivity|].
  destruct (Qle_bool 4.5 c); [reflexivity|].
  destruct (Qle_bool 2.0 c); reflexivity.
Qed.

(** ** Backtest: return on investment and accuracy *)

Lemma inject_Z_nonzero (z : Z) : z <> 0%Z -> ~ inject_Z z == 0.
Proof.
  intros Hz H. apply Hz. unfold Qeq, inject_Z in H. simpl in H. lia.
Qed.

(** C7: ROI is (100*W - 110*L) / (110*(W+L)) and accuracy is W / (W+L),
    both 0.0 when W+L = 0 and both independent of the pushes; ROI is about
    0.909 for 10 wins and no loss, and -1 for no win and 10 losses. *)
Theorem roi_and_accuracy (W L P : Z) :
  ((W + L)%Z = 0%Z -> backtest._compute_roi W L P == 0) /\
  ((W + L)%Z <> 0%Z ->
     backtest._compute_roi W L P
       == inject_Z (100 * W - 110 * L) / inject_Z (110 * (W + L))) /\
  (forall P' : Z, backtest._compute_roi W L P' = backtest._compute_roi W L P) /\
  ((W + L)%Z = 0%Z -> backtest._compute_accuracy W L == 0) /\
  ((W + L)%Z <> 0%Z ->
     backtest._compute_accuracy W L == inject_Z W / inject_Z (W + L)) /\
  backtest._compute_roi 10 0 P == 10 # 11 /\
  0.909 < backtest._compute_roi 10 0 P < 0.9091 /\
  backtest._compute_roi 0 10 P == -1 /\
  backtest._compute_roi 0 0 P == 0.
Proof.
  unfold backtest._compute_roi, backtest._compute_accuracy,
    backtest._JUICE_WIN, backtest._JUICE_RISK.
  repeat split; try reflexivity.
  - intros H. rewrite H. reflexivity.
  - intros H. apply Z.eqb_neq in H. rewrite H.
    apply Z.eqb_neq in H.
    unfold Z.sub.
    rewrite !inject_Z_mult, !inject_Z_plus, inject_Z_opp, !inject_Z_mult.
    assert (Hd : ~ inject_Z W + inject_Z L == 0).
    { rewrite <- inject_Z_plus. apply inject_Z_nonzero. exact H. }
    field. exact Hd.
  - intros H. rewrite H. reflexivity.
  - intros H. apply Z.eqb_neq in H. rewrite H. reflexivity.
Qed.

(** ** Kelly sizing *)

Section KellyFacts.

Local Open Scope R_scope.

Lemma clip_R_bounds (x lo hi : R) : lo <= hi -> lo <= scoring._clip_R x lo hi <= hi.
Proof.
  intros Hle. unfold scoring._clip_R. split.
  - apply Rmax_l.
  - apply Rmax_lub; [exact Hle | apply Rmin_l].
Qed.

Lemma clip_R_inside (x lo hi : R) : lo <= x <= hi -> scoring._clip_R x lo hi = x.
Proof.
  intros [Hlo Hhi]. unfold scoring._clip_R.
  rewrite (Rmin_right hi x Hhi). apply Rmax_right. exact Hlo.
Qed.

Lemma clip_R_above (x hi : R) : 0 <= x -> 0 <= hi -> scoring._clip_R x 0 hi = Rmin x hi.
Proof.
  intros Hx Hhi. unfold scoring._clip_R.
  rewrite (Rmin_comm hi x). apply Rmax_right.
  apply Rmin_glb; assumption.
Qed.

Lemma kelly_range (composite implied_prob : R) :
  0 <= scoring.compute_kelly_fraction composite implied_prob <= 25 / 100.
Proof.
  unfold scoring.compute_kelly_fraction. cbv zeta.
  destruct (Rge_dec implied_prob 1); [Lra.lra|].
  destruct (Rle_dec _ 0); [Lra.lra|].
  apply clip_R_bounds. Lra.lra.
Qed.

(** Inside the guard on the exponent, the estimate of the code is the
    logistic estimate. *)
Lemma kelly_unfold (composite implied_prob : R) :
  -500 <= - (6 / 10) * (composite - 5) <= 500 ->
  scoring.compute_kelly_fraction composite implied_prob =
    if Rge_dec implied_prob 1 then 0
    else if Rle_dec (spec.logistic composite - implied_prob) 0 then 0
    else scoring._clip_R
           ((spec.logistic composite - implied_prob) / (1 - implied_prob))
           0 (25 / 100).
Proof.
  intros Hdom. unfold scoring.compute_kelly_fraction, spec.logistic. cbv zeta.
  rewrite (clip_R_inside _ (-500) 500 Hdom). reflexivity.
Qed.

End KellyFacts.

(** C5: the Kelly fraction always lies in [0, 0.25]; for a composite whose
    exponent is inside the guard of the code (every composite of the 0-10
    scale is), it is 0 when the implied probability is at least 1 or the
    logistic estimate does not exceed it, and otherwise the edge over
    (1 - implied probability) capped at 0.25; at composite 5 and implied
    probability 0.5 it is 0. *)
Theorem kelly_fraction_formula (composite implied_prob : R) :
  (0 <= scoring.compute_kelly_fraction composite implied_prob <= 25 / 100)%R /\
  ((-500 <= - (6 / 10) * (composite - 5) <= 500)%R ->
     ((implied_prob >= 1)%R ->
        scoring.compute_kelly_fraction composite implied_prob = 0%R) /\
     ((spec.logistic composite <= implied_prob)%R ->
        scoring.compute_kelly_fraction composite implied_prob = 0%R) /\
     ((implied_prob < 1)%R -> (implied_prob < spec.logistic composite)%R ->
        scoring.compute_kelly_fraction composite implied_prob =
          Rmin ((spec.logistic composite - implied_prob) / (1 - implied_prob))
               (25 / 100))) /\
  ((0 <= composite <= 10)%R ->
     (-500 <= - (6 / 10) * (composite - 5) <= 500)%R) /\
  scoring.compute_kelly_fraction 5 (1 / 2) = 0%R.
Proof.
  split; [apply kelly_range|]. split; [|split].
  - intros Hdom. rewrite (kelly_unfold _ _ Hdom). repeat split.
    + intros Hp. destruct (Rge_dec implied_prob 1); [reflexivity | Lra.lra].
    + intros Hle. destruct (Rge_dec implied_prob 1); [reflexivity|].
      destruct (Rle_dec _ 0); [reflexivity | Lra.lra].
    + intros Hp Hlt. destruct (Rge_dec implied_prob 1); [Lra.lra|].
      destruct (Rle_dec _ 0); [Lra.lra|].
      apply clip_R_above; [|Lra.lra].
      apply Rlt_le. apply Rdiv_lt_0_compat; Lra.lra.
  - intros H. Lra.lra.
  - rewrite kelly_unfold by Lra.lra.
    assert (E : spec.logistic 5 = (1 / 2)%R).
    { unfold spec.logistic.
      replace (- (6 / 10) * (5 - 5))%R with 0%R by Lra.lra.
      rewrite exp_0. Lra.lra. }
    rewrite E.
    destruct (Rge_dec (1 / 2) 1); [reflexivity|].
    destruct (Rle_dec _ 0); [reflexivity | Lra.lra].
Qed.

(** The formula branch of [kelly_fraction_formula], at composite 7 against a
    coin flip. *)
Lemma kelly_fraction_formula_witness :
  scoring.compute_kelly_fraction 7 (1 / 2) =
    Rmin ((spec.logistic 7 - 1 / 2) / (1 - 1 / 2)) (25 / 100).
Proof.
  destruct (kelly_fraction_formula 7 (1 / 2)) as [_ [H _]].
  destruct H as [_ [_ H]]; [Lra.lra|].
  apply H; [Lra.lra|].
  unfold spec.logistic.
  assert (Hexp : (exp (- (6 / 10) * (7 - 5)) < 1)%R).
  { rewrite <- exp_0. apply exp_increasing. Lra.lra. }
  assert (Hpos : (0 < exp (- (6 / 10) * (7 - 5)))%R) by apply exp_pos.
  apply Rmult_lt_reg_r with (1 + exp (- (6 / 10) * (7 - 5)))%R; [Lra.lra|].
  replace (1 / (1 + exp (- (6 / 10) * (7 - 5))) * (1 + exp (- (6 / 10) * (7 - 5))))%R
    with 1%R by (field; Lra.lra).
  Lra.lra.
Defined.

(** ** The dimension dispatcher *)

Section DispatcherFacts.

Import scoring pipeline.

Variable import_attr : string -> string -> Exc DimFunc.

Lemma init_cache_registered : cache_registered __init__.
Proof.
  intros k [f Hf]. unfold __init__ in Hf. simpl in Hf.
  rewrite lookup_empty in Hf. discriminate.
Qed.

(** Resolution either hits the cache, raises, or imports and caches. *)
Lemma get_dimension_func_cache_registered (dim_name : string) (self : Pipeline) :
  cache_registered self ->
  cache_registered (snd (_get_dimension_func import_attr dim_name self)).
Proof.
  intros Hinv. unfold _get_dimension_func.
  destruct (_dim_funcs self !! dim_name) as [f|] eqn:Ec; [exact Hinv|].
  destruct (_DIMENSION_REGISTRY !! dim_name) as [[mp fn]|] eqn:Er; [|exact Hinv].
  destruct (import_attr mp fn) as [f|e]; [|exact Hinv].
  intros k Hk. simpl in Hk.
  destruct (decide (dim_name = k)) as [->|Hne].
  - rewrite Er. eauto.
  - rewrite lookup_insert_ne in Hk by exact Hne. apply Hinv. exact Hk.
Qed.

(** What [_run_dimension] returns, by the outcome of the resolution and of
    the call. *)
Lemma run_dimension_outcome (dim_name : string) (ctx : MatchupContext)
    (self : Pipeline) :
  fst (_run_dimension import_attr dim_name ctx self) =
    match fst (_get_dimension_func import_attr dim_name self) with
    | Raise _ => Return (neutral dim_name)
    | Return func =>
        match func ctx with
        | Raise _ => Return (neutral dim_name)
        | Return result =>
            Return (set_confidence result
                      (Qmax 0.0 (Qmin 1.0 (confidence result))))
        end
    end.
Proof.
  unfold _run_dimension, try_except, bind, lift, ret, logger.
  destruct (_get_dimension_func import_attr dim_name self) as [[func|e] self'];
    simpl; [|reflexivity].
  destruct (func ctx) as [result|e]; reflexivity.
Qed.

Lemma run_dimension_cache_registered (dim_name : string) (ctx : MatchupContext)
    (self : Pipeline) :
  cache_registered self ->
  cache_registered (snd (_run_dimension import_attr dim_name ctx self)).
Proof.
  intros Hinv.
  pose proof (get_dimension_func_cache_registered dim_name self Hinv) as H.
  unfold _run_dimension, try_except, bind, lift, ret, logger.
  destruct (_get_dimension_func import_attr dim_name self) as [[func|e] self'];
    simpl in *; [|exact H].
  destruct (func ctx) as [result|e]; exact H.
Qed.

Lemma clamp_unit_interval (c : Q) : 0 <= Qmax 0.0 (Qmin 1.0 c) <= 1.
Proof.
  split.
  - apply Qle_trans with 0.0; [discriminate | apply Q.le_max_l].
  - apply Q.max_lub; [discriminate|].
    apply Qle_trans with 1.0; [apply Q.le_min_l | discriminate].
Qed.

End DispatcherFacts.

(** C6: when the resolved signal source raises, [_run_dimension] returns the
    neutral result (zero edges, zero confidence, the "dimension unavailable"
    narrative) instead of raising; when the source returns, the result is
    the source's with its confidence clamped into [0, 1]; in every case a
    result is returned and its confidence is in [0, 1]. *)
Theorem dispatcher_isolates_source_failures
    (import_attr : string -> string -> Exc pipeline.DimFunc)
    (dim_name : string) (ctx : pipeline.MatchupContext)
    (self : pipeline.Pipeline) :
  (forall func e,
     fst (pipeline._get_dimension_func import_attr dim_name self) = Return func ->
     func ctx = Raise e ->
     exists r,
       fst (pipeline._run_dimension import_attr dim_name ctx self) = Return r /\
       scoring.name r = dim_name /\
       scoring.spread_edge r == 0 /\
       scoring.total_edge r == 0 /\
       scoring.confidence r == 0 /\
       scoring.narrative r
         = ("[" ++ dim_name ++ "] dimension unavailable.")%string) /\
  (forall func r0,
     fst (pipeline._get_dimension_func import_attr dim_name self) = Return func ->
     func ctx = Return r0 ->
     exists r,
       fst (pipeline._run_dimension import_attr dim_name ctx self) = Return r /\
       0 <= scoring.confidence r <= 1 /\
       scoring.confidence r == Qmax 0 (Qmin 1 (scoring.confidence r0)) /\
       scoring.name r = scoring.name r0 /\
       scoring.spread_edge r = scoring.spread_edge r0 /\
       scoring.total_edge r = scoring.total_edge r0 /\
       scoring.narrative r = scoring.narrative r0 /\
       scoring.raw_data r = scoring.raw_data r0) /\
  (exists r,
     fst (pipeline._run_dimension import_attr dim_name ctx self) = Return r /\
     0 <= scoring.confidence r <= 1).
Proof.
  rewrite run_dimension_outcome.
  split; [|split].
  - intros func e Hres Hcall. rewrite Hres, Hcall.
    exists (pipeline.neutral dim_name). simpl. repeat split; reflexivity.
  - intros func r0 Hres Hcall. rewrite Hres, Hcall.
    eexists. split; [reflexivity|]. simpl.
    split; [apply clamp_unit_interval|].
    repeat split; try reflexivity.
    setoid_replace 0.0 with 0 using relation Qeq by reflexivity.
    setoid_replace 1.0 with 1 using relation Qeq by reflexivity.
    reflexivity.
  - destruct (fst (pipeline._get_dimension_func import_attr dim_name self))
      as [func|e].
    + destruct (func ctx) as [r0|e].
      * eexists. split; [reflexivity|]. simpl. apply clamp_unit_interval.
      * exists (pipeline.neutral dim_name). split; [reflexivity|].
        simpl. split; discriminate.
    + exists (pipeline.neutral dim_name). split; [reflexivity|].
      simpl. split; discriminate.
Qed.

(** [dispatcher_isolates_source_failures] on a fresh pipeline, for the
    registered name "recency": a raising source gives the neutral result and
    an over-confident one is clamped to 1. *)
Lemma dispatcher_isolates_source_failures_witness :
  (exists r,
     fst (pipeline._run_dimension example.import_failing "recency"
            example.ctx0 pipeline.__init__) = Return r /\
     scoring.confidence r == 0 /\
     scoring.narrative r = "[recency] dimension unavailable."%string) /\
  (exists r,
     fst (pipeline._run_dimension example.import_overconfident "recency"
            example.ctx0 pipeline.__init__) = Return r /\
     scoring.confidence r == 1).
Proof.
  split.
  - destruct (dispatcher_isolates_source_failures example.import_failing
                "recency" example.ctx0 pipeline.__init__) as [H _].
    destruct (H example.failing_source (OtherException "division by zero"))
      as [r [Hr [_ [_ [_ [Hc Hn]]]]]]; [reflexivity | reflexivity |].
    exists r. repeat split; assumption.
  - destruct (dispatcher_isolates_source_failures example.import_overconfident
                "recency" example.ctx0 pipeline.__init__) as [_ [H _]].
    destruct (H example.overconfident_source
                {| scoring.name := "recency"; scoring.spread_edge := 2.0;
                   scoring.total_edge := 1.0; scoring.confidence := 1.7;
                   scoring.narrative := "Hot streak.";
                   scoring.raw_data := None |})
      as [r [Hr [_ [Hc _]]]]; [reflexivity | reflexivity |].
    exists r. split; [exact Hr|]. rewrite Hc. reflexivity.
Defined.

(** C2, as the code has it: a name that is neither registered nor cached
    makes [_get_dimension_func] raise [KeyError] and leave the pipeline as
    it was, and [_run_dimension] catches that error like any other: it
    returns the neutral result for the name, logs the failure and keeps the
    cache. *)
Theorem unknown_dimension_yields_neutral_result
    (import_attr : string -> string -> Exc pipeline.DimFunc)
    (dim_name : string) (ctx : pipeline.MatchupContext)
    (self : pipeline.Pipeline)
    (Hunknown : pipeline._DIMENSION_REGISTRY !! dim_name = None)
    (Hcache : pipeline.cache_registered self) :
  pipeline._get_dimension_func import_attr dim_name self
    = (Raise (KeyError ("Unknown dimension: " ++ repr dim_name)), self) /\
  fst (pipeline._run_dimension import_attr dim_name ctx self)
    = Return (pipeline.neutral dim_name) /\
  pipeline._dim_funcs (snd (pipeline._run_dimension import_attr dim_name ctx self))
    = pipeline._dim_funcs self /\
  exists record,
    pipeline.log (snd (pipeline._run_dimension import_attr dim_name ctx self))
      = pipeline.log self ++ [record] /\
    levelname record = ERROR.
Proof.
  assert (Hget :
    pipeline._get_dimension_func import_attr dim_name self
      = (Raise (KeyError ("Unknown dimension: " ++ repr dim_name)), self)).
  { unfold pipeline._get_dimension_func.
    destruct (pipeline._dim_funcs self !! dim_name) as [f|] eqn:Ec.
    - destruct (Hcache dim_name) as [x Hx]; [eauto|]. congruence.
    - rewrite Hunknown. reflexivity. }
  split; [exact Hget|].
  unfold pipeline._run_dimension, try_except, bind, pipeline.lift, ret,
    pipeline.logger.
  rewrite Hget. simpl.
  repeat split. eexists. split; reflexivity.
Qed.

(** [unknown_dimension_yields_neutral_result] for the name "bogus" on a
    fresh pipeline. *)
Lemma unknown_dimension_yields_neutral_result_witness :
  fst (pipeline._run_dimension example.import_failing "bogus" example.ctx0
         pipeline.__init__)
    = Return (pipeline.neutral "bogus").
Proof.
  apply (unknown_dimension_yields_neutral_result example.import_failing
           "bogus" example.ctx0 pipeline.__init__).
  - vm_compute. reflexivity.
  - apply init_cache_registered.
Defined.

(** C2 as stated fails: "bogus" is not a registered name, yet dispatching
    it on a fresh pipeline raises nothing and returns the neutral result. *)
Lemma unknown_dimension_not_raised :
  pipeline._DIMENSION_REGISTRY !! "bogus"%string = None /\
  (forall e,
     fst (pipeline._run_dimension example.import_failing "bogus" example.ctx0
            pipeline.__init__) <> Raise e) /\
  fst (pipeline._run_dimension example.import_failing "bogus" example.ctx0
         pipeline.__init__)
    = Return (pipeline.neutral "bogus").
Proof.
  assert (H : fst (pipeline._run_dimension example.import_failing "bogus"
                     example.ctx0 pipeline.__init__)
              = Return (pipeline.neutral "bogus")) by (vm_compute; reflexivity).
  split; [vm_compute; reflexivity|].
  split; [|exact H].
  intros e He. rewrite H in He. discriminate.
Qed.

(** ** Rounding to one decimal *)

Lemma Qfloor_unique (x : Q) (n : Z) :
  inject_Z n <= x -> x < inject_Z (n + 1) -> Qfloor x = n.
Proof.
  intros Hlo Hhi.
  pose proof (Qfloor_le x) as H1. pose proof (Qlt_floor x) as H2.
  assert (Ha : (n < Qfloor x + 1)%Z).
  { rewrite Zlt_Qlt. eapply Qle_lt_trans; [exact Hlo | exact H2]. }
  assert (Hb : (Qfloor x < n + 1)%Z).
  { rewrite Zlt_Qlt. eapply Qle_lt_trans; [exact H1 | exact Hhi]. }
  lia.
Qed.

Lemma Qfloor_shift (x : Q) (k : Z) :
  Qfloor (x - inject_Z k) = (Qfloor x - k)%Z.
Proof.
  pose proof (Qfloor_le x) as H1. pose proof (Qlt_floor x) as H2.
  apply Qfloor_unique.
  - unfold Z.sub. rewrite inject_Z_plus, inject_Z_opp. lra.
  - replace (Qfloor x - k + 1)%Z with ((Qfloor x + 1) + - k)%Z by lia.
    rewrite inject_Z_plus, inject_Z_opp. lra.
Qed.

Lemma round_half_even_comp (x y : Q) :
  x == y -> pipeline.round_half_even x = pipeline.round_half_even y.
Proof.
  intros E. unfold pipeline.round_half_even.
  rewrite (Qfloor_comp _ _ E).
  assert (Ec : Qcompare (x - inject_Z (Qfloor y)) (1 # 2)
               = Qcompare (y - inject_Z (Qfloor y)) (1 # 2)).
  { apply Qcompare_comp; [rewrite E; reflexivity | reflexivity]. }
  rewrite Ec. reflexivity.
Qed.

Lemma round_half_even_shift (x : Q) (k : Z) :
  Z.even k = true ->
  pipeline.round_half_even (x - inject_Z k)
    = (pipeline.round_half_even x - k)%Z.
Proof.
  intros Hk. unfold pipeline.round_half_even.
  rewrite Qfloor_shift.
  assert (Ec : Qcompare (x - inject_Z k - inject_Z (Qfloor x - k)) (1 # 2)
               = Qcompare (x - inject_Z (Qfloor x)) (1 # 2)).
  { apply Qcompare_comp; [|reflexivity].
    unfold Z.sub. rewrite inject_Z_plus, inject_Z_opp. ring. }
  rewrite Ec.
  destruct (Qcompare (x - inject_Z (Qfloor x)) (1 # 2)); try lia.
  rewrite Z.even_sub, Hk.
  destruct (Z.even (Qfloor x)); simpl; lia.
Qed.

Lemma round_comp (x y : Q) (ndigits : nat) :
  x == y -> pipeline.round x ndigits = pipeline.round y ndigits.
Proof.
  intros E. unfold pipeline.round.
  set (scale := inject_Z (10 ^ Z.of_nat ndigits)).
  rewrite (round_half_even_comp (x * scale) (y * scale)); [reflexivity|].
  rewrite E. reflexivity.
Qed.

(** Rounding to one decimal commutes with subtracting a whole even number
    of tenths. *)
Lemma round1_shift (x : Q) (k : Z) :
  pipeline.round (x - inject_Z k) 1 == pipeline.round x 1 - inject_Z k.
Proof.
  unfold pipeline.round.
  change (inject_Z (10 ^ Z.of_nat 1)) with (inject_Z 10).
  rewrite (round_half_even_comp ((x - inject_Z k) * inject_Z 10)
             (x * inject_Z 10 - inject_Z (k * 10))).
  - rewrite round_half_even_shift.
    + unfold Z.sub. rewrite inject_Z_plus, inject_Z_opp, inject_Z_mult.
      field.
    + rewrite Z.even_mul. apply orb_true_r.
  - rewrite inject_Z_mult. ring.
Qed.

(** ** Single-game analysis *)

Section AnalyzeFacts.

Import scoring pipeline.

Variable import_attr : string -> string -> Exc DimFunc.

Lemma run_dimension_returns (dim_name : string) (ctx : MatchupContext)
    (self : Pipeline) :
  exists r self',
    _run_dimension import_attr dim_name ctx self = (Return r, self').
Proof.
  unfold _run_dimension, try_except, bind, lift, ret, logger.
  destruct (_get_dimension_func import_attr dim_name self) as [[func|e] self'];
    simpl; [|eauto].
  destruct (func ctx) as [result|e]; eauto.
Qed.

(** The loop over the weight table runs every dimension and never raises. *)
Lemma for_each_run_dimension_returns (names : list string)
    (ctx : MatchupContext) (self : Pipeline) :
  exists results self',
    for_each names (fun dim_name => _run_dimension import_attr dim_name ctx) self
      = (Return results, self') /\
    length results = length names.
Proof.
  revert self. induction names as [|n names IH]; intros self; simpl.
  - exists [], self. split; reflexivity.
  - unfold bind at 1.
    destruct (run_dimension_returns n ctx self) as [r [self1 Hr]]. rewrite Hr.
    unfold bind at 1.
    destruct (IH self1) as [rs [self2 [Hrs Hlen]]]. rewrite Hrs.
    exists (r :: rs), self2. split; [reflexivity | simpl; congruence].
Qed.

(** The fallback projection succeeds when no rating cell it reads is NULL. *)
Lemma project_scores_returns (ctx : MatchupContext)
    (results : list DimensionResult) :
  ratings_numeric ctx ->
  exists proj_away proj_home,
    project_scores ctx results = Return (proj_away, proj_home).
Proof.
  intros Hnum. unfold project_scores.
  destruct (_ ≫= truthy_raw_data) as [d|]; [eauto|].
  destruct (Hnum "adj_o"%string) as [Hao Hho]; [left; reflexivity|].
  destruct (Hnum "adj_d"%string) as [Had Hhd]; [right; reflexivity|].
  assert (Hget : forall s key dflt, s !! key <> Some None ->
            exists q, (if negb (empty s) then get s key dflt else Some dflt)
                      = Some q).
  { intros s key dflt Hs. destruct (negb (empty s)); [|eauto].
    unfold get. destruct (s !! key) as [[q|]|]; eauto. congruence. }
  destruct (Hget (away_ratings ctx) "adj_o"%string 105.0 Hao) as [ao ->].
  destruct (Hget (home_ratings ctx) "adj_d"%string 105.0 Hhd) as [hd ->].
  destruct (Hget (home_ratings ctx) "adj_o"%string 105.0 Hho) as [ho ->].
  destruct (Hget (away_ratings ctx) "adj_d"%string 105.0 Had) as [ad ->].
  simpl. eauto.
Qed.

End AnalyzeFacts.

(** C10: with an empty market-line series, the card records a market spread
    of 0.0 and a market total of 140.0, and its value edges are the
    projection minus those defaults: on the card, [spread_value] is
    [true_spread - 0] and [total_value] is [projected_total - 140], each the
    one-decimal rounding of the projected difference.  The card is produced
    whenever the projection is (for instance when no rating cell is
    NULL). *)
Theorem empty_line_falls_back_to_default_market
    (import_attr : string -> string -> Exc pipeline.DimFunc)
    (ctx : pipeline.MatchupContext) (self : pipeline.Pipeline)
    (Hline : pipeline.empty (pipeline.line ctx) = true) :
  (forall card,
     fst (pipeline.analyze_matchup import_attr ctx self) = Return card ->
     pick_card.spread card == 0 /\
     pick_card.total card == 140 /\
     pick_card.spread_value card == pick_card.true_spread card - 0 /\
     pick_card.total_value card == pick_card.projected_total card - 140 /\
     exists proj_away proj_home,
       pipeline.project_scores ctx (pick_card.dimension_results card)
         = Return (proj_away, proj_home) /\
       pick_card.spread_value card
         == pipeline.round (proj_away - proj_home - 0) 1 /\
       pick_card.total_value card
         == pipeline.round (proj_away + proj_home - 140) 1) /\
  (pipeline.ratings_numeric ctx ->
   exists card,
     fst (pipeline.analyze_matchup import_attr ctx self) = Return card).
Proof.
  destruct (for_each_run_dimension_returns import_attr
              (map fst pipeline.DIMENSION_WEIGHTS) ctx self)
    as [results [self' [Hrun _]]].
  unfold pipeline.analyze_matchup, bind, pipeline.lift, ret.
  rewrite Hrun, Hline. cbn [negb]. cbv beta iota.
  split.
  - intros card Hcard.
    destruct (pipeline.project_scores ctx results) as [[pa ph]|e] eqn:Eproj;
      cbn [fst] in Hcard; [|discriminate].
    injection Hcard as <-. cbn [pick_card.spread pick_card.total
      pick_card.spread_value pick_card.total_value pick_card.true_spread
      pick_card.projected_total pick_card.dimension_results].
    change (pipeline.float_or (Some 0.0) 0) with 0.
    change (pipeline.float_or (Some 140.0) 140) with 140.0.
    change (pipeline.float_or_default (Some 0.0) 0.0) with 0.0.
    change (pipeline.float_or_default (Some 140.0) 140.0) with 140.0.
    split; [reflexivity|]. split; [reflexivity|].
    split.
    { rewrite (round_comp (pa - ph - 0) (pa - ph)) by ring. ring. }
    split.
    { rewrite (round_comp (pa + ph - 140.0) (pa + ph - inject_Z 140))
        by (change (inject_Z 140) with 140;
            setoid_replace 140.0 with 140 using relation Qeq by reflexivity;
            reflexivity).
      apply (round1_shift (pa + ph) 140). }
    exists pa, ph. split; [exact Eproj|].
    split; [reflexivity|].
    rewrite (round_comp (pa + ph - 140.0) (pa + ph - 140))
      by (setoid_replace 140.0 with 140 using relation Qeq by reflexivity;
          reflexivity).
    reflexivity.
  - intros Hnum.
    destruct (project_scores_returns ctx results Hnum) as [pa [ph Eproj]].
    rewrite Eproj. eexists. reflexivity.
Qed.

(** [empty_line_falls_back_to_default_market] on the game with no data at
    all, every signal source failing. *)
Lemma empty_line_falls_back_to_default_market_witness :
  exists card,
    fst (pipeline.analyze_matchup example.import_failing example.ctx0
           pipeline.__init__) = Return card /\
    pick_card.spread card == 0 /\
    pick_card.total card == 140 /\
    pick_card.total_value card == pick_card.projected_total card - 140.
Proof.
  destruct (empty_line_falls_back_to_default_market example.import_failing
              example.ctx0 pipeline.__init__) as [Hcard Hex];
    [vm_compute; reflexivity|].
  destruct Hex as [card Ec].
  { intros key _. split; vm_compute; discriminate. }
  exists card. split; [exact Ec|].
  destruct (Hcard card Ec) as [Hs [Ht [_ [Hv _]]]].
  repeat split; assumption.
Defined.

(** C1, evaluated on the code: every card names a side for both markets,
    whatever their tiers ([total_pick] is "OVER" or "UNDER", [spread_pick] is
    one of the two teams).  For the game "Duke" at "UNC" with twelve weak
    signals (edge 0.1 towards the away side and the under, confidence 0.5),
    both composites are 0.5, both tiers are SKIP, and the card still names
    "Duke" as the spread pick and "UNDER" as the total pick: the chosen side
    of a SKIP market is not the empty string. *)
Theorem skip_tier_keeps_pick_side :
  (forall import_attr ctx self card,
     fst (pipeline.analyze_matchup import_attr ctx self) = Return card ->
     (pick_card.total_pick card = "OVER"%string
      \/ pick_card.total_pick card = "UNDER"%string) /\
     (pick_card.spread_pick card = pipeline.away_team ctx
      \/ pick_card.spread_pick card = pipeline.home_team ctx)) /\
  exists card,
    fst (pipeline.analyze_matchup example.import_weak example.ctx0
           pipeline.__init__) = Return card /\
    pick_card.spread_composite card == 0.5 /\
    pick_card.spread_confidence card = "SKIP"%string /\
    pick_card.spread_pick card = "Duke"%string /\
    pick_card.total_composite card == 0.5 /\
    pick_card.total_confidence card = "SKIP"%string /\
    pick_card.total_pick card = "UNDER"%string.
Proof.
  split.
  - intros import_attr ctx self card.
    destruct (for_each_run_dimension_returns import_attr
                (map fst pipeline.DIMENSION_WEIGHTS) ctx self)
      as [results [self' [Hrun _]]].
    unfold pipeline.analyze_matchup, bind, pipeline.lift, ret.
    rewrite Hrun. cbv beta iota.
    destruct (pipeline.project_scores ctx results) as [[pa ph]|e];
      cbn [fst]; [|discriminate].
    intros [= <-]. cbn [pick_card.total_pick pick_card.spread_pick].
    split.
    + destruct (Qle_bool 0 (pipeline._aggregate_direction results
                              scoring.attr_total_edge)); auto.
    + destruct (Qle_bool 0 (pipeline._aggregate_direction results
                              scoring.attr_spread_edge)); auto.
  - eexists. split; [vm_compute; reflexivity|].
    vm_compute. repeat split; reflexivity.
Qed.

(** ** Calibration *)

Section CalibrationFacts.

Import backtest.

Lemma filter_map_comm {A B : Type} (p : B -> bool) (f : A -> B) (l : list A) :
  List.filter p (map f l) = map f (List.filter (fun x => p (f x)) l).
Proof.
  induction l as [|a l IH]; simpl; [reflexivity|].
  destruct (p (f a)); simpl; congruence.
Qed.

Lemma filter_filter {A : Type} (p q : A -> bool) (l : list A) :
  List.filter q (List.filter p l) = List.filter (fun x => p x && q x) l.
Proof.
  induction l as [|a l IH]; simpl; [reflexivity|].
  destruct (p a); simpl; [destruct (q a); congruence | assumption].
Qed.

Lemma isin_decided (r : PickRow) :
  isin (result r) ["W"; "L"]%string = spec.decided r.
Proof.
  unfold isin, spec.decided. destruct (result r) as [s|].
  - apply bool_decide_ext. rewrite !elem_of_cons, elem_of_nil.
    split; [intros [->|[->|[]]]; auto | intros [[= ->]|[= ->]]; auto].
  - symmetry. apply bool_decide_eq_false. intros [H|H]; discriminate.
Qed.

Lemma won_decided (r : PickRow) : spec.won r = true -> spec.decided r = true.
Proof.
  unfold spec.won, spec.decided. rewrite !bool_decide_eq_true. auto.
Qed.

(** The sum of the [is_win] column counts the wins. *)
Lemma sum_is_win (l : list PickRow) (acc : Z) :
  fold_left Z.add (map is_win (map mk_decided l)) acc
    = (acc + Z.of_nat (length (List.filter spec.won l)))%Z.
Proof.
  revert acc. induction l as [|r l IH]; intros acc; simpl.
  - lia.
  - rewrite IH. unfold spec.won.
    destruct (bool_decide (result r = Some "W"%string)); simpl length; lia.
Qed.

Ltac qle_eval :=
  repeat match goal with
    | |- context [Qle_bool ?a ?b] =>
        first [ rewrite (proj2 (Qle_bool_iff a b)) by lra
              | rewrite (proj2 (Qle_bool_false a b)) by lra ]
    end.

(** On the 0-10 scale [pandas.cut] puts a score in the band that holds it. *)
Lemma pd_cut_bands (c : Q) :
  0 <= c <= 10 ->
  (c < 2 /\ pd_cut (Some c) bin_edges bin_labels = Some "0-2"%string) \/
  (2 <= c < 4.5 /\ pd_cut (Some c) bin_edges bin_labels = Some "2-4.5"%string) \/
  (4.5 <= c < 7 /\ pd_cut (Some c) bin_edges bin_labels = Some "4.5-7"%string) \/
  (7 <= c < 8.5 /\ pd_cut (Some c) bin_edges bin_labels = Some "7-8.5"%string) \/
  (8.5 <= c /\ pd_cut (Some c) bin_edges bin_labels = Some "8.5-10"%string).
Proof.
  intros [H0 H10].
  unfold pd_cut, searchsorted_right, bin_edges, bin_labels.
  cbn [List.filter].
  destruct (Qeq_bool c 0.0) eqn:E0.
  - apply Qeq_bool_iff in E0. left. split; [lra|].
    qle_eval. reflexivity.
  - destruct (Qlt_le_dec c 2) as [H2|H2];
      [left; split; [lra|]; qle_eval; reflexivity|].
    destruct (Qlt_le_dec c 4.5) as [H4|H4];
      [right; left; split; [lra|]; qle_eval; reflexivity|].
    destruct (Qlt_le_dec c 7) as [H7|H7];
      [right; right; left; split; [lra|]; qle_eval; reflexivity|].
    destruct (Qlt_le_dec c 8.5) as [H8|H8];
      [right; right; right; left; split; [lra|]; qle_eval; reflexivity|].
    right; right; right; right. split; [lra|]. qle_eval. reflexivity.
Qed.

Lemma band_cut (b : spec.Band) (c : Q) :
  b ∈ spec.bands -> 0 <= c <= 10 ->
  bool_decide (pd_cut (Some c) bin_edges bin_labels = Some (spec.label b))
    = spec.in_band b c.
Proof.
  intros Hb Hc. apply list_elem_of_In in Hb.
  destruct Hb as [<-|[<-|[<-|[<-|[<-|[]]]]]];
    unfold spec.in_band; cbn [spec.label spec.lo spec.hi spec.closed_above];
    destruct (pd_cut_bands c Hc) as [[B ->]|[[B ->]|[[B ->]|[[B ->]|[B ->]]]]];
    qle_eval; reflexivity.
Qed.

Section Frame.

Variable df : list PickRow.

Hypothesis Hscores :
  forall r, r ∈ df -> spec.decided r = true ->
    exists c, composite_score r = Some c /\ 0 <= c <= 10.

Let decided_rows : list PickRow :=
  List.filter (fun r => isin (result r) ["W"; "L"]%string) df.

Lemma decided_rows_spec : decided_rows = List.filter spec.decided df.
Proof.
  apply filter_ext. intros r. apply isin_decided.
Qed.

(** The rows of the frame that fall in one band's bin. *)
Lemma bin_data_spec (b : spec.Band) :
  b ∈ spec.bands ->
  List.filter (fun d => bool_decide (bin_of d = Some (spec.label b)))
    (map mk_decided decided_rows)
  = map mk_decided (spec.decided_in b df).
Proof.
  intros Hb. rewrite filter_map_comm. f_equal.
  unfold decided_rows, spec.decided_in. rewrite filter_filter.
  apply filter_ext_in. intros r Hr. apply list_elem_of_In in Hr.
  rewrite isin_decided. cbn [bin_of mk_decided].
  destruct (spec.decided r) eqn:Ed; [|reflexivity].
  destruct (Hscores r Hr Ed) as [c [Ec Hc]].
  unfold spec.in_band_row. rewrite Ec. cbn [andb]. apply band_cut; assumption.
Qed.

Lemma won_in_spec (b : spec.Band) :
  List.filter spec.won (spec.decided_in b df) = spec.won_in b df.
Proof.
  unfold spec.decided_in, spec.won_in. rewrite filter_filter.
  apply filter_ext. intros r.
  destruct (spec.won r) eqn:Ew.
  - rewrite (won_decided r Ew). destruct (spec.in_band_row b r); reflexivity.
  - destruct (spec.decided r), (spec.in_band_row b r); reflexivity.
Qed.

(** Every decided row has one of the five labels as its bin. *)
Lemma decided_rows_binned (d : DecidedRow) :
  d ∈ map mk_decided decided_rows ->
  exists l, l ∈ bin_labels /\ bin_of d = Some l.
Proof.
  intros Hd. apply list_elem_of_In, in_map_iff in Hd as [r [<- Hr]].
  unfold decided_rows in Hr. apply filter_In in Hr as [Hr Hres].
  rewrite isin_decided in Hres. apply list_elem_of_In in Hr.
  destruct (Hscores r Hr Hres) as [c [Ec Hc]].
  cbn [bin_of mk_decided]. rewrite Ec.
  destruct (pd_cut_bands c Hc) as [[_ ->]|[[_ ->]|[[_ ->]|[[_ ->]|[_ ->]]]]];
    eexists; (split; [|reflexivity]); unfold bin_labels;
    repeat constructor.
Qed.

End Frame.

(** The counts of the rows appended for one label add up to its bin. *)
Lemma rows_for_count (decided : list DecidedRow) (bin_label : string) :
  list_sum (map count (calibration_rows_for decided bin_label))
    = length (List.filter (fun d => bool_decide (bin_of d = Some bin_label))
                decided).
Proof.
  unfold calibration_rows_for.
  destruct (List.filter _ decided) as [|d l]; simpl; lia.
Qed.

Lemma rows_for_inv (decided : list DecidedRow) (bin_label : string)
    (row : CalibrationRow) :
  In row (calibration_rows_for decided bin_label) ->
  let bin_data :=
    List.filter (fun d => bool_decide (bin_of d = Some bin_label)) decided in
  bin_data <> [] /\
  bin row = bin_label /\
  predicted row = default 0.0 (bin_midpoints !! bin_label) /\
  actual row = mean (map is_win bin_data) /\
  count row = length bin_data.
Proof.
  unfold calibration_rows_for. cbv zeta.
  destruct (List.filter _ decided) as [|d l] eqn:E; [intros []|].
  intros [<-|[]]. cbn. repeat split; congruence.
Qed.

(** Each row is in exactly one of the five bins. *)
Lemma bins_partition (decided : list DecidedRow) :
  (forall d, d ∈ decided -> exists l, l ∈ bin_labels /\ bin_of d = Some l) ->
  list_sum
    (map (fun l => length (List.filter
                             (fun d => bool_decide (bin_of d = Some l)) decided))
       bin_labels)
  = length decided.
Proof.
  unfold bin_labels. induction decided as [|d decided IH]; intros Hbin.
  - reflexivity.
  - assert (IH' := IH (fun d' Hd' => Hbin d' (list_elem_of_further _ _ _ Hd'))).
    destruct (Hbin d (list_elem_of_here _ _)) as [l [Hl Hd]].
    unfold list_sum in *. cbn [map fold_right List.filter] in *. rewrite Hd.
    apply list_elem_of_In in Hl.
    destruct Hl as [<-|[<-|[<-|[<-|[<-|[]]]]]];
      repeat case_bool_decide; try congruence; cbn [length]; lia.
Qed.

End CalibrationFacts.

Lemma list_sum_flat_map {A B : Type} (f : A -> list B) (g : B -> nat)
    (l : list A) :
  list_sum (map g (flat_map f l))
    = list_sum (map (fun x => list_sum (map g (f x))) l).
Proof.
  induction l as [|x l IH]; simpl; [reflexivity|].
  rewrite map_app, list_sum_app, IH. reflexivity.
Qed.

(** The table is the concatenation of the rows of the five labels, also
    when no pick is decided. *)
Lemma build_calibration_unfold (df : list backtest.PickRow) :
  backtest._build_calibration df =
    flat_map
      (backtest.calibration_rows_for
         (map backtest.mk_decided
            (List.filter
               (fun r => backtest.isin (backtest.result r) ["W"; "L"]%string)
               df)))
      backtest.bin_labels.
Proof.
  unfold backtest._build_calibration.
  destruct (List.filter _ df); reflexivity.
Qed.

Lemma label_band (l : string) :
  l ∈ backtest.bin_labels ->
  exists b, b ∈ spec.bands /\ spec.label b = l /\
    default 0.0 (backtest.bin_midpoints !! l) == spec.midpoint b.
Proof.
  intros Hl. apply list_elem_of_In in Hl.
  destruct Hl as [<-|[<-|[<-|[<-|[<-|[]]]]]].
  - exists (spec.mkBand "0-2" 0 2 false 0.10).
    split; [repeat constructor | split; reflexivity].
  - exists (spec.mkBand "2-4.5" 2 4.5 false 0.325).
    split; [repeat constructor | split; reflexivity].
  - exists (spec.mkBand "4.5-7" 4.5 7 false 0.575).
    split; [repeat constructor | split; reflexivity].
  - exists (spec.mkBand "7-8.5" 7 8.5 false 0.775).
    split; [repeat constructor | split; reflexivity].
  - exists (spec.mkBand "8.5-10" 8.5 10 true 0.925).
    split; [repeat constructor | split; reflexivity].
Qed.

(** C8: for resolved picks whose decided rows have a composite score in
    [0, 10], no row of the calibration table has count zero, the counts add
    up to the number of decided (W or L) picks, and every row is the row of
    one of the five bands: its predicted value is the band's fixed constant,
    its count is the number of decided picks in the band and its actual
    value is the fraction of wins among them. *)
Theorem calibration_table_counts (df : list backtest.PickRow)
    (Hscores : forall r, r ∈ df -> spec.decided r = true ->
       exists c, backtest.composite_score r = Some c /\ 0 <= c <= 10) :
  (forall row, row ∈ backtest._build_calibration df ->
     backtest.count row <> 0%nat) /\
  list_sum (map backtest.count (backtest._build_calibration df))
    = length (List.filter spec.decided df) /\
  (forall row, row ∈ backtest._build_calibration df ->
     exists b, b ∈ spec.bands /\
       backtest.bin row = spec.label b /\
       backtest.predicted row == spec.midpoint b /\
       backtest.count row = length (spec.decided_in b df) /\
       backtest.actual row
         == inject_Z (Z.of_nat (length (spec.won_in b df)))
            / inject_Z (Z.of_nat (backtest.count row))).
Proof.
  rewrite build_calibration_unfold.
  set (decided := map backtest.mk_decided _).
  assert (Hrow : forall row,
    row ∈ flat_map (backtest.calibration_rows_for decided) backtest.bin_labels ->
    backtest.count row <> 0%nat /\
    exists b, b ∈ spec.bands /\
      backtest.bin row = spec.label b /\
      backtest.predicted row == spec.midpoint b /\
      backtest.count row = length (spec.decided_in b df) /\
      backtest.actual row
        == inject_Z (Z.of_nat (length (spec.won_in b df)))
           / inject_Z (Z.of_nat (backtest.count row))).
  { intros row Hin.
    apply list_elem_of_In, in_flat_map in Hin as [l [Hl Hin]].
    apply list_elem_of_In in Hl.
    destruct (label_band l Hl) as [b [Hb [<- Hmid]]].
    destruct (rows_for_inv decided (spec.label b) row Hin)
      as [Hne [Hbin [Hpred [Hact Hcount]]]].
    unfold decided in Hne, Hact, Hcount.
    rewrite (bin_data_spec df Hscores b Hb) in Hne, Hact, Hcount.
    rewrite length_map in Hcount.
    split.
    { rewrite Hcount. intros Hz. apply Hne.
      destruct (spec.decided_in b df); [reflexivity | discriminate]. }
    exists b. split; [exact Hb|]. split; [exact Hbin|].
    split; [rewrite Hpred; exact Hmid|]. split; [exact Hcount|].
    rewrite Hact, Hcount. unfold backtest.mean.
    rewrite sum_is_win, won_in_spec, !length_map, Z.add_0_l. reflexivity. }
  split; [intros row Hin; apply (Hrow row Hin)|].
  split; [|intros row Hin; apply (Hrow row Hin)].
  rewrite list_sum_flat_map.
  rewrite (map_ext _ _ (rows_for_count decided)).
  rewrite bins_partition.
  - unfold decided. rewrite length_map. f_equal.
    apply filter_ext. intros r. apply isin_decided.
  - intros d Hd. apply (decided_rows_binned df Hscores d Hd).
Qed.

(** [calibration_table_counts] on five resolved picks: two rows, of counts
    1 and 3, for four decided picks. *)
Lemma calibration_table_counts_witness :
  list_sum (map backtest.count
              (backtest._build_calibration example.resolved_picks)) = 4%nat /\
  map backtest.count (backtest._build_calibration example.resolved_picks)
    = [1%nat; 3%nat].
Proof.
  destruct (calibration_table_counts example.resolved_picks) as [_ [Hsum _]].
  - intros r Hr _. apply list_elem_of_In in Hr.
    destruct Hr as [<-|[<-|[<-|[<-|[<-|[]]]]]];
      eexists; (split; [reflexivity|]); split; discriminate.
  - split; [rewrite Hsum|]; vm_compute; reflexivity.
Defined.

(** ** Recording an outcome *)

Section RecordResultFacts.

Import backtest.

Lemma where_unresolved_iff (gd at' ht pt : string) (r : PickRow) :
  where_unresolved gd at' ht pt r = true <-> spec.unresolved_match gd at' ht pt r.
Proof.
  unfold where_unresolved, spec.unresolved_match.
  rewrite !andb_true_iff, !bool_decide_eq_true. tauto.
Qed.

Lemma set_result_columns (res : string) (r : PickRow) :
  result (set_result res r) = Some res /\
  analysis_date (set_result res r) = analysis_date r /\
  game_date (set_result res r) = game_date r /\
  season (set_result res r) = season r /\
  away_team (set_result res r) = away_team r /\
  home_team (set_result res r) = home_team r /\
  pick_type (set_result res r) = pick_type r /\
  pick_side (set_result res r) = pick_side r /\
  confidence (set_result res r) = confidence r /\
  composite_score (set_result res r) = composite_score r /\
  spread_at_pick (set_result res r) = spread_at_pick r /\
  total_at_pick (set_result res r) = total_at_pick r.
Proof. repeat split. Qed.

(** An [UPDATE] that matches no row leaves the table as it is. *)
Lemma update_no_match (hit : PickRow -> bool) (f : PickRow -> PickRow)
    (table : list PickRow) :
  length (List.filter hit table) = 0%nat ->
  map (fun r => if hit r then f r else r) table = table.
Proof.
  induction table as [|r table IH]; simpl; [reflexivity|].
  destruct (hit r); simpl; [discriminate|].
  intros H. rewrite IH by exact H. reflexivity.
Qed.

Lemma filter_length_zero (hit : PickRow -> bool) (table : list PickRow) :
  length (List.filter hit table) = 0%nat <->
  forall r, r ∈ table -> hit r = false.
Proof.
  induction table as [|r table IH]; simpl.
  - split; [intros _ r Hr; apply elem_of_nil in Hr; destruct Hr | reflexivity].
  - destruct (hit r) eqn:E; simpl.
    + split; [discriminate|]. intros H.
      specialize (H r (list_elem_of_here _ _)). congruence.
    + rewrite IH. split.
      * intros H r' Hr'. apply elem_of_cons in Hr' as [->|Hr']; auto.
      * intros H r' Hr'. apply H. apply list_elem_of_further. exact Hr'.
Qed.

End RecordResultFacts.

(** C9: [record_result] raises exactly when the normalised result code is
    outside W/L/P or the normalised pick type is outside spread/total, the
    exception is a ValueError and the connection is left untouched; on
    valid input it returns, sets the outcome of exactly the rows that match
    date, teams and pick type with an unset outcome to the normalised result
    code (every other row and every other column unchanged), and when no
    such row exists it changes no row and logs a warning. *)
Theorem record_result_validates_and_updates
    (game_date away_team home_team pick_type result : string)
    (conn : backtest.Conn) :
  let res := backtest.upper result in
  let pt := backtest.lower pick_type in
  let valid :=
    res ∈ ["W"; "L"; "P"]%string /\ pt ∈ ["spread"; "total"]%string in
  let out :=
    backtest.record_result game_date away_team home_team pick_type result conn in
  ((exists msg, fst out = Raise (ValueError msg)) <-> ~ valid) /\
  (forall e, fst out = Raise e ->
     (exists msg, e = ValueError msg) /\ snd out = conn) /\
  (valid ->
     fst out = Return tt /\
     length (backtest.pick_history (snd out))
       = length (backtest.pick_history conn) /\
     (forall (i : nat) (r : backtest.PickRow),
        backtest.pick_history conn !! i = Some r ->
        (spec.unresolved_match game_date away_team home_team pt r ->
           backtest.pick_history (snd out) !! i
             = Some {| backtest.analysis_date := backtest.analysis_date r;
                       backtest.game_date := backtest.game_date r;
                       backtest.season := backtest.season r;
                       backtest.away_team := backtest.away_team r;
                       backtest.home_team := backtest.home_team r;
                       backtest.pick_type := backtest.pick_type r;
                       backtest.pick_side := backtest.pick_side r;
                       backtest.confidence := backtest.confidence r;
                       backtest.composite_score := backtest.composite_score r;
                       backtest.spread_at_pick := backtest.spread_at_pick r;
                       backtest.total_at_pick := backtest.total_at_pick r;
                       backtest.result := Some res |}) /\
        (~ spec.unresolved_match game_date away_team home_team pt r ->
           backtest.pick_history (snd out) !! i = Some r)) /\
     ((forall r, r ∈ backtest.pick_history conn ->
         ~ spec.unresolved_match game_date away_team home_team pt r) ->
      backtest.pick_history (snd out) = backtest.pick_history conn /\
      exists record,
        backtest.log (snd out) = backtest.log conn ++ [record] /\
        levelname record = WARNING)).
Proof.
  intros res pt valid out. subst out valid.
  unfold backtest.record_result. fold res pt.
  destruct (bool_decide (res ∈ ["W"; "L"; "P"]%string)) eqn:Eres; cbn [negb].
  2: { apply bool_decide_eq_false in Eres. unfold raise. cbn [fst snd].
       split; [split; [intros _ [H _]; auto | eauto]|].
       split; [intros e [= <-]; eauto | intros [H _]; contradiction]. }
  apply bool_decide_eq_true in Eres.
  destruct (bool_decide (pt ∈ ["spread"; "total"]%string)) eqn:Ept; cbn [negb].
  2: { apply bool_decide_eq_false in Ept. unfold raise. cbn [fst snd].
       split; [split; [intros _ [_ H]; auto | eauto]|].
       split; [intros e [= <-]; eauto | intros [_ H]; contradiction]. }
  apply bool_decide_eq_true in Ept.
  unfold bind, backtest.execute_update. cbn [backtest.pick_history backtest.log].
  set (hit := backtest.where_unresolved game_date away_team home_team pt).
  set (table' := map (fun r => if hit r then backtest.set_result res r else r)
                   (backtest.pick_history conn)).
  assert (Hout : forall lvl msg,
            fst (backtest.logger lvl msg
                   {| backtest.pick_history := table';
                      backtest.log := backtest.log conn |}) = Return tt /\
            backtest.pick_history
              (snd (backtest.logger lvl msg
                      {| backtest.pick_history := table';
                         backtest.log := backtest.log conn |})) = table')
    by (intros; split; reflexivity).
  assert (Hfst : forall (b : bool) m1 m2 (c : backtest.Conn),
            fst ((if b then backtest.logger WARNING m1
                  else backtest.logger INFO m2) c) = Return tt /\
            backtest.pick_history
              (snd ((if b then backtest.logger WARNING m1
                     else backtest.logger INFO m2) c))
              = backtest.pick_history c)
    by (intros [] ? ? ?; split; reflexivity).
  match goal with
  | |- context [(if ?b then backtest.logger WARNING ?m1
                 else backtest.logger INFO ?m2) ?c] =>
      destruct (Hfst b m1 m2 c) as [Hret Htab]
  end.
  cbn [backtest.pick_history] in Htab.
  split.
  { split; [intros [msg H]; rewrite Hret in H; discriminate|].
    intros H. exfalso. apply H. split; assumption. }
  split; [intros e H; rewrite Hret in H; discriminate|].
  intros _. split; [exact Hret|]. rewrite Htab.
  split; [unfold table'; apply length_map|].
  split.
  - intros i r Hi. unfold table'. rewrite list_lookup_fmap, Hi. cbn.
    split; intros Hm.
    + apply where_unresolved_iff in Hm. fold hit in Hm. rewrite Hm. reflexivity.
    + destruct (hit r) eqn:Eh; [|reflexivity].
      exfalso. apply Hm. apply where_unresolved_iff. exact Eh.
  - intros Hnone.
    assert (Hzero : length (List.filter hit (backtest.pick_history conn)) = 0%nat).
    { apply filter_length_zero. intros r Hr.
      destruct (hit r) eqn:Eh; [|reflexivity].
      exfalso. apply (Hnone r Hr). apply where_unresolved_iff. exact Eh. }
    split; [apply update_no_match; exact Hzero|].
    rewrite Hzero. cbn. eexists. split; reflexivity.
Qed.

(** [record_result_validates_and_updates] on a table with one unresolved
    total pick: recording "w" for "TOTAL" sets that row's outcome to "W" and
    leaves the resolved row alone; the code "X" is rejected. *)
Lemma record_result_validates_and_updates_witness :
  (backtest.pick_history
     (snd (backtest.record_result "2025-02-14" "Duke" "UNC" "TOTAL" "w"
             example.conn0)) !! 0%nat
     = Some {| backtest.analysis_date := "2025-02-13";
               backtest.game_date := "2025-02-14";
               backtest.season := 2025;
               backtest.away_team := "Duke";
               backtest.home_team := "UNC";
               backtest.pick_type := "total";
               backtest.pick_side := "OVER";
               backtest.confidence := Some 4.8;
               backtest.composite_score := Some 4.8;
               backtest.spread_at_pick := Some (- 3.5);
               backtest.total_at_pick := Some 151.5;
               backtest.result := Some "W" |} /\
   backtest.pick_history
     (snd (backtest.record_result "2025-02-14" "Duke" "UNC" "TOTAL" "w"
             example.conn0)) !! 1%nat
     = Some (example.resolved 9.0 "W")) /\
  (exists msg,
     fst (backtest.record_result "2025-02-14" "Duke" "UNC" "total" "X"
            example.conn0) = Raise (ValueError msg)).
Proof.
  split.
  - destruct (record_result_validates_and_updates
                "2025-02-14" "Duke" "UNC" "TOTAL" "w" example.conn0)
      as [_ [_ H]].
    destruct H as [_ [_ [Hrows _]]];
      [split; vm_compute; repeat constructor|].
    destruct (Hrows 0%nat example.unresolved_pick eq_refl) as [H0 _].
    destruct (Hrows 1%nat (example.resolved 9.0 "W") eq_refl) as [_ H1].
    split.
    + apply H0. repeat split; reflexivity.
    + apply H1. intros [_ [_ [_ [_ Hres]]]]. discriminate Hres.
  - destruct (record_result_validates_and_updates
                "2025-02-14" "Duke" "UNC" "total" "X" example.conn0)
      as [[_ H] _].
    apply H. intros [Hres _]. vm_compute in Hres.
    apply list_elem_of_In in Hres.
    destruct Hres as [E|[E|[E|[]]]]; discriminate.
Defined.

(** * Further properties of the code *)

(** ** Composite scoring: what the score does not depend on *)

Section CompositeSymmetries.

Import scoring.

Lemma Qeq_bool_comp (x y : Q) : x == y -> Qeq_bool x 0 = Qeq_bool y 0.
Proof.
  intros E. destruct (Qeq_bool y 0) eqn:Ey.
  - apply Qeq_bool_iff. apply Qeq_bool_iff in Ey. rewrite E. exact Ey.
  - apply Qeq_bool_neq in Ey. destruct (Qeq_bool x 0) eqn:Ex; [|reflexivity].
    apply Qeq_bool_iff in Ex. exfalso. apply Ey. rewrite <- E. exact Ex.
Qed.

(** The composite only looks at the two sums. *)
Lemma composite_by_sums (edge edge' : DimensionResult -> Q)
    (weights weights' : gmap string Q) (rs rs' : list DimensionResult) :
  spec.summed_weights weights rs == spec.summed_weights weights' rs' ->
  Qabs (spec.weighted_sum edge weights rs / spec.summed_weights weights rs)
    == Qabs (spec.weighted_sum edge' weights' rs'
             / spec.summed_weights weights' rs') ->
  spec.composite edge weights rs == spec.composite edge' weights' rs'.
Proof.
  intros Ht Hr.
  assert (Hnil : forall e w, spec.composite e w [] ==
            if Qeq_bool (spec.summed_weights w []) 0 then 0
            else Qmax 0 (Qmin 10 (Qabs (spec.weighted_sum e w []
                                        / spec.summed_weights w []) * 10)))
    by (intros; reflexivity).
  assert (Halt : forall e w l, spec.composite e w l ==
            if Qeq_bool (spec.summed_weights w l) 0 then 0
            else Qmax 0 (Qmin 10 (Qabs (spec.weighted_sum e w l
                                        / spec.summed_weights w l) * 10))).
  { intros e w [|d l]; [apply Hnil | reflexivity]. }
  rewrite (Halt edge weights rs), (Halt edge' weights' rs').
  rewrite (Qeq_bool_comp _ _ Ht).
  destruct (Qeq_bool (spec.summed_weights weights' rs') 0); [reflexivity|].
  rewrite Hr. reflexivity.
Qed.

Lemma sums_permutation (edge : DimensionResult -> Q) (weights : gmap string Q)
    (rs rs' : list DimensionResult) :
  Permutation rs rs' ->
  spec.summed_weights weights rs == spec.summed_weights weights rs' /\
  spec.weighted_sum edge weights rs == spec.weighted_sum edge weights rs'.
Proof.
  induction 1 as [|d l l' _ [IHt IHs]|d d' l|l l' l'' _ [IHt IHs] _ [IHt' IHs']];
    simpl.
  - split; reflexivity.
  - rewrite IHt, IHs. split; reflexivity.
  - split; ring.
  - split; [rewrite IHt; exact IHt' | rewrite IHs; exact IHs'].
Qed.

Lemma fold_left_Qplus (l : list Q) (acc : Q) :
  fold_left Qplus l acc == acc + fold_right Qplus 0 l.
Proof.
  revert acc. induction l as [|x l IH]; intros acc; simpl.
  - ring.
  - rewrite IH. ring.
Qed.

Lemma aggregate_direction_sum (rs : list DimensionResult) (edge_attr : EdgeAttr) :
  pipeline._aggregate_direction rs edge_attr
    == fold_right (fun r acc => getattr r edge_attr * confidence r + acc) 0 rs.
Proof.
  unfold pipeline._aggregate_direction. rewrite fold_left_Qplus.
  induction rs as [|r rs IH]; simpl; [ring|].
  rewrite <- IH. ring.
Qed.

Lemma sums_mirrored (weights : gmap string Q) (edge_attr : EdgeAttr)
    (rs : list DimensionResult) :
  spec.summed_weights weights (map transform.mirrored rs)
    == spec.summed_weights weights rs /\
  spec.weighted_sum (fun d => getattr d edge_attr) weights
      (map transform.mirrored rs)
    == - spec.weighted_sum (fun d => getattr d edge_attr) weights rs.
Proof.
  induction rs as [|d rs [IHt IHs]]; simpl.
  - split; ring.
  - rewrite IHt, IHs. unfold spec.weight_of.
    destruct edge_attr; simpl; split; ring.
Qed.

End CompositeSymmetries.

(** X3: reading every signal for the other side (both edges negated) keeps
    both composites and negates both directional sums: the composite
    carries conviction only, the direction is in the signed sum. *)
Theorem mirrored_results_keep_composite
    (results : list scoring.DimensionResult) (weights : gmap string Q) :
  scoring.compute_spread_composite (map transform.mirrored results) weights
    == scoring.compute_spread_composite results weights /\
  scoring.compute_total_composite (map transform.mirrored results) weights
    == scoring.compute_total_composite results weights /\
  (forall edge_attr,
     pipeline._aggregate_direction (map transform.mirrored results) edge_attr
       == - pipeline._aggregate_direction results edge_attr).
Proof.
  unfold scoring.compute_spread_composite, scoring.compute_total_composite.
  assert (H : forall edge_attr,
            scoring._weighted_edge (map transform.mirrored results) weights edge_attr
              == scoring._weighted_edge results weights edge_attr).
  { intros edge_attr. rewrite !weighted_edge_spec.
    destruct (sums_mirrored weights edge_attr results) as [Ht Hs].
    apply composite_by_sums; [exact Ht|].
    rewrite Ht, Hs.
    setoid_replace (- spec.weighted_sum (fun d => scoring.getattr d edge_attr)
                        weights results
                    / spec.summed_weights weights results)
      with (- (spec.weighted_sum (fun d => scoring.getattr d edge_attr)
                 weights results
               / spec.summed_weights weights results))
      using relation Qeq.
    - apply Qabs_opp.
    - unfold Qdiv. ring. }
  split; [apply H|]. split; [apply H|].
  clear H. intros edge_attr. rewrite !aggregate_direction_sum.
  induction results as [|r rs IH]; simpl; [reflexivity|].
  rewrite IH. destruct edge_attr; simpl; ring.
Qed.

(** X4: a result whose name has no weight in the table contributes
    nothing: adding it, anywhere in the list, leaves both composites as
    they were. *)
Theorem unweighted_result_is_ignored
    (before after : list scoring.DimensionResult)
    (d : scoring.DimensionResult) (weights : gmap string Q)
    (Hd : weights !! scoring.name d = None) :
  scoring.compute_spread_composite (before ++ d :: after) weights
    == scoring.compute_spread_composite (before ++ after) weights /\
  scoring.compute_total_composite (before ++ d :: after) weights
    == scoring.compute_total_composite (before ++ after) weights.
Proof.
  unfold scoring.compute_spread_composite, scoring.compute_total_composite.
  assert (H : forall edge_attr,
            scoring._weighted_edge (before ++ d :: after) weights edge_attr
              == scoring._weighted_edge (before ++ after) weights edge_attr).
  { intros edge_attr. rewrite !weighted_edge_spec.
    set (edge := fun r => scoring.getattr r edge_attr).
    destruct (sums_permutation edge weights (before ++ d :: after)
                (d :: before ++ after)) as [Ht Hs].
    { symmetry. apply Permutation_middle. }
    assert (Hw : spec.weight_of weights d == 0)
      by (unfold spec.weight_of; rewrite Hd; reflexivity).
    assert (Ht' : spec.summed_weights weights (before ++ d :: after)
                  == spec.summed_weights weights (before ++ after))
      by (rewrite Ht; simpl; rewrite Hw; ring).
    assert (Hs' : spec.weighted_sum edge weights (before ++ d :: after)
                  == spec.weighted_sum edge weights (before ++ after))
      by (rewrite Hs; simpl; rewrite Hw; ring).
    apply composite_by_sums; [exact Ht' | rewrite Ht', Hs'; reflexivity]. }
  split; apply H.
Qed.

(** [unweighted_result_is_ignored] for a result named "kenpom", which the
    weight table does not list. *)
Lemma unweighted_result_is_ignored_witness :
  scoring.compute_spread_composite
    ([scoring.mkDimensionResult "variance" 0.3 0.1 0.5 "" None]
     ++ scoring.mkDimensionResult "kenpom" 9.0 9.0 1.0 "" None :: [])
    (list_to_map pipeline.DIMENSION_WEIGHTS)
  == scoring.compute_spread_composite
       ([scoring.mkDimensionResult "variance" 0.3 0.1 0.5 "" None] ++ [])
       (list_to_map pipeline.DIMENSION_WEIGHTS).
Proof.
  destruct (unweighted_result_is_ignored
              [scoring.mkDimensionResult "variance" 0.3 0.1 0.5 "" None] []
              (scoring.mkDimensionResult "kenpom" 9.0 9.0 1.0 "" None)
              (list_to_map pipeline.DIMENSION_WEIGHTS)) as [H _];
    [vm_compute; reflexivity | exact H].
Defined.

(** ** Kelly sizing: monotonicity and the coin-flip threshold *)

Section KellyOrder.

Local Open Scope R_scope.

(** The guarded exponent of [compute_kelly_fraction] and its estimate. *)
Let exponent (composite : R) : R :=
  scoring._clip_R (- (6 / 10) * (composite - 5)) (-500) 500.

Let estimate (composite : R) : R := 1 / (1 + exp (exponent composite)).

Lemma clip_R_monotone (x y lo hi : R) :
  x <= y -> scoring._clip_R x lo hi <= scoring._clip_R y lo hi.
Proof.
  intros Hxy. unfold scoring._clip_R.
  apply Rle_max_compat_l. apply Rle_min_compat_l. exact Hxy.
Qed.

Lemma exp_monotone (x y : R) : x <= y -> exp x <= exp y.
Proof.
  intros [Hlt | ->]; [left; apply exp_increasing; exact Hlt | right; reflexivity].
Qed.

Lemma estimate_monotone (c1 c2 : R) : c1 <= c2 -> estimate c1 <= estimate c2.
Proof.
  intros Hc. unfold estimate.
  assert (Hz : exponent c2 <= exponent c1)
    by (unfold exponent; apply clip_R_monotone; Lra.lra).
  pose proof (exp_monotone _ _ Hz) as He.
  pose proof (exp_pos (exponent c1)) as H1.
  pose proof (exp_pos (exponent c2)) as H2.
  unfold Rdiv. rewrite !Rmult_1_l.
  apply Rinv_le_contravar; Lra.lra.
Qed.

Lemma kelly_by_estimate (composite implied_prob : R) :
  scoring.compute_kelly_fraction composite implied_prob =
    if Rge_dec implied_prob 1 then 0
    else if Rle_dec (estimate composite - implied_prob) 0 then 0
    else scoring._clip_R
           ((estimate composite - implied_prob) / (1 - implied_prob))
           0 (25 / 100).
Proof. reflexivity. Qed.

Lemma kelly_monotone (c1 c2 p : R) :
  c1 <= c2 ->
  scoring.compute_kelly_fraction c1 p <= scoring.compute_kelly_fraction c2 p.
Proof.
  intros Hc. rewrite !kelly_by_estimate.
  pose proof (estimate_monotone c1 c2 Hc) as He.
  destruct (Rge_dec p 1); [Lra.lra|].
  destruct (Rle_dec (estimate c1 - p) 0) as [H1|H1];
    destruct (Rle_dec (estimate c2 - p) 0) as [H2|H2]; try Lra.lra.
  - apply clip_R_bounds. Lra.lra.
  - apply clip_R_monotone. unfold Rdiv.
    apply Rmult_le_compat_r; [|Lra.lra].
    left. apply Rinv_0_lt_compat. Lra.lra.
Qed.

Lemma estimate_at_most_half (c : R) : c <= 5 -> estimate c <= 1 / 2.
Proof.
  intros Hc. unfold estimate.
  assert (Hz : 0 <= exponent c).
  { unfold exponent.
    replace 0 with (scoring._clip_R 0 (-500) 500).
    - apply clip_R_monotone. Lra.lra.
    - apply clip_R_inside. Lra.lra. }
  pose proof (exp_monotone _ _ Hz) as He. rewrite exp_0 in He.
  unfold Rdiv. rewrite !Rmult_1_l.
  apply Rinv_le_contravar; Lra.lra.
Qed.

Lemma estimate_above_half (c : R) : 5 < c -> 1 / 2 < estimate c.
Proof.
  intros Hc. unfold estimate.
  assert (Hz : exponent c < 0).
  { unfold exponent, scoring._clip_R.
    apply Rmax_lub_lt; [Lra.lra|].
    apply Rle_lt_trans with (- (6 / 10) * (c - 5)); [apply Rmin_r | Lra.lra]. }
  pose proof (exp_increasing _ _ Hz) as He. rewrite exp_0 in He.
  pose proof (exp_pos (exponent c)) as Hp.
  unfold Rdiv. rewrite !Rmult_1_l.
  apply Rinv_lt_contravar; [|Lra.lra].
  apply Rmult_lt_0_compat; Lra.lra.
Qed.

Lemma kelly_coin_flip (c : R) :
  (c <= 5 -> scoring.compute_kelly_fraction c (1 / 2) = 0) /\
  (5 < c -> 0 < scoring.compute_kelly_fraction c (1 / 2)).
Proof.
  rewrite kelly_by_estimate. split; intros Hc.
  - pose proof (estimate_at_most_half c Hc) as He.
    destruct (Rge_dec (1 / 2) 1); [reflexivity|].
    destruct (Rle_dec (estimate c - 1 / 2) 0); [reflexivity | Lra.lra].
  - pose proof (estimate_above_half c Hc) as He.
    destruct (Rge_dec (1 / 2) 1); [Lra.lra|].
    destruct (Rle_dec (estimate c - 1 / 2) 0); [Lra.lra|].
    rewrite clip_R_above; [|Lra.lra|Lra.lra].
    apply Rmin_glb_lt; Lra.lra.
Qed.

End KellyOrder.

(** X5: the Kelly fraction never decreases when the composite grows, for
    every implied probability, also outside the 0-10 scale. *)
Theorem kelly_fraction_monotone (c1 c2 implied_prob : R) (Hc : (c1 <= c2)%R) :
  (scoring.compute_kelly_fraction c1 implied_prob
   <= scoring.compute_kelly_fraction c2 implied_prob)%R.
Proof. apply kelly_monotone. exact Hc. Qed.

(** [kelly_fraction_monotone] between a LEAN and a LOCK composite at
    standard juice. *)
Lemma kelly_fraction_monotone_witness :
  (scoring.compute_kelly_fraction 3 (524 / 1000)
   <= scoring.compute_kelly_fraction 8 (524 / 1000))%R.
Proof. apply (kelly_fraction_monotone 3 8 (524 / 1000)). Lra.lra. Defined.

(** X6: against a coin flip (implied probability 0.5) the stake is zero
    exactly for the composites up to the midpoint 5.0, and positive above
    it. *)
Theorem kelly_coin_flip_threshold (composite : R) :
  scoring.compute_kelly_fraction composite (1 / 2) = 0%R <-> (composite <= 5)%R.
Proof.
  destruct (kelly_coin_flip composite) as [Hle Hgt]. split.
  - intros Hz. destruct (Rle_lt_dec composite 5) as [H|H]; [exact H|].
    specialize (Hgt H). Lra.lra.
  - exact Hle.
Qed.

(** ** Backtest arithmetic *)

(** X7: for non-negative win and loss counts the ROI lies between -1 (every
    bet lost) and 10/11 (every bet won) and the accuracy between 0 and 1;
    with at least one decided bet the ROI is (210 * accuracy - 110) / 110,
    so a tier breaks even exactly when 10 wins pay for 11 losses. *)
Theorem roi_bounds_and_break_even (W L P : Z) (HW : (0 <= W)%Z) (HL : (0 <= L)%Z) :
  - (1) <= backtest._compute_roi W L P <= 10 # 11 /\
  0 <= backtest._compute_accuracy W L <= 1 /\
  ((W + L)%Z <> 0%Z ->
     backtest._compute_roi W L P
       == (210 * backtest._compute_accuracy W L - 110) / 110 /\
     (0 <= backtest._compute_roi W L P <-> (11 * L <= 10 * W)%Z)).
Proof.
  unfold backtest._compute_roi, backtest._compute_accuracy,
    backtest._JUICE_WIN, backtest._JUICE_RISK.
  destruct (Z.eqb_spec (W + L) 0) as [Hz|Hnz].
  - split; [split; discriminate|]. split; [split; discriminate|].
    intros H. contradiction.
  - rewrite inject_Z_plus.
    set (w := inject_Z W). set (l := inject_Z L).
    assert (Hw : 0 <= w)
      by (unfold w; change 0 with (inject_Z 0); rewrite <- Zle_Qle; exact HW).
    assert (Hl : 0 <= l)
      by (unfold l; change 0 with (inject_Z 0); rewrite <- Zle_Qle; exact HL).
    assert (Hd : 0 < w + l).
    { unfold w, l. rewrite <- inject_Z_plus. change 0 with (inject_Z 0).
      rewrite <- Zlt_Qlt. lia. }
    assert (Hroi : (w * 100.0 - l * 110.0) / ((w + l) * 110.0)
                   == (100 * w - 110 * l) / (110 * (w + l)))
      by (field; lra).
    assert (Hlo : - (1) <= (100 * w - 110 * l) / (110 * (w + l)))
      by (apply Qle_shift_div_l; lra).
    assert (Hhi : (100 * w - 110 * l) / (110 * (w + l)) <= 10 # 11)
      by (apply Qle_shift_div_r; lra).
    split; [rewrite Hroi; split; assumption|].
    split.
    { split; [apply Qle_shift_div_l; lra | apply Qle_shift_div_r; lra]. }
    intros _. split.
    { rewrite Hroi. field. lra. }
    rewrite Hroi. split.
    + intros H0.
      assert (H1 : 0 <= 100 * w - 110 * l).
      { apply Qmult_le_r with (z := / (110 * (w + l))).
        - apply Qinv_lt_0_compat. lra.
        - rewrite Qmult_0_l. exact H0. }
      assert (H2 : inject_Z (11 * L) <= inject_Z (10 * W)).
      { rewrite !inject_Z_mult. fold w l.
        change (inject_Z 11) with 11. change (inject_Z 10) with 10. lra. }
      rewrite Zle_Qle. exact H2.
    + intros H0. apply Qle_shift_div_l; [lra|].
      rewrite Zle_Qle, !inject_Z_mult in H0. fold w l in H0.
      change (inject_Z 11) with 11 in H0. change (inject_Z 10) with 10 in H0.
      lra.
Qed.

(** [roi_bounds_and_break_even] at 11 wins and 10 losses: exactly break
    even. *)
Lemma roi_bounds_and_break_even_witness :
  0 <= backtest._compute_roi 11 10 3 <-> (11 * 10 <= 10 * 11)%Z.
Proof.
  destruct (roi_bounds_and_break_even 11 10 3) as [_ [_ H]]; [lia | lia |].
  destruct H as [_ H]; [discriminate|]. exact H.
Defined.

(** X8: the backtest's own tier function gives, for every score, the label
    of the tier that [assign_tier] gives. *)
Theorem backtest_tier_mirrors_scoring (c : Q) :
  backtest._tier_from_composite (Some c)
    = scoring.value (scoring.assign_tier c).
Proof.
  unfold backtest._tier_from_composite, backtest.ge_nan, scoring.assign_tier.
  destruct (Qle_bool 7.0 c); [reflexivity|].
  destruct (Qle_bool 4.5 c); [reflexivity|].
  destruct (Qle_bool 2.0 c); reflexivity.
Qed.

(** ** Calibration table: shape for any frame *)

Section CalibrationShape.

Import backtest.

Lemma wins_at_most_length (l : list PickRow) :
  (0 <= fold_left Z.add (map is_win (map mk_decided l)) 0
   <= Z.of_nat (length l))%Z.
Proof.
  rewrite sum_is_win.
  pose proof (filter_length_le spec.won l). lia.
Qed.

(** Each row is in at most one of the five bins. *)
Lemma bins_disjoint (decided : list DecidedRow) :
  (list_sum
     (map (fun l => length (List.filter
                              (fun d => bool_decide (bin_of d = Some l)) decided))
        bin_labels)
   <= length decided)%nat.
Proof.
  unfold bin_labels, list_sum. cbn [map fold_right].
  induction decided as [|d decided IH]; [cbn; lia|].
  cbn [List.filter].
  repeat case_bool_decide; try congruence; cbn [length]; lia.
Qed.

Lemma rows_for_bins (decided : list DecidedRow) (labels : list string) :
  sublist (map bin (flat_map (calibration_rows_for decided) labels)) labels.
Proof.
  induction labels as [|l labels IH]; cbn [flat_map]; [constructor|].
  unfold calibration_rows_for at 1.
  destruct (List.filter _ decided) as [|d bin_data].
  - cbn. apply sublist_cons. exact IH.
  - cbn. apply sublist_skip. exact IH.
Qed.

End CalibrationShape.

(** X9: whatever the frame holds (pushes, NULL or out-of-range scores), the
    calibration table lists bands in the fixed order, each at most once;
    every row has a positive count and an observed win rate in [0, 1]; and
    the counts never add up to more than the decided picks. *)
Theorem calibration_table_shape (df : list backtest.PickRow) :
  sublist (map backtest.bin (backtest._build_calibration df))
    backtest.bin_labels /\
  (forall row, row ∈ backtest._build_calibration df ->
     (0 < backtest.count row)%nat /\ 0 <= backtest.actual row <= 1) /\
  (list_sum (map backtest.count (backtest._build_calibration df))
   <= length (List.filter spec.decided df))%nat.
Proof.
  rewrite build_calibration_unfold.
  set (rows := List.filter _ df). set (decided := map backtest.mk_decided rows).
  split; [apply rows_for_bins|]. split.
  - intros row Hin.
    apply list_elem_of_In, in_flat_map in Hin as [l [_ Hin]].
    destruct (rows_for_inv decided l row Hin) as [Hne [_ [_ [Hact Hcount]]]].
    cbv zeta in Hne, Hact, Hcount.
    unfold decided in Hne, Hact, Hcount.
    rewrite filter_map_comm in Hne, Hact, Hcount.
    set (bin_rows := List.filter _ rows) in *.
    rewrite length_map in Hcount.
    assert (Hpos : (0 < length bin_rows)%nat).
    { destruct bin_rows; [exfalso; apply Hne; reflexivity | cbn; lia]. }
    split; [lia|].
    rewrite Hact. unfold backtest.mean. rewrite !length_map.
    pose proof (wins_at_most_length bin_rows) as [Hlo Hhi].
    set (wins := fold_left Z.add _ 0%Z) in *.
    assert (Hd : 0 < inject_Z (Z.of_nat (length bin_rows))).
    { change 0 with (inject_Z 0). rewrite <- Zlt_Qlt. lia. }
    split.
    + apply Qle_shift_div_l; [exact Hd|]. rewrite Qmult_0_l.
      change 0 with (inject_Z 0). rewrite <- Zle_Qle. exact Hlo.
    + apply Qle_shift_div_r; [exact Hd|]. rewrite Qmult_1_l.
      rewrite <- Zle_Qle. exact Hhi.
  - rewrite list_sum_flat_map.
    rewrite (map_ext _ _ (rows_for_count decided)).
    eapply Nat.le_trans; [apply bins_disjoint|].
    unfold decided, rows. rewrite length_map.
    rewrite (filter_ext _ spec.decided isin_decided). reflexivity.
Qed.

(** ** Recording outcomes *)

Section RecordResultOnce.

Import backtest.

(** [record_result] either raises and leaves the connection as it was, or
    returns after running the [UPDATE]. *)
Lemma record_result_cases (gd at' ht pt res : string) (conn : Conn) :
  (exists e, fst (record_result gd at' ht pt res conn) = Raise e /\
             snd (record_result gd at' ht pt res conn) = conn) \/
  (fst (record_result gd at' ht pt res conn) = Return tt /\
   upper res ∈ ["W"; "L"; "P"]%string /\
   pick_history (snd (record_result gd at' ht pt res conn))
     = map (fun r => if where_unresolved gd at' ht (lower pt) r
                     then set_result (upper res) r else r)
         (pick_history conn)).
Proof.
  unfold record_result.
  destruct (bool_decide (upper res ∈ ["W"; "L"; "P"]%string)) eqn:Eres;
    cbn [negb]; [|left; eexists; split; reflexivity].
  apply bool_decide_eq_true in Eres.
  destruct (bool_decide (lower pt ∈ ["spread"; "total"]%string));
    cbn [negb]; [|left; eexists; split; reflexivity].
  right. unfold bind, execute_update. cbn [pick_history log].
  destruct (length _ =? 0)%nat; (split; [reflexivity | split; [exact Eres | reflexivity]]).
Qed.

(** After the [UPDATE] no row is an unresolved match any more. *)
Lemma update_leaves_no_match (gd at' ht pt res : string) (table : list PickRow) :
  length (List.filter (where_unresolved gd at' ht pt)
            (map (fun r => if where_unresolved gd at' ht pt r
                           then set_result res r else r) table)) = 0%nat.
Proof.
  apply filter_length_zero. intros r Hr.
  apply list_elem_of_In in Hr. apply in_map_iff in Hr.
  destruct Hr as [r0 [Hr0 _]]. subst r.
  destruct (where_unresolved gd at' ht pt r0) eqn:E; [|exact E].
  unfold where_unresolved, set_result. cbn.
  apply andb_false_r.
Qed.

End RecordResultOnce.

(** X10: [record_result] never touches a pick whose outcome is already set,
    whatever its arguments; and once a call has returned, calling it again
    for the same date, teams and pick type, with any result code, changes
    no row: a recorded outcome cannot be overwritten through it. *)
Theorem recorded_outcome_is_final
    (game_date away_team home_team pick_type result result2 : string)
    (conn : backtest.Conn) :
  let conn1 :=
    snd (backtest.record_result game_date away_team home_team pick_type
           result conn) in
  (forall (i : nat) (r : backtest.PickRow),
     backtest.pick_history conn !! i = Some r ->
     backtest.result r <> None ->
     backtest.pick_history conn1 !! i = Some r) /\
  (fst (backtest.record_result game_date away_team home_team pick_type
          result conn) = Return tt ->
   backtest.pick_history
     (snd (backtest.record_result game_date away_team home_team pick_type
             result2 conn1))
     = backtest.pick_history conn1).
Proof.
  intros conn1. subst conn1.
  destruct (record_result_cases game_date away_team home_team pick_type
              result conn) as [[e [He Hs]]|[Hret [_ Htab]]].
  - split.
    + intros i r Hi _. rewrite Hs. exact Hi.
    + intros H. rewrite He in H. discriminate.
  - split.
    + intros i r Hi Hr. rewrite Htab, list_lookup_fmap, Hi. cbn.
      destruct (backtest.where_unresolved _ _ _ _ r) eqn:E; [|reflexivity].
      apply where_unresolved_iff in E. destruct E as [_ [_ [_ [_ E]]]].
      contradiction.
    + intros _.
      set (conn1 := snd (backtest.record_result game_date away_team home_team
                           pick_type result conn)) in *.
      destruct (record_result_cases game_date away_team home_team pick_type
                  result2 conn1) as [[e [_ Hs2]]|[_ [_ Htab2]]].
      * rewrite Hs2. reflexivity.
      * rewrite Htab2. apply update_no_match.
        rewrite Htab. apply update_leaves_no_match.
Qed.

(** ** The backtest run *)

Section BacktestRun.

Import backtest backtest_api.

Lemma filter_insert_by_date (p : PickRow -> bool) (x : PickRow)
    (l : list PickRow) :
  length (List.filter p (insert_by_date x l))
    = length (List.filter p (x :: l)).
Proof.
  induction l as [|y l IH]; [reflexivity|].
  cbn [insert_by_date].
  destruct (String.leb (game_date x) (game_date y)); [reflexivity|].
  cbn [List.filter] in *.
  destruct (p y), (p x); cbn [length] in *; lia.
Qed.

(** Ordering the frame neither adds nor drops a row of any kind. *)
Lemma filter_order_by_game_date (p : PickRow -> bool) (l : list PickRow) :
  length (List.filter p (order_by_game_date l)) = length (List.filter p l).
Proof.
  induction l as [|x l IH]; [reflexivity|].
  cbn [order_by_game_date fold_right]. rewrite filter_insert_by_date.
  fold (order_by_game_date l). cbn [List.filter].
  destruct (p x); cbn [length]; lia.
Qed.

Lemma length_order_by_game_date (l : list PickRow) :
  length (order_by_game_date l) = length l.
Proof.
  assert (Hall : forall l' : list PickRow, List.filter (fun _ => true) l' = l')
    by (induction l' as [|y l' IHl]; cbn; congruence).
  pose proof (filter_order_by_game_date (fun _ => true) l) as H.
  rewrite !Hall in H. exact H.
Qed.

Lemma sum_from (xs : list Z) (acc : Z) :
  fold_left Z.add xs acc = (acc + fold_left Z.add xs 0)%Z.
Proof.
  revert acc. induction xs as [|x xs IH]; intros acc; cbn; [lia|].
  rewrite (IH (acc + x)%Z), (IH (0 + x)%Z). lia.
Qed.

Lemma sum_app (xs ys : list Z) : sum (xs ++ ys) = (sum xs + sum ys)%Z.
Proof.
  unfold sum. rewrite fold_left_app. apply sum_from.
Qed.

(** The contribution of one tier to a total, entry or no entry. *)
Lemma tier_record_counts (df : list PickRow) (tier : string) :
  let tier_df :=
    List.filter
      (fun r => bool_decide (_tier_from_composite (composite_score r) = tier))
      df in
  sum (map (fun '(_, rec) => W rec) (tier_record df tier))
    = count_result "W" tier_df /\
  sum (map (fun '(_, rec) => L rec) (tier_record df tier))
    = count_result "L" tier_df /\
  sum (map (fun '(_, rec) => P rec) (tier_record df tier))
    = count_result "P" tier_df.
Proof.
  cbv zeta. unfold tier_record.
  destruct (List.filter _ df) as [|r tier_df]; [repeat split|].
  unfold sum. cbn [map fold_left]. repeat split; apply Z.add_0_l.
Qed.

(** Every row has exactly one of the four tiers. *)
Lemma tiers_partition (p : PickRow -> bool) (df : list PickRow) :
  list_sum
    (map (fun tier =>
            length (List.filter p
                      (List.filter
                         (fun r => bool_decide
                            (_tier_from_composite (composite_score r) = tier))
                         df)))
       ["LOCK"; "STRONG"; "LEAN"; "SKIP"]%string)
  = length (List.filter p df).
Proof.
  unfold list_sum. cbn [map fold_right].
  induction df as [|r df IH]; [reflexivity|].
  cbn [List.filter].
  assert (Ht : _tier_from_composite (composite_score r) = "LOCK"%string \/
               _tier_from_composite (composite_score r) = "STRONG"%string \/
               _tier_from_composite (composite_score r) = "LEAN"%string \/
               _tier_from_composite (composite_score r) = "SKIP"%string).
  { unfold _tier_from_composite.
    destruct (ge_nan _ 7.0); [auto|].
    destruct (ge_nan _ 4.5); [auto|].
    destruct (ge_nan _ 2.0); auto. }
  destruct Ht as [Ht|[Ht|[Ht|Ht]]]; rewrite Ht;
    repeat case_bool_decide; try congruence;
    cbn [List.filter]; destruct (p r); cbn [length]; lia.
Qed.

Lemma record_totals (code : string) (df : list PickRow) :
  (count_result code
     (List.filter (fun r => bool_decide
                     (_tier_from_composite (composite_score r) = "LOCK"%string)) df)
   + (count_result code
        (List.filter (fun r => bool_decide
                        (_tier_from_composite (composite_score r) = "STRONG"%string)) df)
      + (count_result code
           (List.filter (fun r => bool_decide
                           (_tier_from_composite (composite_score r) = "LEAN"%string)) df)
         + count_result code
             (List.filter (fun r => bool_decide
                             (_tier_from_composite (composite_score r) = "SKIP"%string)) df))))%Z
  = count_result code df.
Proof.
  unfold count_result.
  pose proof (tiers_partition (fun r => bool_decide (result r = Some code)) df) as H.
  unfold list_sum in H. cbn [map fold_right] in H. lia.
Qed.

(** [forallb] counted: no element fails the test. *)
Lemma forallb_filter_length (p : PickRow -> bool) (l : list PickRow) :
  forallb p l = (length (List.filter (fun x => negb (p x)) l) =? 0)%nat.
Proof.
  induction l as [|x l IH]; [reflexivity|].
  cbn [forallb List.filter]. destruct (p x); cbn [negb andb length]; [exact IH|].
  reflexivity.
Qed.

Lemma object_column_order (l : list PickRow) :
  object_column (order_by_game_date l) = object_column l.
Proof.
  unfold object_column. rewrite !forallb_filter_length.
  rewrite filter_order_by_game_date. reflexivity.
Qed.

Lemma object_column_false (l : list PickRow) :
  object_column l = false <-> exists r, r ∈ l /\ composite_score r <> None.
Proof.
  unfold object_column. induction l as [|x l IH]; cbn [forallb].
  - split; [discriminate|]. intros [r [Hr _]]. apply elem_of_nil in Hr. destruct Hr.
  - rewrite andb_false_iff, IH, bool_decide_eq_false. split.
    + intros [Hx | [r [Hr Hs]]].
      * exists x. split; [constructor | exact Hx].
      * exists r. split; [apply list_elem_of_further, Hr | exact Hs].
    + intros [r [Hr Hs]]. apply elem_of_cons in Hr as [-> | Hr];
        [left; exact Hs | right; exists r; split; assumption].
Qed.

Lemma order_by_game_date_nil (l : list PickRow) :
  order_by_game_date l = [] <-> l = [].
Proof.
  split; intros H.
  - apply length_zero_iff_nil. rewrite <- length_order_by_game_date, H.
    reflexivity.
  - rewrite H. reflexivity.
Qed.

Lemma params_bind_iff (season' : option Z) :
  params_bind season' = true <->
  forall s, season' = Some s -> (- 2 ^ 63 <= s < 2 ^ 63)%Z.
Proof.
  unfold params_bind, sqlite3.fits_int64. destruct season' as [s|].
  - rewrite andb_true_iff, Z.leb_le, Z.ltb_lt. split.
    + intros H s' [= <-]. exact H.
    + intros H. apply H. reflexivity.
  - split; [intros _ s H; discriminate | reflexivity].
Qed.

(** The frame has a number in its score column, or no row. *)
Lemma frame_scored (season' : option Z) (start_date end_date : option string)
    (table : list PickRow) :
  let selected := List.filter (where_resolved season' start_date end_date) table in
  let df := read_sql_query table season' start_date end_date in
  (selected = [] \/ exists r, r ∈ selected /\ composite_score r <> None) <->
  (df = [] \/ object_column df = false).
Proof.
  cbv zeta. unfold read_sql_query.
  rewrite order_by_game_date_nil, object_column_order, object_column_false.
  reflexivity.
Qed.

(** The fields of the result, on an empty frame as on any other, when the
    season binds and the frame has a score. *)
Lemma run_backtest_fields (season' : option Z)
    (start_date end_date : option string) (conn : Conn) :
  let selected :=
    List.filter (where_resolved season' start_date end_date)
      (pick_history conn) in
  let df := read_sql_query (pick_history conn) season' start_date end_date in
  (forall s, season' = Some s -> (- 2 ^ 63 <= s < 2 ^ 63)%Z) ->
  (selected = [] \/ exists r, r ∈ selected /\ composite_score r <> None) ->
  exists res record',
    run_backtest season' start_date end_date conn
      = (Return res,
         {| pick_history := pick_history conn;
            log := log conn ++ [record'] |}) /\
    levelname record' = (match df with [] => WARNING | _ => INFO end) /\
    total_picks res = length df /\
    record res
      = flat_map (tier_record df) ["LOCK"; "STRONG"; "LEAN"; "SKIP"]%string /\
    roi_by_tier res
      = map (fun '(tier, rec) => (tier, _compute_roi (W rec) (L rec) (P rec)))
          (record res) /\
    accuracy_by_tier res
      = map (fun '(tier, rec) => (tier, _compute_accuracy (W rec) (L rec)))
          (record res) /\
    overall_roi res
      == _compute_roi (sum (map (fun '(_, rec) => W rec) (record res)))
           (sum (map (fun '(_, rec) => L rec) (record res)))
           (sum (map (fun '(_, rec) => P rec) (record res))) /\
    calibration_data res = _build_calibration df.
Proof.
  cbv zeta. intros Hbind Hscored.
  apply params_bind_iff in Hbind.
  apply (frame_scored season' start_date end_date (pick_history conn)) in Hscored.
  unfold run_backtest. rewrite Hbind. cbn [negb].
  destruct (read_sql_query _ _ _ _) as [|r df] eqn:E.
  - eexists. eexists. split; [reflexivity|]. repeat split; reflexivity.
  - destruct Hscored as [Hnil | Hobj]; [discriminate|]. rewrite Hobj.
    eexists. eexists. split; [reflexivity|]. repeat split; reflexivity.
Qed.




End BacktestRun.


(** X12: when a backtest run returns (the season filter fits 64 bits, and
    the selection is empty or holds a composite score), the per-tier record
    accounts for every selected pick exactly once: the wins, losses and
    pushes summed over the tiers are the wins, losses and pushes of the whole
    selection, the overall ROI is the ROI of those totals, and the tiers
    listed are some of LOCK, STRONG, LEAN, SKIP in that order. *)
Theorem backtest_record_accounts_for_every_pick
    (season : option Z) (start_date end_date : option string)
    (conn : backtest.Conn)
    (Hbind : forall s, season = Some s -> (- 2 ^ 63 <= s < 2 ^ 63)%Z)
    (Hscored :
       List.filter (backtest_api.where_resolved season start_date end_date)
         (backtest.pick_history conn) = [] \/
       exists r,
         r ∈ List.filter (backtest_api.where_resolved season start_date end_date)
               (backtest.pick_history conn) /\
         backtest.composite_score r <> None) :
  let selected :=
    List.filter (backtest_api.where_resolved season start_date end_date)
      (backtest.pick_history conn) in
  exists res,
    fst (backtest_api.run_backtest season start_date end_date conn) = Return res /\
    backtest_api.sum (map (fun '(_, rec) => backtest_api.W rec)
                        (backtest_api.record res))
      = backtest_api.count_result "W" selected /\
    backtest_api.sum (map (fun '(_, rec) => backtest_api.L rec)
                        (backtest_api.record res))
      = backtest_api.count_result "L" selected /\
    backtest_api.sum (map (fun '(_, rec) => backtest_api.P rec)
                        (backtest_api.record res))
      = backtest_api.count_result "P" selected /\
    backtest_api.overall_roi res
      == backtest._compute_roi (backtest_api.count_result "W" selected)
           (backtest_api.count_result "L" selected)
           (backtest_api.count_result "P" selected) /\
    sublist (map fst (backtest_api.record res))
      ["LOCK"; "STRONG"; "LEAN"; "SKIP"]%string.
Proof.
  intros selected.
  destruct (run_backtest_fields season start_date end_date conn Hbind Hscored)
    as [res [record' [Hrun [_ [_ [Hrec [_ [_ [Hov _]]]]]]]]].
  exists res. rewrite Hrun. cbn [fst].
  set (df := backtest_api.read_sql_query _ _ _ _) in *.
  assert (Hcount : forall code,
            backtest_api.count_result code df
              = backtest_api.count_result code selected).
  { intros code. unfold backtest_api.count_result, df,
      backtest_api.read_sql_query. fold selected.
    rewrite filter_order_by_game_date. reflexivity. }
  assert (Hsums :
    backtest_api.sum (map (fun '(_, rec) => backtest_api.W rec)
                        (backtest_api.record res))
      = backtest_api.count_result "W" df /\
    backtest_api.sum (map (fun '(_, rec) => backtest_api.L rec)
                        (backtest_api.record res))
      = backtest_api.count_result "L" df /\
    backtest_api.sum (map (fun '(_, rec) => backtest_api.P rec)
                        (backtest_api.record res))
      = backtest_api.count_result "P" df).
  { rewrite Hrec. cbn [flat_map]. rewrite app_nil_r.
    rewrite !map_app, !sum_app.
    destruct (tier_record_counts df "LOCK") as [W1 [L1 P1]].
    destruct (tier_record_counts df "STRONG") as [W2 [L2 P2]].
    destruct (tier_record_counts df "LEAN") as [W3 [L3 P3]].
    destruct (tier_record_counts df "SKIP") as [W4 [L4 P4]].
    cbv zeta in *.
    rewrite W1, W2, W3, W4, L1, L2, L3, L4, P1, P2, P3, P4.
    rewrite !record_totals. repeat split. }
  destruct Hsums as [HW [HL HP]].
  split; [reflexivity|].
  split; [rewrite HW; apply Hcount|].
  split; [rewrite HL; apply Hcount|].
  split; [rewrite HP; apply Hcount|].
  split.
  - rewrite Hov, HW, HL, HP, !Hcount. reflexivity.
  - rewrite Hrec. clear.
    assert (Hone : forall t, backtest_api.tier_record df t = []
                             \/ map fst (backtest_api.tier_record df t) = [t]).
    { intros t. unfold backtest_api.tier_record.
      destruct (List.filter _ df); [left | right]; reflexivity. }
    cbn [flat_map]. rewrite app_nil_r, !map_app.
    destruct (Hone "LOCK"%string) as [-> | ->];
      destruct (Hone "STRONG"%string) as [-> | ->];
      destruct (Hone "LEAN"%string) as [-> | ->];
      destruct (Hone "SKIP"%string) as [-> | ->];
      cbn [map app]; repeat first [apply sublist_skip | apply sublist_cons | apply sublist_nil].
Qed.

(** [backtest_record_accounts_for_every_pick] on the season 2025 of a table
    with five scored picks and one whose score was left NULL: two wins and
    three losses over the tiers. *)
Lemma backtest_record_accounts_for_every_pick_witness :
  (forall s, Some 2025%Z = Some s -> (- 2 ^ 63 <= s < 2 ^ 63)%Z) /\
  exists res,
    fst (backtest_api.run_backtest (Some 2025%Z) None None
           {| backtest.pick_history :=
                example.unscored_pick :: example.resolved_picks;
              backtest.log := [] |}) = Return res /\
    backtest_api.sum (map (fun '(_, rec) => backtest_api.W rec)
                        (backtest_api.record res)) = 2%Z /\
    backtest_api.sum (map (fun '(_, rec) => backtest_api.L rec)
                        (backtest_api.record res)) = 3%Z.
Proof.
  assert (Hbind : forall s, Some 2025%Z = Some s -> (- 2 ^ 63 <= s < 2 ^ 63)%Z)
    by (intros s [= <-]; lia).
  split; [exact Hbind|].
  destruct (backtest_record_accounts_for_every_pick (Some 2025%Z) None None
              {| backtest.pick_history :=
                   example.unscored_pick :: example.resolved_picks;
                 backtest.log := [] |} Hbind)
    as [res [Hres [HW [HL _]]]].
  - right. exists (example.resolved 10.0 "W").
    split; [vm_compute; apply list_elem_of_further, list_elem_of_here|].
    discriminate.
  - exists res. split; [exact Hres|].
    split; [rewrite HW | rewrite HL]; vm_compute; reflexivity.
Defined.

Section RecordThenBacktest.

Import backtest backtest_api.

Lemma resolved_after_update (gd at' ht pt res : string) (table : list PickRow) :
  length (List.filter (where_resolved None None None)
            (map (fun r => if where_unresolved gd at' ht pt r
                           then set_result res r else r) table))
  = (length (List.filter (where_resolved None None None) table)
     + length (List.filter (where_unresolved gd at' ht pt) table))%nat.
Proof.
  induction table as [|r table IH]; [reflexivity|].
  cbn [map List.filter].
  destruct (where_unresolved gd at' ht pt r) eqn:E.
  - apply where_unresolved_iff in E. destruct E as [_ [_ [_ [_ E]]]].
    assert (H1 : where_resolved None None None (set_result res r) = true)
      by reflexivity.
    assert (H2 : where_resolved None None None r = false)
      by (unfold where_resolved; rewrite E; reflexivity).
    rewrite H1, H2. cbn [length]. rewrite IH. lia.
  - destruct (where_resolved None None None r); cbn [length]; rewrite IH; lia.
Qed.

(** A selection from a table whose picks all carry a score is empty or has
    a score. *)
Lemma selection_of_scored_table (p : PickRow -> bool) (table : list PickRow) :
  (forall r, r ∈ table -> composite_score r <> None) ->
  List.filter p table = [] \/
  exists r, r ∈ List.filter p table /\ composite_score r <> None.
Proof.
  intros Hall. destruct (List.filter p table) as [|r l] eqn:E; [left; reflexivity|].
  right. exists r. split; [constructor|].
  apply Hall. apply list_elem_of_In.
  apply (proj1 (filter_In p r table)). rewrite E. left. reflexivity.
Qed.

End RecordThenBacktest.

(** X13: on a table whose picks all carry a composite score, once
    [record_result] has returned, an unfiltered backtest returns before and
    after, and counts as many more picks as there were unresolved rows
    matching the call: each of them is resolved now, and no other row changed
    its status. *)
Theorem recorded_pick_enters_backtest
    (game_date away_team home_team pick_type result : string)
    (conn : backtest.Conn)
    (Hscored : forall r, r ∈ backtest.pick_history conn ->
                 backtest.composite_score r <> None)
    (Hret : fst (backtest.record_result game_date away_team home_team
                   pick_type result conn) = Return tt) :
  exists before after,
    fst (backtest_api.run_backtest None None None conn) = Return before /\
    fst (backtest_api.run_backtest None None None
           (snd (backtest.record_result game_date away_team home_team
                   pick_type result conn))) = Return after /\
    backtest_api.total_picks after
      = (backtest_api.total_picks before
         + length (List.filter
                     (backtest.where_unresolved game_date away_team home_team
                        (backtest.lower pick_type))
                     (backtest.pick_history conn)))%nat.
Proof.
  destruct (record_result_cases game_date away_team home_team pick_type
              result conn) as [[e [He _]]|[_ [_ Htab]]];
    [rewrite He in Hret; discriminate|].
  set (conn1 := snd (backtest.record_result game_date away_team home_team
                       pick_type result conn)) in *.
  assert (Hbind : forall s : Z, @None Z = Some s -> (- 2 ^ 63 <= s < 2 ^ 63)%Z)
    by (intros s H; discriminate).
  assert (Hscored1 : forall r, r ∈ backtest.pick_history conn1 ->
                       backtest.composite_score r <> None).
  { intros r Hr. rewrite Htab in Hr.
    apply list_elem_of_In, in_map_iff in Hr as [r0 [<- Hr0]].
    apply list_elem_of_In, Hscored in Hr0.
    destruct (backtest.where_unresolved _ _ _ _ r0); exact Hr0. }
  destruct (run_backtest_fields None None None conn Hbind
              (selection_of_scored_table _ _ Hscored))
    as [before [rec0 [Hrun0 [_ [Htot0 _]]]]].
  destruct (run_backtest_fields None None None conn1 Hbind
              (selection_of_scored_table _ _ Hscored1))
    as [after [rec1 [Hrun1 [_ [Htot1 _]]]]].
  exists before, after. rewrite Hrun0, Hrun1. cbn [fst].
  split; [reflexivity|]. split; [reflexivity|].
  rewrite Htot0, Htot1. unfold backtest_api.read_sql_query.
  rewrite !length_order_by_game_date, Htab.
  apply resolved_after_update.
Qed.

(** [recorded_pick_enters_backtest] on the table with one unresolved total
    pick: one resolved pick before, two after. *)
Lemma recorded_pick_enters_backtest_witness :
  (forall r, r ∈ backtest.pick_history example.conn0 ->
     backtest.composite_score r <> None) /\
  exists before after,
    fst (backtest_api.run_backtest None None None example.conn0) = Return before /\
    fst (backtest_api.run_backtest None None None
           (snd (backtest.record_result "2025-02-14" "Duke" "UNC" "total" "L"
                   example.conn0))) = Return after /\
    backtest_api.total_picks before = 1%nat /\
    backtest_api.total_picks after = 2%nat.
Proof.
  assert (Hscored : forall r, r ∈ backtest.pick_history example.conn0 ->
                      backtest.composite_score r <> None).
  { intros r Hr. apply list_elem_of_In in Hr.
    destruct Hr as [<- | [<- | []]]; discriminate. }
  split; [exact Hscored|].
  destruct (recorded_pick_enters_backtest "2025-02-14" "Duke" "UNC" "total" "L"
              example.conn0 Hscored) as [before [after [Hb [Ha Hn]]]];
    [vm_compute; reflexivity|].
  exists before, after. split; [exact Hb|]. split; [exact Ha|].
  assert (H1 : backtest_api.total_picks before = 1%nat).
  { vm_compute in Hb. injection Hb as <-. reflexivity. }
  split; [exact H1|]. rewrite Hn, H1. vm_compute. reflexivity.
Defined.

(** ** The dimension cache *)

Section CacheFacts.

Import scoring pipeline.

(** Resolution reads the cache only, never the log. *)
Lemma get_dimension_func_by_cache
    (import_attr : string -> string -> Exc DimFunc) (dim_name : string)
    (self self2 : Pipeline) :
  _dim_funcs self2 = _dim_funcs self ->
  fst (_get_dimension_func import_attr dim_name self2)
    = fst (_get_dimension_func import_attr dim_name self) /\
  _dim_funcs (snd (_get_dimension_func import_attr dim_name self2))
    = _dim_funcs (snd (_get_dimension_func import_attr dim_name self)) /\
  log (snd (_get_dimension_func import_attr dim_name self2)) = log self2.
Proof.
  intros Hc. unfold _get_dimension_func. rewrite Hc.
  destruct (_dim_funcs self !! dim_name);
    [repeat split; first [reflexivity | assumption]|].
  destruct (_DIMENSION_REGISTRY !! dim_name) as [[mp fn]|];
    [|repeat split; first [reflexivity | assumption]].
  destruct (import_attr mp fn); cbn [fst snd _dim_funcs log];
    repeat split; first [reflexivity | assumption].
Qed.

Lemma get_dimension_func_caches
    (import_attr : string -> string -> Exc DimFunc) (dim_name : string)
    (self : Pipeline) :
  match fst (_get_dimension_func import_attr dim_name self) with
  | Return func =>
      _dim_funcs (snd (_get_dimension_func import_attr dim_name self)) !! dim_name
        = Some func /\
      forall k, k <> dim_name ->
        _dim_funcs (snd (_get_dimension_func import_attr dim_name self)) !! k
          = _dim_funcs self !! k
  | Raise _ => snd (_get_dimension_func import_attr dim_name self) = self
  end.
Proof.
  unfold _get_dimension_func.
  destruct (_dim_funcs self !! dim_name) as [f|] eqn:Ec; cbn [fst snd]; [auto|].
  destruct (_DIMENSION_REGISTRY !! dim_name) as [[mp fn]|]; cbn [fst snd];
    [|reflexivity].
  destruct (import_attr mp fn) as [f|e]; cbn [fst snd _dim_funcs];
    [|reflexivity].
  split; [apply lookup_insert_eq|].
  intros k Hk. apply lookup_insert_ne. congruence.
Qed.

(** The cache after [_run_dimension] is the cache after the resolution. *)
Lemma run_dimension_cache
    (import_attr : string -> string -> Exc DimFunc) (dim_name : string)
    (ctx : MatchupContext) (self : Pipeline) :
  _dim_funcs (snd (_run_dimension import_attr dim_name ctx self))
    = _dim_funcs (snd (_get_dimension_func import_attr dim_name self)).
Proof.
  unfold _run_dimension, try_except, bind, lift, ret, logger.
  destruct (_get_dimension_func import_attr dim_name self) as [[func|e] self'];
    cbn; [|reflexivity].
  destruct (func ctx); reflexivity.
Qed.

End CacheFacts.

(** X14: a function that [_get_dimension_func] has returned is in the cache
    under its name, the other cache entries and the log are as before, and
    from then on the name resolves to that same function without consulting
    the import system (the next call returns it whatever the imports would
    give, and changes nothing); a failed resolution caches nothing. *)
Theorem resolved_dimension_is_cached
    (import_attr : string -> string -> Exc pipeline.DimFunc)
    (dim_name : string) (self : pipeline.Pipeline) :
  (forall func self',
     pipeline._get_dimension_func import_attr dim_name self = (Return func, self') ->
     pipeline._dim_funcs self' !! dim_name = Some func /\
     (forall k, k <> dim_name ->
        pipeline._dim_funcs self' !! k = pipeline._dim_funcs self !! k) /\
     pipeline.log self' = pipeline.log self /\
     forall import_attr2,
       pipeline._get_dimension_func import_attr2 dim_name self'
         = (Return func, self')) /\
  (forall e self',
     pipeline._get_dimension_func import_attr dim_name self = (Raise e, self') ->
     self' = self).
Proof.
  pose proof (get_dimension_func_caches import_attr dim_name self) as Hc.
  pose proof (get_dimension_func_by_cache import_attr dim_name self self eq_refl)
    as [_ [_ Hlog]].
  split.
  - intros func self' Hget. rewrite Hget in Hc, Hlog. cbn in Hc, Hlog.
    destruct Hc as [Hhit Hothers].
    split; [exact Hhit|]. split; [exact Hothers|]. split; [exact Hlog|].
    intros import_attr2. unfold pipeline._get_dimension_func.
    rewrite Hhit. reflexivity.
  - intros e self' Hget. rewrite Hget in Hc. exact Hc.
Qed.

(** [resolved_dimension_is_cached] for "recency" on a fresh pipeline: the
    second resolution returns the cached source although the import system
    now offers another one. *)
Lemma resolved_dimension_is_cached_witness :
  exists func self',
    pipeline._get_dimension_func example.import_overconfident "recency"
      pipeline.__init__ = (Return func, self') /\
    pipeline._get_dimension_func example.import_failing "recency" self'
      = (Return func, self').
Proof.
  destruct (resolved_dimension_is_cached example.import_overconfident "recency"
              pipeline.__init__) as [H _].
  eexists. eexists. split; [reflexivity|].
  apply H. reflexivity.
Defined.

(** X15: dispatching the same dimension on the same context a second time
    gives the same result as the first time and leaves the cache as the
    first call left it. *)
Theorem dispatcher_is_idempotent
    (import_attr : string -> string -> Exc pipeline.DimFunc)
    (dim_name : string) (ctx : pipeline.MatchupContext)
    (self : pipeline.Pipeline) :
  let self1 := snd (pipeline._run_dimension import_attr dim_name ctx self) in
  fst (pipeline._run_dimension import_attr dim_name ctx self1)
    = fst (pipeline._run_dimension import_attr dim_name ctx self) /\
  pipeline._dim_funcs
    (snd (pipeline._run_dimension import_attr dim_name ctx self1))
    = pipeline._dim_funcs self1.
Proof.
  intros self1.
  assert (Hcache1 : pipeline._dim_funcs self1
            = pipeline._dim_funcs
                (snd (pipeline._get_dimension_func import_attr dim_name self)))
    by apply run_dimension_cache.
  pose proof (get_dimension_func_caches import_attr dim_name self) as Hc.
  assert (Hsecond :
    fst (pipeline._get_dimension_func import_attr dim_name self1)
      = fst (pipeline._get_dimension_func import_attr dim_name self) /\
    pipeline._dim_funcs
      (snd (pipeline._get_dimension_func import_attr dim_name self1))
      = pipeline._dim_funcs self1).
  { destruct (fst (pipeline._get_dimension_func import_attr dim_name self))
      as [func|e] eqn:E.
    - destruct Hc as [Hhit _]. rewrite <- Hcache1 in Hhit.
      unfold pipeline._get_dimension_func. rewrite Hhit. split; reflexivity.
    - assert (Hsame : pipeline._dim_funcs self1 = pipeline._dim_funcs self)
        by (rewrite Hcache1, Hc; reflexivity).
      destruct (get_dimension_func_by_cache import_attr dim_name self self1 Hsame)
        as [Hf [Hd _]].
      rewrite Hf, Hd, Hc, E, Hsame. split; reflexivity. }
  destruct Hsecond as [Hf Hd].
  split.
  - rewrite !run_dimension_outcome, Hf. reflexivity.
  - rewrite run_dimension_cache. exact Hd.
Qed.

(** ** The card of a single game *)

Section CardFacts.

Import scoring pipeline.

Variable import_attr : string -> string -> Exc DimFunc.

Lemma run_dimension_confidence (dim_name : string) (ctx : MatchupContext)
    (self : Pipeline) (r : DimensionResult) :
  fst (_run_dimension import_attr dim_name ctx self) = Return r ->
  0 <= confidence r <= 1.
Proof.
  rewrite run_dimension_outcome.
  destruct (fst (_get_dimension_func import_attr dim_name self)) as [func|e].
  - destruct (func ctx) as [r0|e]; intros [= <-]; cbn.
    + apply clamp_unit_interval.
    + split; discriminate.
  - intros [= <-]. cbn. split; discriminate.
Qed.

(** What the loop over the weight table leaves behind. *)
Lemma for_each_run_dimension_results (names : list string)
    (ctx : MatchupContext) (self self' : Pipeline)
    (results : list DimensionResult) :
  for_each names (fun dim_name => _run_dimension import_attr dim_name ctx) self
    = (Return results, self') ->
  length results = length names /\
  Forall (fun r => 0 <= confidence r <= 1) results /\
  (cache_registered self -> cache_registered self').
Proof.
  revert self results. induction names as [|n names IH]; intros self results.
  - cbn. intros [= <- <-]. repeat split; [constructor | auto].
  - cbn [for_each]. unfold bind at 1.
    destruct (_run_dimension import_attr n ctx self) as [[r|e] self1] eqn:Er;
      [|discriminate].
    unfold bind at 1.
    destruct (for_each names _ self1) as [[rs|e] self2] eqn:Ers;
      [|discriminate].
    unfold ret. intros [= <- <-].
    destruct (IH self1 rs Ers) as [Hlen [Hconf Hinv]].
    split; [cbn; congruence|]. split.
    + constructor; [|exact Hconf].
      apply (run_dimension_confidence n ctx self). rewrite Er. reflexivity.
    + intros Hself. apply Hinv.
      pose proof (run_dimension_cache_registered import_attr n ctx self Hself) as H.
      rewrite Er in H. exact H.
Qed.

Lemma project_scores_raises_type_error (ctx : MatchupContext)
    (results : list DimensionResult) (e : exn) :
  project_scores ctx results = Raise e -> exists msg, e = TypeError msg.
Proof.
  unfold project_scores.
  destruct (_ ≫= truthy_raw_data); [discriminate|].
  unfold add_cells.
  repeat match goal with
    | |- context [match ?x with Some _ => _ | None => _ end] => destruct x
    | |- context [if ?b then _ else _] => destruct b
    end; try discriminate; intros [= <-]; eauto.
Qed.

(** The card that [analyze_matchup] returns, field by field. *)
Lemma analyze_matchup_card (ctx : MatchupContext) (self : Pipeline)
    (card : pick_card.PickCard) :
  fst (analyze_matchup import_attr ctx self) = Return card ->
  exists results self' proj_away proj_home,
    for_each (map fst DIMENSION_WEIGHTS)
      (fun dim_name => _run_dimension import_attr dim_name ctx) self
      = (Return results, self') /\
    snd (analyze_matchup import_attr ctx self) = self' /\
    project_scores ctx results = Return (proj_away, proj_home) /\
    pick_card.dimension_results card = results /\
    pick_card.away_team card = away_team ctx /\
    pick_card.home_team card = home_team ctx /\
    pick_card.game_date card = game_date ctx /\
    pick_card.spread_composite card
      = compute_spread_composite results (list_to_map DIMENSION_WEIGHTS) /\
    pick_card.total_composite card
      = compute_total_composite results (list_to_map DIMENSION_WEIGHTS) /\
    pick_card.spread_confidence card
      = value (assign_tier (pick_card.spread_composite card)) /\
    pick_card.total_confidence card
      = value (assign_tier (pick_card.total_composite card)) /\
    pick_card.spread_pick card
      = (if Qle_bool 0 (_aggregate_direction results attr_spread_edge)
         then away_team ctx else home_team ctx) /\
    pick_card.total_pick card
      = (if Qle_bool 0 (_aggregate_direction results attr_total_edge)
         then "OVER" else "UNDER")%string /\
    pick_card.key_factors card
      = map narrative
          (List.filter (fun r => negb (bool_decide (narrative r = ""%string)))
             (take 3 (sorted_reverse results
                        (fun r => Qabs (spread_edge r) * confidence r)))) /\
    pick_card.trap_warnings card
      = match List.find (fun r => bool_decide (name r = "trap_detect"%string))
                results with
        | Some r =>
            match truthy_raw_data r with
            | Some d =>
                if negb (Qle_bool (default 0 (d !! "trap_score"%string)) 0.3)
                then [narrative r] else []
            | None => []
            end
        | None => []
        end /\
    pick_card.projected_away_score card = round proj_away 1 /\
    pick_card.projected_home_score card = round proj_home 1.
Proof.
  destruct (for_each_run_dimension_returns import_attr
              (map fst DIMENSION_WEIGHTS) ctx self)
    as [results [self' [Hrun _]]].
  unfold analyze_matchup, bind, lift, ret.
  rewrite Hrun. cbv beta iota.
  destruct (project_scores ctx results) as [[pa ph]|e] eqn:Eproj;
    cbn [fst snd]; [|discriminate].
  intros [= <-]. exists results, self', pa, ph.
  split; [reflexivity|]. split; [reflexivity|]. split; [exact Eproj|].
  cbn. repeat split; reflexivity.
Qed.

Lemma analyze_matchup_raise (ctx : MatchupContext) (self : Pipeline) (e : exn) :
  fst (analyze_matchup import_attr ctx self) = Raise e ->
  exists msg, e = TypeError msg.
Proof.
  destruct (for_each_run_dimension_returns import_attr
              (map fst DIMENSION_WEIGHTS) ctx self)
    as [results [self' [Hrun _]]].
  unfold analyze_matchup, bind, lift, ret.
  rewrite Hrun. cbv beta iota.
  destruct (project_scores ctx results) as [[pa ph]|e'] eqn:Eproj;
    cbn [fst]; [discriminate|].
  intros [= <-]. apply (project_scores_raises_type_error ctx results e' Eproj).
Qed.

Lemma analyze_matchup_state (ctx : MatchupContext) (self : Pipeline) :
  exists results self',
    for_each (map fst DIMENSION_WEIGHTS)
      (fun dim_name => _run_dimension import_attr dim_name ctx) self
      = (Return results, self') /\
    snd (analyze_matchup import_attr ctx self) = self'.
Proof.
  destruct (for_each_run_dimension_returns import_attr
              (map fst DIMENSION_WEIGHTS) ctx self)
    as [results [self' [Hrun _]]].
  exists results, self'. split; [exact Hrun|].
  unfold analyze_matchup, bind, lift, ret.
  rewrite Hrun. cbv beta iota.
  destruct (project_scores ctx results) as [[pa ph]|e']; reflexivity.
Qed.

End CardFacts.

(** X16: every card that [analyze_matchup] returns carries the game's
    identifiers, twelve dimension results each with a confidence in [0, 1],
    two composites in [0, 10] and, for each market, the label of the tier
    of its composite; the only exception the analysis can raise is a
    TypeError (a NULL rating in the fallback projection); and the cache
    still holds registered names only. *)
Theorem analyzed_card_invariants
    (import_attr : string -> string -> Exc pipeline.DimFunc)
    (ctx : pipeline.MatchupContext) (self : pipeline.Pipeline) :
  (forall card,
     fst (pipeline.analyze_matchup import_attr ctx self) = Return card ->
     pick_card.away_team card = pipeline.away_team ctx /\
     pick_card.home_team card = pipeline.home_team ctx /\
     pick_card.game_date card = pipeline.game_date ctx /\
     length (pick_card.dimension_results card) = 12%nat /\
     Forall (fun r => 0 <= scoring.confidence r <= 1)
       (pick_card.dimension_results card) /\
     0 <= pick_card.spread_composite card <= 10 /\
     0 <= pick_card.total_composite card <= 10 /\
     pick_card.spread_confidence card
       = scoring.value (scoring.assign_tier (pick_card.spread_composite card)) /\
     pick_card.total_confidence card
       = scoring.value (scoring.assign_tier (pick_card.total_composite card))) /\
  (forall e,
     fst (pipeline.analyze_matchup import_attr ctx self) = Raise e ->
     exists msg, e = TypeError msg) /\
  (pipeline.cache_registered self ->
   pipeline.cache_registered
     (snd (pipeline.analyze_matchup import_attr ctx self))).
Proof.
  split; [|split].
  - intros card Hcard.
    destruct (analyze_matchup_card import_attr ctx self card Hcard)
      as [results [self' [pa [ph [Hrun [_ [_ [Hres [Hat [Hht [Hgd
           [Hsc [Htc [Hsl [Htl _]]]]]]]]]]]]]]].
    destruct (for_each_run_dimension_results import_attr _ ctx self self'
                results Hrun) as [Hlen [Hconf _]].
    rewrite Hres, Hsc, Htc.
    split; [exact Hat|]. split; [exact Hht|]. split; [exact Hgd|].
    split; [rewrite Hlen; reflexivity|]. split; [exact Hconf|].
    split; [apply weighted_edge_range|]. split; [apply weighted_edge_range|].
    rewrite <- Hsc, <- Htc. split; assumption.
  - apply analyze_matchup_raise.
  - intros Hinv.
    destruct (analyze_matchup_state import_attr ctx self)
      as [results [self' [Hrun ->]]].
    apply (for_each_run_dimension_results import_attr _ ctx self self'
             results Hrun). exact Hinv.
Qed.

(** ** Sorting by key, descending *)

Section SortFacts.

Context {A : Type} (key : A -> Q).

Let above (a b : A) : Prop := key b <= key a.

Lemma insert_desc_perm (x : A) (l : list A) :
  Permutation (pipeline.insert_desc key x l) (x :: l).
Proof.
  induction l as [|y l IH]; cbn [pipeline.insert_desc]; [reflexivity|].
  destruct (Qle_bool (key y) (key x)); [reflexivity|].
  rewrite IH. apply perm_swap.
Qed.

Lemma sorted_reverse_perm (l : list A) :
  Permutation (pipeline.sorted_reverse l key) l.
Proof.
  unfold pipeline.sorted_reverse.
  induction l as [|x l IH]; cbn [fold_right]; [reflexivity|].
  rewrite insert_desc_perm, IH. reflexivity.
Qed.

Lemma insert_desc_sorted (x : A) (l : list A) :
  StronglySorted above l -> StronglySorted above (pipeline.insert_desc key x l).
Proof.
  induction l as [|y l IH]; intros Hs; cbn [pipeline.insert_desc].
  - repeat constructor.
  - apply StronglySorted_inv in Hs as [Hl Hy].
    destruct (Qle_bool (key y) (key x)) eqn:E.
    + apply Qle_bool_iff in E. constructor.
      * constructor; assumption.
      * constructor; [exact E|].
        eapply Forall_impl; [exact Hy|].
        intros z Hz. unfold above in *. lra.
    + apply Qle_bool_false in E. constructor; [apply IH; exact Hl|].
      assert (Hall : Forall (above y) (x :: l))
        by (constructor; [unfold above; lra | exact Hy]).
      revert Hall. apply Permutation_Forall.
      symmetry. apply insert_desc_perm.
Qed.

Lemma sorted_reverse_sorted (l : list A) :
  StronglySorted above (pipeline.sorted_reverse l key).
Proof.
  unfold pipeline.sorted_reverse.
  induction l as [|x l IH]; cbn [fold_right]; [constructor|].
  apply insert_desc_sorted. exact IH.
Qed.

(** In a descending list no element after position [n] has a larger key
    than one before it. *)
Lemma sorted_take_drop (l : list A) (n : nat) (a b : A) :
  StronglySorted above l ->
  In a (take n l) -> In b (drop n l) -> key b <= key a.
Proof.
  revert n. induction l as [|x l IH]; intros n Hs Ha Hb.
  - destruct n; destruct Ha.
  - destruct n as [|n]; [destruct Ha|].
    apply StronglySorted_inv in Hs as [Hl Hx].
    cbn in Ha, Hb. destruct Ha as [<-|Ha].
    + rewrite Forall_forall in Hx. apply Hx. apply list_elem_of_In.
      rewrite <- (firstn_skipn n l). apply in_or_app. right. exact Hb.
    + apply (IH n); assumption.
Qed.

End SortFacts.

Section NarrativeFacts.

Import scoring pipeline.

(** X17: the key factors of a card are the non-empty narratives of three of
    its dimension results, and no other result has a larger
    |spread_edge| * confidence than one of those three; a trap warning, if
    any, is the narrative of the trap_detect result, listed only when its
    trap score exceeds 0.3. *)
Theorem key_factors_and_trap_warnings
    (import_attr : string -> string -> Exc DimFunc)
    (ctx : MatchupContext) (self : Pipeline) (card : pick_card.PickCard)
    (Hcard : fst (analyze_matchup import_attr ctx self) = Return card) :
  (exists top rest,
     Permutation (top ++ rest) (pick_card.dimension_results card) /\
     length top = 3%nat /\
     (forall r r', r ∈ top -> r' ∈ rest ->
        Qabs (spread_edge r') * confidence r'
        <= Qabs (spread_edge r) * confidence r) /\
     pick_card.key_factors card
       = map narrative
           (List.filter (fun r => negb (bool_decide (narrative r = ""%string)))
              top)) /\
  (length (pick_card.key_factors card) <= 3)%nat /\
  (forall s, s ∈ pick_card.key_factors card -> s <> ""%string) /\
  (length (pick_card.trap_warnings card) <= 1)%nat /\
  (forall w, w ∈ pick_card.trap_warnings card ->
     exists r d score,
       r ∈ pick_card.dimension_results card /\
       name r = "trap_detect"%string /\
       w = narrative r /\
       raw_data r = Some d /\
       d !! "trap_score"%string = Some score /\
       0.3 < score).
Proof.
  destruct (analyze_matchup_card import_attr ctx self card Hcard)
    as [results [self' [pa [ph [Hrun [_ [_ [Hres [_ [_ [_
         [_ [_ [_ [_ [_ [_ [Hkey [Htrap _]]]]]]]]]]]]]]]]]]].
  destruct (for_each_run_dimension_results import_attr _ ctx self self'
              results Hrun) as [Hlen _].
  rewrite Hres, Hkey, Htrap. clear Hkey Htrap Hres Hcard.
  set (key := fun r => Qabs (spread_edge r) * confidence r).
  set (sorted := sorted_reverse results key).
  assert (Hperm : Permutation sorted results) by apply sorted_reverse_perm.
  split; [|split; [|split; [|split]]].
  - exists (take 3 sorted), (drop 3 sorted).
    split; [rewrite firstn_skipn; exact Hperm|].
    split.
    { rewrite length_take, (Permutation_length Hperm), Hlen. reflexivity. }
    split; [|reflexivity].
    intros r r' Hr Hr'. apply list_elem_of_In in Hr, Hr'.
    apply (sorted_take_drop key sorted 3 r r');
      [apply sorted_reverse_sorted | exact Hr | exact Hr'].
  - rewrite length_map.
    eapply Nat.le_trans; [apply filter_length_le|].
    rewrite length_take. lia.
  - intros s Hs. apply list_elem_of_In, in_map_iff in Hs as [r [Hr Hin]].
    apply filter_In in Hin as [_ Hne]. subst s.
    apply negb_true_iff, bool_decide_eq_false in Hne. exact Hne.
  - destruct (List.find _ results) as [r|]; [|cbn; lia].
    destruct (truthy_raw_data r) as [d|]; [|cbn; lia].
    destruct (negb _); cbn; lia.
  - intros w Hw.
    destruct (List.find _ results) as [r|] eqn:Ef;
      [|apply elem_of_nil in Hw; destruct Hw].
    apply find_some in Ef as [Hin Hname].
    apply bool_decide_eq_true in Hname.
    destruct (truthy_raw_data r) as [d|] eqn:Ed;
      [|apply elem_of_nil in Hw; destruct Hw].
    destruct (negb _) eqn:Escore; [|apply elem_of_nil in Hw; destruct Hw].
    apply list_elem_of_singleton in Hw.
    apply negb_true_iff, Qle_bool_false in Escore.
    unfold truthy_raw_data in Ed.
    destruct (raw_data r) as [d0|] eqn:Eraw; [|discriminate].
    destruct (size d0 =? 0)%nat; [discriminate|]. injection Ed as ->.
    destruct (d !! "trap_score"%string) as [score|] eqn:Es.
    + exists r, d, score. cbn in Escore.
      repeat split; try assumption. apply list_elem_of_In. exact Hin.
    + cbn in Escore. exfalso. revert Escore. apply Qle_not_lt. discriminate.
Qed.

End NarrativeFacts.

(** [key_factors_and_trap_warnings] on the card of the game with twelve
    weak signals. *)
Lemma key_factors_and_trap_warnings_witness :
  exists card,
    fst (pipeline.analyze_matchup example.import_weak example.ctx0
           pipeline.__init__) = Return card /\
    (length (pick_card.key_factors card) <= 3)%nat /\
    (length (pick_card.trap_warnings card) <= 1)%nat.
Proof.
  eexists. split; [vm_compute; reflexivity|].
  match goal with
  | |- (length (pick_card.key_factors ?c) <= 3)%nat /\ _ =>
      destruct (key_factors_and_trap_warnings example.import_weak example.ctx0
                  pipeline.__init__ c) as [_ [Hk [_ [Ht _]]]];
        [vm_compute; reflexivity|]
  end.
  split; assumption.
Defined.

(** ** Summaries of a card *)

Section SummaryFacts.

Import scoring.

Lemma assign_tier_comp (x y : Q) : x == y -> assign_tier x = assign_tier y.
Proof.
  intros E.
  destruct (assign_tier_cases x) as [[Bx Ex]|[[Bx Ex]|[[Bx Ex]|[Bx Ex]]]];
  destruct (assign_tier_cases y) as [[By Ey]|[[By Ey]|[[By Ey]|[By Ey]]]];
    rewrite Ex, Ey; try reflexivity; exfalso; lra.
Qed.

Lemma assign_tier_monotone (x y : Q) :
  x <= y ->
  (spec.tier_rank (assign_tier x) <= spec.tier_rank (assign_tier y))%nat.
Proof.
  intros Hle.
  destruct (assign_tier_cases x) as [[Bx Ex]|[[Bx Ex]|[[Bx Ex]|[Bx Ex]]]];
  destruct (assign_tier_cases y) as [[By Ey]|[[By Ey]|[[By Ey]|[By Ey]]]];
    rewrite Ex, Ey; cbn; try lia; exfalso; lra.
Qed.

Lemma tier_rank_inj (t t' : ConfidenceTier) :
  spec.tier_rank t = spec.tier_rank t' -> t = t'.
Proof. destruct t, t'; cbn; congruence. Qed.

Lemma order_of_label (t : ConfidenceTier) :
  default 0%Z (pick_card._ORDER !! value t)
    = (Z.of_nat (spec.tier_rank t) + 1)%Z /\
  default 0%Z (terminal._TIER_SORT_ORDER !! value t)
    = (Z.of_nat (spec.tier_rank t) + 1)%Z /\
  default 0%Z (markdown._TIER_SORT_ORDER !! value t)
    = (Z.of_nat (spec.tier_rank t) + 1)%Z.
Proof. destruct t; repeat split; vm_compute; reflexivity. Qed.

Lemma skip_label (t : ConfidenceTier) :
  bool_decide (value t ∈ ["SKIP"; ""]%string)
    = match t with SKIP => true | _ => false end.
Proof. destruct t; vm_compute; reflexivity. Qed.

(** The tier of the larger composite is the higher of the two tiers. *)
Lemma tier_of_max (a b : Q) :
  spec.tier_rank (assign_tier (Qmax a b))
    = Nat.max (spec.tier_rank (assign_tier a)) (spec.tier_rank (assign_tier b)).
Proof.
  destruct (Q.max_spec a b) as [[Hlt E]|[Hle E]];
    rewrite (assign_tier_comp _ _ E).
  - pose proof (assign_tier_monotone a b (Qlt_le_weak _ _ Hlt)). lia.
  - pose proof (assign_tier_monotone b a Hle). lia.
Qed.

(** The summaries of a card whose labels are the tiers of its composites. *)
Lemma consistent_card_summary (card : pick_card.PickCard) :
  pick_card.spread_confidence card
    = value (assign_tier (pick_card.spread_composite card)) ->
  pick_card.total_confidence card
    = value (assign_tier (pick_card.total_composite card)) ->
  pick_card.max_confidence card
    = value (assign_tier (pick_card.max_composite card)) /\
  (pick_card.has_actionable_pick card = true
   <-> 2 <= pick_card.max_composite card) /\
  terminal._sort_key card
    = (Z.of_nat (spec.tier_rank (assign_tier (pick_card.max_composite card)))
       + 1)%Z /\
  markdown._sort_key card
    = ((Z.of_nat (spec.tier_rank (assign_tier (pick_card.max_composite card)))
        + 1)%Z,
       pick_card.max_composite card).
Proof.
  intros Hs Ht.
  set (a := pick_card.spread_composite card) in *.
  set (b := pick_card.total_composite card) in *.
  pose proof (tier_of_max a b) as Hmax.
  destruct (order_of_label (assign_tier a)) as [Ha1 [Ha2 Ha3]].
  destruct (order_of_label (assign_tier b)) as [Hb1 [Hb2 Hb3]].
  assert (Hkey : Z.max (Z.of_nat (spec.tier_rank (assign_tier a)) + 1)
                   (Z.of_nat (spec.tier_rank (assign_tier b)) + 1)
                 = (Z.of_nat (spec.tier_rank (assign_tier (Qmax a b))) + 1)%Z)
    by (rewrite Hmax; lia).
  split; [|split; [|split]].
  - unfold pick_card.max_confidence, pick_card.max_composite.
    fold a b. rewrite Hs, Ht, Ha1, Hb1.
    destruct (Z.leb_spec (Z.of_nat (spec.tier_rank (assign_tier b)) + 1)
                (Z.of_nat (spec.tier_rank (assign_tier a)) + 1)) as [Hle|Hlt];
      f_equal; apply tier_rank_inj; lia.
  - unfold pick_card.has_actionable_pick, pick_card.max_composite.
    fold a b. rewrite Hs, Ht, !skip_label.
    pose proof (Q.le_max_l a b) as Hl. pose proof (Q.le_max_r a b) as Hr.
    destruct (Q.max_spec a b) as [[_ E]|[_ E]];
    destruct (assign_tier_cases a) as [[Ba ->]|[[Ba ->]|[[Ba ->]|[Ba ->]]]];
    destruct (assign_tier_cases b) as [[Bb ->]|[[Bb ->]|[[Bb ->]|[Bb ->]]]];
      cbn; split; intros H; try reflexivity; try discriminate; try lra.
  - unfold terminal._sort_key, pick_card.max_composite. fold a b.
    rewrite Hs, Ht, Ha2, Hb2. exact Hkey.
  - unfold markdown._sort_key, pick_card.max_composite. fold a b.
    rewrite Hs, Ht, Ha3, Hb3, Hkey. reflexivity.
Qed.

End SummaryFacts.

(** X18: on a card returned by [analyze_matchup], [max_confidence] is the
    tier label of [max_composite], [has_actionable_pick] holds exactly when
    [max_composite] reaches 2.0, and both renderers' sort keys are the rank
    of that tier; hence a card with a larger [max_composite] never sorts
    below one with a smaller. *)
Theorem card_summaries_follow_max_composite
    (import_attr : string -> string -> Exc pipeline.DimFunc)
    (ctx : pipeline.MatchupContext) (self : pipeline.Pipeline)
    (card : pick_card.PickCard)
    (Hcard : fst (pipeline.analyze_matchup import_attr ctx self) = Return card) :
  pick_card.max_confidence card
    = scoring.value (scoring.assign_tier (pick_card.max_composite card)) /\
  (pick_card.has_actionable_pick card = true
   <-> 2 <= pick_card.max_composite card) /\
  terminal._sort_key card = fst (markdown._sort_key card) /\
  (forall import_attr2 ctx2 self2 card2,
     fst (pipeline.analyze_matchup import_attr2 ctx2 self2) = Return card2 ->
     pick_card.max_composite card <= pick_card.max_composite card2 ->
     (terminal._sort_key card <= terminal._sort_key card2)%Z).
Proof.
  assert (Hcons : forall i c s k,
            fst (pipeline.analyze_matchup i c s) = Return k ->
            pick_card.spread_confidence k
              = scoring.value (scoring.assign_tier (pick_card.spread_composite k)) /\
            pick_card.total_confidence k
              = scoring.value (scoring.assign_tier (pick_card.total_composite k))).
  { intros i c s k Hk.
    destruct (analyze_matchup_card i c s k Hk)
      as [? [? [? [? [_ [_ [_ [_ [_ [_ [_ [_ [_ [Hs [Ht _]]]]]]]]]]]]]]].
    split; assumption. }
  destruct (Hcons _ _ _ _ Hcard) as [Hs Ht].
  destruct (consistent_card_summary card Hs Ht) as [Hmax [Hact [Hterm Hmd]]].
  split; [exact Hmax|]. split; [exact Hact|].
  split; [rewrite Hterm, Hmd; reflexivity|].
  intros i2 c2 s2 card2 Hcard2 Hle.
  destruct (Hcons _ _ _ _ Hcard2) as [Hs2 Ht2].
  destruct (consistent_card_summary card2 Hs2 Ht2) as [_ [_ [Hterm2 _]]].
  rewrite Hterm, Hterm2.
  pose proof (assign_tier_monotone _ _ Hle). lia.
Qed.

(** [card_summaries_follow_max_composite] on the card of the game with
    twelve weak signals: no actionable pick. *)
Lemma card_summaries_follow_max_composite_witness :
  exists card,
    fst (pipeline.analyze_matchup example.import_weak example.ctx0
           pipeline.__init__) = Return card /\
    pick_card.max_confidence card = "SKIP"%string.
Proof.
  eexists. split; [vm_compute; reflexivity|].
  match goal with
  | |- pick_card.max_confidence ?c = _ =>
      destruct (card_summaries_follow_max_composite example.import_weak
                  example.ctx0 pipeline.__init__ c) as [H _];
        [vm_compute; reflexivity|]
  end.
  rewrite H. vm_compute. reflexivity.
Defined.

(** ** A game without a usable signal *)

Section NoSignal.

Import scoring pipeline.

Variable import_attr : string -> string -> Exc DimFunc.
Variable ctx : MatchupContext.

(** Every signal source the import system can serve fails on [ctx]. *)
Hypothesis Himport :
  forall module_path func_name func,
    import_attr module_path func_name = Return func ->
    exists e, func ctx = Raise e.

(** So does every source already in the cache. *)
Let failing (self : Pipeline) : Prop :=
  forall k func, _dim_funcs self !! k = Some func -> exists e, func ctx = Raise e.

Lemma get_dimension_func_failing (dim_name : string) (self : Pipeline) :
  failing self ->
  match fst (_get_dimension_func import_attr dim_name self) with
  | Return func => exists e, func ctx = Raise e
  | Raise _ => True
  end /\
  failing (snd (_get_dimension_func import_attr dim_name self)).
Proof.
  intros Hf. unfold _get_dimension_func.
  destruct (_dim_funcs self !! dim_name) as [f|] eqn:Ec; cbn [fst snd].
  { split; [apply (Hf dim_name f Ec) | exact Hf]. }
  destruct (_DIMENSION_REGISTRY !! dim_name) as [[mp fn]|]; cbn [fst snd];
    [|split; [exact I | exact Hf]].
  destruct (import_attr mp fn) as [f|e] eqn:Ei; cbn [fst snd];
    [|split; [exact I | exact Hf]].
  split; [apply (Himport mp fn f Ei)|].
  intros k func. cbn [_dim_funcs].
  destruct (decide (dim_name = k)) as [->|Hne].
  - rewrite lookup_insert_eq. intros [= <-]. apply (Himport mp fn f Ei).
  - rewrite lookup_insert_ne by exact Hne. apply Hf.
Qed.

Lemma run_dimension_failing (dim_name : string) (self : Pipeline) :
  failing self ->
  fst (_run_dimension import_attr dim_name ctx self) = Return (neutral dim_name) /\
  failing (snd (_run_dimension import_attr dim_name ctx self)).
Proof.
  intros Hf.
  destruct (get_dimension_func_failing dim_name self Hf) as [Hres Hinv].
  split.
  - rewrite run_dimension_outcome.
    destruct (fst (_get_dimension_func import_attr dim_name self)) as [func|e];
      [|reflexivity].
    destruct Hres as [e ->]. reflexivity.
  - intros k func Hk. apply (Hinv k func).
    rewrite <- (run_dimension_cache import_attr dim_name ctx self). exact Hk.
Qed.

Lemma for_each_failing (names : list string) (self : Pipeline) :
  failing self ->
  exists self',
    for_each names (fun dim_name => _run_dimension import_attr dim_name ctx) self
      = (Return (map neutral names), self').
Proof.
  revert self. induction names as [|n names IH]; intros self Hf.
  - exists self. reflexivity.
  - cbn [for_each map]. unfold bind at 1.
    destruct (run_dimension_failing n self Hf) as [Hr Hinv].
    destruct (_run_dimension import_attr n ctx self) as [r self1].
    cbn [fst snd] in Hr, Hinv. rewrite Hr.
    destruct (IH self1 Hinv) as [self2 Hrs].
    unfold bind at 1. rewrite Hrs. exists self2. reflexivity.
Qed.

Lemma no_signal_card (self : Pipeline) (card : pick_card.PickCard) :
  failing self ->
  fst (analyze_matchup import_attr ctx self) = Return card ->
  pick_card.dimension_results card = map neutral (map fst DIMENSION_WEIGHTS) /\
  pick_card.spread_composite card == 0 /\
  pick_card.total_composite card == 0 /\
  pick_card.spread_confidence card = "SKIP"%string /\
  pick_card.total_confidence card = "SKIP"%string /\
  pick_card.spread_pick card = away_team ctx /\
  pick_card.total_pick card = "OVER"%string /\
  pick_card.key_factors card
    = ["[pace_adjusted] dimension unavailable.";
       "[four_factors] dimension unavailable.";
       "[opponent_quality] dimension unavailable."]%string /\
  pick_card.trap_warnings card = [] /\
  pick_card.has_actionable_pick card = false.
Proof.
  intros Hf Hcard.
  destruct (analyze_matchup_card import_attr ctx self card Hcard)
    as [results [self' [pa [ph [Hrun [_ [_ [Hres [_ [_ [_
         [Hsc [Htc [Hsl [Htl [Hsp [Htp [Hkey [Htrap _]]]]]]]]]]]]]]]]]]].
  destruct (for_each_failing (map fst DIMENSION_WEIGHTS) self Hf) as [self2 Hrun2].
  rewrite Hrun2 in Hrun.
  assert (Hresults : results = map neutral (map fst DIMENSION_WEIGHTS))
    by (injection Hrun as Hr _; symmetry; exact Hr).
  clear Hrun Hrun2.
  rewrite Hresults in Hres, Hsc, Htc, Hsp, Htp, Hkey, Htrap.
  clear Hresults results.
  assert (Hsl' : pick_card.spread_confidence card = "SKIP"%string)
    by (rewrite Hsl, Hsc; vm_compute; reflexivity).
  assert (Htl' : pick_card.total_confidence card = "SKIP"%string)
    by (rewrite Htl, Htc; vm_compute; reflexivity).
  split; [exact Hres|].
  split; [rewrite Hsc; vm_compute; reflexivity|].
  split; [rewrite Htc; vm_compute; reflexivity|].
  split; [exact Hsl'|]. split; [exact Htl'|].
  split; [rewrite Hsp; vm_compute; reflexivity|].
  split; [rewrite Htp; vm_compute; reflexivity|].
  split; [rewrite Hkey; vm_compute; reflexivity|].
  split; [rewrite Htrap; vm_compute; reflexivity|].
  unfold pick_card.has_actionable_pick. rewrite Hsl', Htl'.
  vm_compute. reflexivity.
Qed.

End NoSignal.

(** X19: when every signal source fails on a game (those cached and those
    the import system serves), the card that [analyze_matchup] returns holds
    the twelve neutral results in weight-table order, has both composites at
    0 and both tiers at SKIP, defaults the tied directions to the away team
    and OVER, lists the first three "dimension unavailable" narratives as
    key factors, raises no trap warning and has no actionable pick. *)
Theorem game_without_signal_is_skipped
    (import_attr : string -> string -> Exc pipeline.DimFunc)
    (ctx : pipeline.MatchupContext) (self : pipeline.Pipeline)
    (card : pick_card.PickCard)
    (Himport : forall module_path func_name func,
       import_attr module_path func_name = Return func ->
       exists e, func ctx = Raise e)
    (Hcache : forall k func,
       pipeline._dim_funcs self !! k = Some func -> exists e, func ctx = Raise e)
    (Hcard : fst (pipeline.analyze_matchup import_attr ctx self) = Return card) :
  pick_card.dimension_results card
    = map pipeline.neutral (map fst pipeline.DIMENSION_WEIGHTS) /\
  pick_card.spread_composite card == 0 /\
  pick_card.total_composite card == 0 /\
  pick_card.spread_confidence card = "SKIP"%string /\
  pick_card.total_confidence card = "SKIP"%string /\
  pick_card.spread_pick card = pipeline.away_team ctx /\
  pick_card.total_pick card = "OVER"%string /\
  pick_card.key_factors card
    = ["[pace_adjusted] dimension unavailable.";
       "[four_factors] dimension unavailable.";
       "[opponent_quality] dimension unavailable."]%string /\
  pick_card.trap_warnings card = [] /\
  pick_card.has_actionable_pick card = false.
Proof.
  apply (no_signal_card import_attr ctx Himport self card Hcache Hcard).
Qed.

(** [game_without_signal_is_skipped] on the game with no data, every source
    raising. *)
Lemma game_without_signal_is_skipped_witness :
  exists card,
    fst (pipeline.analyze_matchup example.import_failing example.ctx0
           pipeline.__init__) = Return card /\
    pick_card.spread_pick card = "Duke"%string /\
    pick_card.has_actionable_pick card = false.
Proof.
  eexists. split; [vm_compute; reflexivity|].
  match goal with
  | |- pick_card.spread_pick ?c = _ /\ _ =>
      destruct (game_without_signal_is_skipped example.import_failing
                  example.ctx0 pipeline.__init__ c)
        as [_ [_ [_ [_ [_ [Hp [_ [_ [_ Ha]]]]]]]]]
  end.
  - intros mp fn func [= <-]. eexists. reflexivity.
  - intros k func Hk. vm_compute in Hk. discriminate.
  - vm_compute. reflexivity.
  - split; [exact Hp | exact Ha].
Defined.

(** ** Saving picks: replace-on-conflict *)

Section UpsertFacts.

Import backtest loader.

(** The chunks of [range(0, len(data), chunk_size)] put end to end are the
    data. *)
Lemma chunks_cover (chunk_size : nat) (count : nat) (data : list PickRow) :
  (0 < chunk_size)%nat ->
  (length data <= count * chunk_size)%nat ->
  concat (map (fun start => take chunk_size (drop start data))
            (map (fun k => (k * chunk_size)%nat) (seq 0 count)))
  = data.
Proof.
  intros Hc. revert data. induction count as [|count IH]; intros data Hlen.
  - destruct data; [reflexivity | cbn in Hlen; lia].
  - cbn [seq map concat]. rewrite Nat.mul_0_l. cbn [drop].
    rewrite <- seq_shift, !map_map.
    transitivity (take chunk_size data ++ drop chunk_size data);
      [|apply firstn_skipn].
    f_equal.
    transitivity
      (concat (map (fun start => take chunk_size
                                   (drop start (drop chunk_size data)))
                 (map (fun k => (k * chunk_size)%nat) (seq 0 count)))).
    + rewrite map_map. f_equal. apply map_ext. intros k.
      rewrite drop_drop. do 2 f_equal; lia.
    + apply IH. rewrite length_drop. lia.
Qed.

Lemma range_starts_cover (data : list PickRow) :
  concat (map (fun start => take 500 (drop start data))
            (range_starts (length data) 500))
  = data.
Proof.
  unfold range_starts. apply chunks_cover; [lia|].
  pose proof (Nat.div_mod_eq (length data + 500 - 1) 500) as H.
  pose proof (Nat.mod_upper_bound (length data + 500 - 1) 500) as Hm.
  lia.
Qed.

Lemma fits_int64_iff (n : Z) :
  sqlite3.fits_int64 n = true <-> (- 2 ^ 63 <= n < 2 ^ 63)%Z.
Proof.
  unfold sqlite3.fits_int64. rewrite andb_true_iff, Z.leb_le, Z.ltb_lt.
  reflexivity.
Qed.

(** Rows that all bind are all written. *)
Lemma executemany_ok (chunk : list PickRow) (conn : Conn) :
  (forall x, x ∈ chunk -> (- 2 ^ 63 <= season x < 2 ^ 63)%Z) ->
  executemany chunk conn
  = (Return tt,
     {| pick_history := fold_left insert_or_replace chunk (pick_history conn);
        log := log conn |}).
Proof.
  revert conn. induction chunk as [|row chunk IH]; intros conn Hfit.
  - destruct conn; reflexivity.
  - cbn [executemany fold_left].
    rewrite (proj2 (fits_int64_iff (season row)))
      by (apply Hfit; constructor).
    rewrite IH by (intros x Hx; apply Hfit, list_elem_of_further, Hx).
    reflexivity.
Qed.

(** The first row that does not bind stops the writing. *)
Lemma executemany_raise (good : list PickRow) (bad : PickRow)
    (rest : list PickRow) (conn : Conn) :
  (forall x, x ∈ good -> (- 2 ^ 63 <= season x < 2 ^ 63)%Z) ->
  ~ (- 2 ^ 63 <= season bad < 2 ^ 63)%Z ->
  executemany (good ++ bad :: rest) conn
  = (Raise (OverflowError "Python int too large to convert to SQLite INTEGER"),
     {| pick_history := fold_left insert_or_replace good (pick_history conn);
        log := log conn |}).
Proof.
  intros Hfit Hbad. revert conn Hfit.
  induction good as [|row good IH]; intros conn Hfit.
  - cbn [app executemany fold_left].
    rewrite <- fits_int64_iff in Hbad. apply not_true_is_false in Hbad.
    rewrite Hbad. destruct conn; reflexivity.
  - cbn [app executemany fold_left].
    rewrite (proj2 (fits_int64_iff (season row)))
      by (apply Hfit; constructor).
    rewrite IH by (intros x Hx; apply Hfit, list_elem_of_further, Hx).
    reflexivity.
Qed.

(** Whatever the outcome, what has been written is a prefix of the rows,
    and the log is untouched. *)
Lemma executemany_written (chunk : list PickRow) (conn : Conn) :
  exists written rest,
    chunk = written ++ rest /\
    snd (executemany chunk conn)
    = {| pick_history := fold_left insert_or_replace written (pick_history conn);
         log := log conn |}.
Proof.
  revert conn. induction chunk as [|row chunk IH]; intros conn.
  - exists [], []. split; [reflexivity|]. destruct conn; reflexivity.
  - cbn [executemany]. destruct (sqlite3.fits_int64 (season row)).
    + destruct (IH {| pick_history := insert_or_replace (pick_history conn) row;
                      log := log conn |}) as [written [rest [-> Hsnd]]].
      exists (row :: written), rest. split; [reflexivity|]. exact Hsnd.
    + exists [], (row :: chunk). split; [reflexivity|].
      destruct conn; reflexivity.
Qed.

Lemma executemany_app (a b : list PickRow) (conn : Conn) :
  executemany (a ++ b) conn
  = (_ <- executemany a ;; executemany b) conn.
Proof.
  revert conn. induction a as [|row a IH]; intros conn.
  - reflexivity.
  - cbn [app executemany]. destruct (sqlite3.fits_int64 (season row)).
    + rewrite IH. reflexivity.
    + reflexivity.
Qed.

(** The chunk loop does what one [executemany] over all the chunks does, and
    counts the rows when it gets through. *)
Lemma upsert_chunks_run (data : list PickRow) (chunk_size : nat)
    (starts : list nat) (total : nat) (conn : Conn) :
  let rows :=
    concat (map (fun start => take chunk_size (drop start data)) starts) in
  upsert_chunks data chunk_size starts total conn
  = match executemany rows conn with
    | (Return _, conn') => (Return (total + length rows)%nat, conn')
    | (Raise e, conn') => (Raise e, conn')
    end.
Proof.
  cbv zeta. revert total conn.
  induction starts as [|start starts IH]; intros total conn.
  - cbn. rewrite Nat.add_0_r. reflexivity.
  - cbn [upsert_chunks map concat]. rewrite executemany_app. unfold bind.
    destruct (executemany (take chunk_size (drop start data)) conn)
      as [[[]|e] conn1]; [|reflexivity].
    rewrite IH, length_app.
    destruct (executemany _ conn1) as [[[]|e] conn2]; [|reflexivity].
    f_equal. f_equal. lia.
Qed.

(** [upsert_records] does what one [executemany] over the records does. *)
Lemma upsert_records_run (records : list PickRow) (conn : Conn) :
  match executemany records conn with
  | (Return _, conn') =>
      fst (upsert_records records conn) = Return (length records) /\
      pick_history (snd (upsert_records records conn)) = pick_history conn'
  | (Raise e, conn') =>
      fst (upsert_records records conn) = Raise e /\
      pick_history (snd (upsert_records records conn)) = pick_history conn'
  end.
Proof.
  unfold upsert_records, upsert_dataframe.
  destruct records as [|r records]; [split; reflexivity|].
  set (data := r :: records).
  unfold bind. rewrite upsert_chunks_run, range_starts_cover.
  destruct (executemany data conn) as [[[]|e] conn1].
  - cbn [fst snd pick_history Nat.add]. unfold logger, ret.
    cbn [fst snd pick_history]. split; reflexivity.
  - split; reflexivity.
Qed.

Lemma upsert_records_ok (records : list PickRow) (conn : Conn) :
  (forall x, x ∈ records -> (- 2 ^ 63 <= season x < 2 ^ 63)%Z) ->
  fst (upsert_records records conn) = Return (length records) /\
  pick_history (snd (upsert_records records conn))
    = fold_left insert_or_replace records (pick_history conn).
Proof.
  intros Hfit. pose proof (upsert_records_run records conn) as H.
  rewrite (executemany_ok records conn Hfit) in H. exact H.
Qed.

Lemma upsert_records_raise (good : list PickRow) (bad : PickRow)
    (rest : list PickRow) (conn : Conn) :
  (forall x, x ∈ good -> (- 2 ^ 63 <= season x < 2 ^ 63)%Z) ->
  ~ (- 2 ^ 63 <= season bad < 2 ^ 63)%Z ->
  fst (upsert_records (good ++ bad :: rest) conn)
    = Raise (OverflowError "Python int too large to convert to SQLite INTEGER") /\
  pick_history (snd (upsert_records (good ++ bad :: rest) conn))
    = fold_left insert_or_replace good (pick_history conn).
Proof.
  intros Hfit Hbad.
  pose proof (upsert_records_run (good ++ bad :: rest) conn) as H.
  rewrite (executemany_raise good bad rest conn Hfit Hbad) in H. exact H.
Qed.

Lemma upsert_records_written (records : list PickRow) (conn : Conn) :
  exists written rest,
    records = written ++ rest /\
    pick_history (snd (upsert_records records conn))
      = fold_left insert_or_replace written (pick_history conn).
Proof.
  pose proof (upsert_records_run records conn) as H.
  destruct (executemany_written records conn) as [written [rest [Hsplit Hsnd]]].
  exists written, rest. split; [exact Hsplit|].
  destruct (executemany records conn) as [[[]|e] conn1];
    cbn [snd] in Hsnd; destruct H as [_ ->]; rewrite Hsnd; reflexivity.
Qed.

(** Rows after a series of [INSERT OR REPLACE]: the old rows in conflict
    with no new row, then the new rows not replaced by a later one. *)
Lemma fold_insert_or_replace (records table : list PickRow) (r : PickRow) :
  r ∈ fold_left insert_or_replace records table ->
  (r ∈ table /\ forall x, x ∈ records -> same_key r x = false) \/
  r ∈ records.
Proof.
  revert table. induction records as [|x records IH]; intros table Hr.
  - left. split; [exact Hr|]. intros x Hx. apply elem_of_nil in Hx. destruct Hx.
  - cbn [fold_left] in Hr. apply IH in Hr as [[Hin Hnot]|Hin].
    + unfold insert_or_replace in Hin. apply elem_of_app in Hin as [Hin|Hin].
      * apply list_elem_of_In, filter_In in Hin as [Hin Hk].
        apply negb_true_iff in Hk. left. split; [apply list_elem_of_In; exact Hin|].
        intros y Hy. apply elem_of_cons in Hy as [->|Hy]; [exact Hk | auto].
      * apply list_elem_of_singleton in Hin. subst r. right. constructor.
    + right. apply list_elem_of_further. exact Hin.
Qed.

Lemma fold_insert_or_replace_keeps (records table : list PickRow) (r : PickRow) :
  r ∈ table -> (forall x, x ∈ records -> same_key r x = false) ->
  r ∈ fold_left insert_or_replace records table.
Proof.
  revert table. induction records as [|x records IH]; intros table Hr Hnot;
    [exact Hr|].
  cbn [fold_left]. apply IH.
  - unfold insert_or_replace. apply elem_of_app. left.
    apply list_elem_of_In, filter_In. split; [apply list_elem_of_In; exact Hr|].
    apply negb_true_iff, Hnot. constructor.
  - intros y Hy. apply Hnot. apply list_elem_of_further. exact Hy.
Qed.

End UpsertFacts.

Section SavedPicks.

Import backtest.

Lemma record_of_card_season (today : string) (season' : Z)
    (card : pick_card.PickCard) (x : PickRow) :
  x ∈ cli.records_of_card today season' card -> season x = season'.
Proof.
  unfold cli.records_of_card. intros Hx.
  apply elem_of_app in Hx as [Hx|Hx];
    match type of Hx with
    | _ ∈ (if ?b then _ else _) => destruct b
    end;
    first [apply elem_of_nil in Hx; destruct Hx
          | apply list_elem_of_singleton in Hx; subst x; reflexivity].
Qed.

Lemma records_season (today : string) (season' : Z)
    (cards : list pick_card.PickCard) (x : PickRow) :
  x ∈ flat_map (cli.records_of_card today season') cards -> season x = season'.
Proof.
  intros Hx. apply list_elem_of_In, in_flat_map in Hx as [card [_ Hx]].
  apply list_elem_of_In in Hx. exact (record_of_card_season _ _ _ _ Hx).
Qed.

(** With a season that binds, or nothing to save, the records are written
    one by one. *)
Lemma save_pick_history_table (today : string)
    (cards : list pick_card.PickCard) (game_date' : string) (season' : Z)
    (conn : Conn) :
  (- 2 ^ 63 <= season' < 2 ^ 63)%Z \/
  flat_map (cli.records_of_card today season') cards = [] ->
  fst (cli._save_pick_history today cards game_date' season' conn) = Return tt /\
  pick_history (snd (cli._save_pick_history today cards game_date' season' conn))
    = fold_left loader.insert_or_replace
        (flat_map (cli.records_of_card today season') cards)
        (pick_history conn).
Proof.
  intros Hok. unfold cli._save_pick_history.
  pose proof (records_season today season' cards) as Hseason.
  destruct (flat_map _ cards) as [|r records] eqn:E; [split; reflexivity|].
  destruct Hok as [Hfit | Hnil]; [|discriminate].
  destruct (upsert_records_ok (r :: records) conn) as [Hret Htab].
  { intros x Hx. rewrite (Hseason x Hx). exact Hfit. }
  unfold bind.
  destruct (loader.upsert_records (r :: records) conn) as [out conn1].
  cbn [fst snd] in Hret, Htab. subst out. split; [reflexivity|].
  cbn [snd logger pick_history]. exact Htab.
Qed.

(** With a season that does not bind, the first record stops the save. *)
Lemma save_pick_history_raise (today : string)
    (cards : list pick_card.PickCard) (game_date' : string) (season' : Z)
    (conn : Conn) :
  ~ (- 2 ^ 63 <= season' < 2 ^ 63)%Z ->
  flat_map (cli.records_of_card today season') cards <> [] ->
  fst (cli._save_pick_history today cards game_date' season' conn)
    = Raise (OverflowError "Python int too large to convert to SQLite INTEGER") /\
  pick_history (snd (cli._save_pick_history today cards game_date' season' conn))
    = pick_history conn.
Proof.
  intros Hbad Hne. unfold cli._save_pick_history.
  pose proof (records_season today season' cards) as Hseason.
  destruct (flat_map _ cards) as [|r records] eqn:E; [contradiction|].
  destruct (upsert_records_raise [] r records conn) as [Hret Htab].
  { intros x Hx. apply elem_of_nil in Hx. destruct Hx. }
  { rewrite (Hseason r) by constructor. exact Hbad. }
  cbn [app fold_left] in Hret, Htab. unfold bind.
  destruct (loader.upsert_records (r :: records) conn) as [out conn1].
  cbn [fst snd] in Hret, Htab. subst out. split; [reflexivity | exact Htab].
Qed.

(** Whatever the outcome, the table is the old one with some records
    written over it. *)
Lemma save_pick_history_written (today : string)
    (cards : list pick_card.PickCard) (game_date' : string) (season' : Z)
    (conn : Conn) :
  exists written,
    pick_history (snd (cli._save_pick_history today cards game_date' season' conn))
      = fold_left loader.insert_or_replace written (pick_history conn).
Proof.
  unfold cli._save_pick_history.
  destruct (flat_map _ cards) as [|r records] eqn:E; [exists []; reflexivity|].
  destruct (upsert_records_written (r :: records) conn)
    as [written [rest [_ Htab]]].
  exists written. unfold bind.
  destruct (loader.upsert_records (r :: records) conn) as [[count|e] conn1];
    cbn [snd] in Htab; [|exact Htab].
  cbn [snd logger pick_history]. exact Htab.
Qed.

Lemma record_of_card_unresolved (today : string) (season' : Z)
    (card : pick_card.PickCard) (x : PickRow) :
  x ∈ cli.records_of_card today season' card ->
  result x = None /\
  pick_side x <> ""%string /\
  analysis_date x = today /\
  game_date x = pick_card.game_date card /\
  away_team x = pick_card.away_team card /\
  home_team x = pick_card.home_team card /\
  ((pick_type x = "spread"%string /\
    pick_side x = pick_card.spread_pick card /\
    composite_score x = Some (pick_card.spread_composite card) /\
    pick_card.spread_confidence card <> "SKIP"%string) \/
   (pick_type x = "total"%string /\
    pick_side x = pick_card.total_pick card /\
    composite_score x = Some (pick_card.total_composite card) /\
    pick_card.total_confidence card <> "SKIP"%string)).
Proof.
  unfold cli.records_of_card. intros Hx.
  apply elem_of_app in Hx as [Hx|Hx].
  - destruct (negb (bool_decide (pick_card.spread_pick card = ""%string))) eqn:E1;
      [|apply elem_of_nil in Hx; destruct Hx].
    destruct (negb (bool_decide (pick_card.spread_confidence card = "SKIP"%string)))
      eqn:E2; [|apply elem_of_nil in Hx; destruct Hx].
    cbn [andb] in Hx. apply list_elem_of_singleton in Hx. subst x. cbn.
    apply negb_true_iff, bool_decide_eq_false in E1, E2.
    repeat split; try assumption. left. repeat split; assumption.
  - destruct (negb (bool_decide (pick_card.total_pick card = ""%string))) eqn:E1;
      [|apply elem_of_nil in Hx; destruct Hx].
    destruct (negb (bool_decide (pick_card.total_confidence card = "SKIP"%string)))
      eqn:E2; [|apply elem_of_nil in Hx; destruct Hx].
    cbn [andb] in Hx. apply list_elem_of_singleton in Hx. subst x. cbn.
    apply negb_true_iff, bool_decide_eq_false in E1, E2.
    repeat split; try assumption. right. repeat split; assumption.
Qed.

End SavedPicks.

(** X20: the picks that [_save_pick_history] builds from a card returned by
    [analyze_matchup] are unresolved, name a side, and carry the composite of
    their market, from which the backtest re-derives exactly the tier label
    shown on the card, never SKIP. *)
Theorem saved_pick_keeps_its_tier
    (import_attr : string -> string -> Exc pipeline.DimFunc)
    (ctx : pipeline.MatchupContext) (self : pipeline.Pipeline)
    (card : pick_card.PickCard) (today : string) (season : Z)
    (x : backtest.PickRow)
    (Hcard : fst (pipeline.analyze_matchup import_attr ctx self) = Return card)
    (Hx : x ∈ cli.records_of_card today season card) :
  backtest.result x = None /\
  backtest.pick_side x <> ""%string /\
  backtest._tier_from_composite (backtest.composite_score x) <> "SKIP"%string /\
  ((backtest.pick_type x = "spread"%string /\
    backtest.pick_side x = pick_card.spread_pick card /\
    backtest._tier_from_composite (backtest.composite_score x)
      = pick_card.spread_confidence card) \/
   (backtest.pick_type x = "total"%string /\
    backtest.pick_side x = pick_card.total_pick card /\
    backtest._tier_from_composite (backtest.composite_score x)
      = pick_card.total_confidence card)).
Proof.
  destruct (analyze_matchup_card import_attr ctx self card Hcard)
    as [? [? [? [? [_ [_ [_ [_ [_ [_ [_ [_ [_ [Hs [Ht _]]]]]]]]]]]]]]].
  destruct (record_of_card_unresolved today season card x Hx)
    as [Hres [Hside [_ [_ [_ [_ Hmarket]]]]]].
  split; [exact Hres|]. split; [exact Hside|].
  destruct Hmarket as [[Hpt [Hps [Hcs Hne]]]|[Hpt [Hps [Hcs Hne]]]];
    rewrite Hcs, tier_from_composite_mirrors_assign_tier.
  - rewrite <- Hs. split; [exact Hne|]. left. repeat split; assumption.
  - rewrite <- Ht. split; [exact Hne|]. right. repeat split; assumption.
Qed.

(** [saved_pick_keeps_its_tier] on the game where every source reports a
    strong signal: the spread pick is saved and re-derives as MAX. *)
Lemma saved_pick_keeps_its_tier_witness :
  exists card x,
    fst (pipeline.analyze_matchup example.import_overconfident example.ctx0
           pipeline.__init__) = Return card /\
    x ∈ cli.records_of_card "2025-02-13" 2025 card /\
    backtest.pick_type x = "spread"%string /\
    backtest._tier_from_composite (backtest.composite_score x) <> "SKIP"%string.
Proof.
  eexists. eexists. split; [vm_compute; reflexivity|].
  match goal with
  | |- _ ∈ cli.records_of_card _ _ ?c /\ _ => pose (card := c)
  end.
  split; [vm_compute; apply list_elem_of_here|].
  split; [reflexivity|].
  match goal with
  | |- backtest._tier_from_composite (backtest.composite_score ?x) <> _ =>
      destruct (saved_pick_keeps_its_tier example.import_overconfident
                  example.ctx0 pipeline.__init__ card "2025-02-13" 2025 x)
        as [_ [_ [H _]]]
  end.
  - vm_compute. reflexivity.
  - vm_compute. apply list_elem_of_here.
  - exact H.
Defined.

(** ** The unique key of a pick *)

Section UniqueKey.

Import backtest loader.

Lemma same_key_iff (a b : PickRow) :
  same_key a b = true <-> unique_key a = unique_key b.
Proof.
  unfold same_key, unique_key.
  rewrite !andb_true_iff, !bool_decide_eq_true. split.
  - intros [[[[-> ->] ->] ->] ->]. reflexivity.
  - intros [= -> -> -> -> ->]. repeat split.
Qed.

Lemma same_key_false_iff (a b : PickRow) :
  same_key a b = false <-> unique_key a <> unique_key b.
Proof.
  rewrite <- same_key_iff. destruct (same_key a b); split; congruence.
Qed.

(** A key that is in the table stays in the table, held by the same row or
    by a record that replaced it. *)
Lemma fold_insert_or_replace_key (records table : list PickRow) (r x : PickRow) :
  r ∈ table -> same_key r x = true ->
  exists r', r' ∈ fold_left insert_or_replace records table /\
             same_key r' x = true /\ (r' = r \/ r' ∈ records).
Proof.
  revert table r. induction records as [|y records IH]; intros table r Hr Hk.
  - exists r. split; [exact Hr|]. split; [exact Hk | left; reflexivity].
  - cbn [fold_left]. destruct (same_key r y) eqn:Ey.
    + destruct (IH (insert_or_replace table y) y) as [r' [Hin [Hk' Hor]]].
      * unfold insert_or_replace. apply elem_of_app. right. constructor.
      * apply same_key_iff. apply same_key_iff in Ey, Hk. congruence.
      * exists r'. split; [exact Hin|]. split; [exact Hk'|]. right.
        destruct Hor as [-> | Hor]; [constructor | apply list_elem_of_further, Hor].
    + destruct (IH (insert_or_replace table y) r) as [r' [Hin [Hk' Hor]]].
      * unfold insert_or_replace. apply elem_of_app. left.
        apply list_elem_of_In, filter_In. split; [apply list_elem_of_In, Hr|].
        rewrite Ey. reflexivity.
      * exact Hk.
      * exists r'. split; [exact Hin|]. split; [exact Hk'|].
        destruct Hor as [-> | Hor]; [left; reflexivity|].
        right. apply list_elem_of_further, Hor.
Qed.

(** Every record written leaves a row with its key, taken from the
    records. *)
Lemma fold_insert_or_replace_present (records table : list PickRow) (x : PickRow) :
  x ∈ records ->
  exists r, r ∈ fold_left insert_or_replace records table /\
            same_key r x = true /\ r ∈ records.
Proof.
  revert table. induction records as [|y records IH]; intros table Hx.
  - apply elem_of_nil in Hx. destruct Hx.
  - cbn [fold_left]. apply elem_of_cons in Hx as [-> | Hx].
    + destruct (fold_insert_or_replace_key records (insert_or_replace table y) y y)
        as [r' [Hin [Hk' Hor]]].
      * unfold insert_or_replace. apply elem_of_app. right. constructor.
      * apply same_key_iff. reflexivity.
      * exists r'. split; [exact Hin|]. split; [exact Hk'|].
        destruct Hor as [-> | Hor]; [constructor | apply list_elem_of_further, Hor].
    + destruct (IH (insert_or_replace table y) Hx) as [r [Hin [Hk Hr]]].
      exists r. split; [exact Hin|]. split; [exact Hk|].
      apply list_elem_of_further, Hr.
Qed.

Lemma filter_keys_nodup (keep : PickRow -> bool) (table : list PickRow) :
  NoDup (map unique_key table) ->
  NoDup (map unique_key (List.filter keep table)).
Proof.
  induction table as [|r table IH]; intros Hnd; [constructor|].
  cbn [map] in Hnd. apply NoDup_cons in Hnd as [Hnot Hnd].
  cbn [List.filter]. destruct (keep r); [|apply IH, Hnd].
  cbn [map]. apply NoDup_cons. split; [|apply IH, Hnd].
  intros Hin. apply Hnot.
  apply list_elem_of_In, in_map_iff in Hin as [r0 [Hk Hr0]].
  apply filter_In in Hr0 as [Hr0 _].
  apply list_elem_of_In, in_map_iff. exists r0. split; assumption.
Qed.

Lemma insert_or_replace_nodup (table : list PickRow) (row : PickRow) :
  NoDup (map unique_key table) ->
  NoDup (map unique_key (insert_or_replace table row)).
Proof.
  intros Hnd. unfold insert_or_replace. rewrite map_app.
  apply NoDup_app. split; [apply filter_keys_nodup, Hnd|].
  split; [|cbn; apply NoDup_singleton].
  intros k Hk Hrow. cbn in Hrow. apply list_elem_of_singleton in Hrow. subst k.
  apply list_elem_of_In, in_map_iff in Hk as [r0 [Hk Hr0]].
  apply filter_In in Hr0 as [_ Hr0]. apply negb_true_iff in Hr0.
  apply same_key_false_iff in Hr0. contradiction.
Qed.

Lemma fold_insert_or_replace_nodup (records table : list PickRow) :
  NoDup (map unique_key table) ->
  NoDup (map unique_key (fold_left insert_or_replace records table)).
Proof.
  revert table. induction records as [|x records IH]; intros table Hnd;
    [exact Hnd|].
  cbn [fold_left]. apply IH, insert_or_replace_nodup, Hnd.
Qed.

Lemma length_insert_or_replace (table : list PickRow) (row : PickRow) :
  (length (insert_or_replace table row) <= S (length table))%nat.
Proof.
  unfold insert_or_replace. rewrite length_app. cbn [length].
  pose proof (filter_length_le (fun r => negb (same_key r row)) table). lia.
Qed.

Lemma length_fold_insert_or_replace (records table : list PickRow) :
  (length (fold_left insert_or_replace records table)
   <= length table + length records)%nat.
Proof.
  revert table. induction records as [|x records IH]; intros table;
    [cbn; lia|].
  cbn [fold_left length]. specialize (IH (insert_or_replace table x)).
  pose proof (length_insert_or_replace table x). lia.
Qed.

End UniqueKey.

(** X21: [_save_pick_history] returns when the season fits SQLite's 64-bit
    integer or there is nothing to save.  Afterwards the table holds the old
    rows in conflict with no saved pick, untouched, and saved picks; every
    saved pick has a row with its key; and every row whose key is that of a
    saved pick is unresolved, so saving a pick again on the same day erases
    an outcome that was recorded for it.  With a season outside 64 bits and a
    pick to save it raises [OverflowError] and the table is as it was. *)
Theorem saving_replaces_conflicting_picks (today : string)
    (cards : list pick_card.PickCard) (game_date : string) (season : Z)
    (conn : backtest.Conn) :
  let records := flat_map (cli.records_of_card today season) cards in
  let out := cli._save_pick_history today cards game_date season conn in
  ((- 2 ^ 63 <= season < 2 ^ 63)%Z \/ records = [] ->
   fst out = Return tt /\
   (forall r, r ∈ backtest.pick_history conn ->
      (forall x, x ∈ records -> loader.same_key r x = false) ->
      r ∈ backtest.pick_history (snd out)) /\
   (forall r, r ∈ backtest.pick_history (snd out) ->
      r ∈ records \/
      (r ∈ backtest.pick_history conn /\
       forall x, x ∈ records -> loader.same_key r x = false)) /\
   (forall x, x ∈ records ->
      exists r, r ∈ backtest.pick_history (snd out) /\
                loader.same_key r x = true) /\
   (forall r x, r ∈ backtest.pick_history (snd out) ->
      x ∈ records -> loader.same_key r x = true ->
      backtest.result r = None)) /\
  (~ (- 2 ^ 63 <= season < 2 ^ 63)%Z -> records <> [] ->
   (exists msg, fst out = Raise (OverflowError msg)) /\
   backtest.pick_history (snd out) = backtest.pick_history conn).
Proof.
  intros records out. split.
  - intros Hok.
    destruct (save_pick_history_table today cards game_date season conn Hok)
      as [Hret Htab].
    fold out in Hret, Htab. fold records in Htab.
    assert (Hfrom : forall r, r ∈ backtest.pick_history (snd out) ->
              r ∈ records \/
              (r ∈ backtest.pick_history conn /\
               forall x, x ∈ records -> loader.same_key r x = false)).
    { intros r Hr. rewrite Htab in Hr.
      apply fold_insert_or_replace in Hr. tauto. }
    split; [exact Hret|]. split; [|split; [exact Hfrom|split]].
    + intros r Hr Hnot. rewrite Htab.
      apply fold_insert_or_replace_keeps; assumption.
    + intros x Hx. rewrite Htab.
      destruct (fold_insert_or_replace_present records
                  (backtest.pick_history conn) x Hx) as [r [Hr [Hk _]]].
      exists r. split; assumption.
    + intros r x Hr Hx Hk. destruct (Hfrom r Hr) as [Hin | [_ Hnot]].
      * apply list_elem_of_In, in_flat_map in Hin as [card [_ Hin]].
        apply list_elem_of_In in Hin.
        apply (record_of_card_unresolved today season card r Hin).
      * rewrite (Hnot x Hx) in Hk. discriminate.
  - intros Hbad Hne.
    destruct (save_pick_history_raise today cards game_date season conn
                Hbad Hne) as [Hret Htab].
    split; [eexists; exact Hret | exact Htab].
Qed.

(** X22: when the season of every record fits SQLite's 64-bit integer,
    [upsert_records] returns the number of records it was given, whatever
    the table held, and its loop over chunks of 500 rows leaves the table
    that writing the records one by one would: each record replaces the rows
    in conflict with it, so the table grows by at most that number.  At the
    first record whose season does not fit it raises [OverflowError], the
    records before that one written and no other. *)
Theorem upsert_writes_records_in_order (records : list backtest.PickRow)
    (conn : backtest.Conn) :
  let out := loader.upsert_records records conn in
  ((forall x, x ∈ records -> (- 2 ^ 63 <= backtest.season x < 2 ^ 63)%Z) ->
   fst out = Return (length records) /\
   backtest.pick_history (snd out)
     = fold_left loader.insert_or_replace records (backtest.pick_history conn) /\
   (length (backtest.pick_history (snd out))
    <= length (backtest.pick_history conn) + length records)%nat /\
   (forall x, x ∈ records ->
      exists r, r ∈ backtest.pick_history (snd out)
                /\ loader.same_key r x = true /\ r ∈ records)) /\
  (forall good bad rest,
     records = good ++ bad :: rest ->
     (forall x, x ∈ good -> (- 2 ^ 63 <= backtest.season x < 2 ^ 63)%Z) ->
     ~ (- 2 ^ 63 <= backtest.season bad < 2 ^ 63)%Z ->
     (exists msg, fst out = Raise (OverflowError msg)) /\
     backtest.pick_history (snd out)
       = fold_left loader.insert_or_replace good (backtest.pick_history conn)).
Proof.
  intros out. split.
  - intros Hfit. destruct (upsert_records_ok records conn Hfit) as [Hret Htab].
    fold out in Hret, Htab.
    split; [exact Hret|]. split; [exact Htab|]. rewrite Htab. split.
    + apply length_fold_insert_or_replace.
    + intros x Hx. apply fold_insert_or_replace_present, Hx.
  - intros good bad rest -> Hfit Hbad.
    destruct (upsert_records_raise good bad rest conn Hfit Hbad) as [Hret Htab].
    split; [eexists; exact Hret | exact Htab].
Qed.

(** X23: if no two rows of the table share the key
    [(analysis_date, game_date, away_team, home_team, pick_type)], none do
    after [upsert_records], nor after [_save_pick_history], also when the
    records themselves repeat a key: the last one written wins. *)
Theorem saving_keeps_keys_unique (records : list backtest.PickRow)
    (today : string) (cards : list pick_card.PickCard) (game_date : string)
    (season : Z) (conn : backtest.Conn)
    (Hunique : NoDup (map loader.unique_key (backtest.pick_history conn))) :
  NoDup (map loader.unique_key
           (backtest.pick_history (snd (loader.upsert_records records conn)))) /\
  NoDup (map loader.unique_key
           (backtest.pick_history
              (snd (cli._save_pick_history today cards game_date season conn)))).
Proof.
  destruct (upsert_records_written records conn) as [w1 [rest [_ ->]]].
  destruct (save_pick_history_written today cards game_date season conn)
    as [w2 ->].
  split; apply fold_insert_or_replace_nodup, Hunique.
Qed.

(** [saving_keeps_keys_unique] on the table with one spread and one total
    pick, writing the spread pick twice with different outcomes. *)
Lemma saving_keeps_keys_unique_witness :
  NoDup (map loader.unique_key (backtest.pick_history example.conn0)) /\
  length (backtest.pick_history
            (snd (loader.upsert_records
                    [example.resolved 9.0 "L"; example.resolved 9.0 "P"]
                    example.conn0))) = 2%nat /\
  NoDup (map loader.unique_key
           (backtest.pick_history
              (snd (loader.upsert_records
                      [example.resolved 9.0 "L"; example.resolved 9.0 "P"]
                      example.conn0)))).
Proof.
  assert (H : NoDup (map loader.unique_key (backtest.pick_history example.conn0))).
  { apply (bool_decide_unpack _). vm_compute. exact I. }
  split; [exact H|]. split; [vm_compute; reflexivity|].
  destruct (saving_keeps_keys_unique
              [example.resolved 9.0 "L"; example.resolved 9.0 "P"]
              "2025-02-13" [] "2025-02-14" 2025 example.conn0 H) as [Hu _].
  exact Hu.
Defined.

(** X24: a pick saved by [_save_pick_history], the save having returned,
    can be resolved by [record_result]: called with the card's game date and
    teams, the pick's type and a valid result code, it returns, and the table
    then holds the saved row of that key with the outcome, in upper case, and
    no unresolved row for that game and pick type. *)
Theorem saved_pick_can_be_resolved (today : string)
    (cards : list pick_card.PickCard) (game_date : string) (season : Z)
    (conn : backtest.Conn) (card : pick_card.PickCard) (x : backtest.PickRow)
    (res : string)
    (Hsaved : fst (cli._save_pick_history today cards game_date season conn)
                = Return tt)
    (Hcard : card ∈ cards)
    (Hx : x ∈ cli.records_of_card today season card)
    (Hres : backtest.upper res ∈ ["W"; "L"; "P"]%string) :
  let saved := snd (cli._save_pick_history today cards game_date season conn) in
  let out := backtest.record_result (pick_card.game_date card)
               (pick_card.away_team card) (pick_card.home_team card)
               (backtest.pick_type x) res saved in
  fst out = Return tt /\
  (exists r, r ∈ flat_map (cli.records_of_card today season) cards /\
             loader.same_key r x = true /\
             backtest.set_result (backtest.upper res) r
               ∈ backtest.pick_history (snd out)) /\
  (forall r, r ∈ backtest.pick_history (snd out) ->
     backtest.game_date r = pick_card.game_date card ->
     backtest.away_team r = pick_card.away_team card ->
     backtest.home_team r = pick_card.home_team card ->
     backtest.pick_type r = backtest.pick_type x ->
     backtest.result r <> None).
Proof.
  intros saved out.
  assert (Hrecords : x ∈ flat_map (cli.records_of_card today season) cards).
  { apply list_elem_of_In, in_flat_map. exists card.
    split; apply list_elem_of_In; assumption. }
  assert (Hfit : (- 2 ^ 63 <= season < 2 ^ 63)%Z).
  { apply fits_int64_iff.
    destruct (sqlite3.fits_int64 season) eqn:Efit; [reflexivity|].
    destruct (save_pick_history_raise today cards game_date season conn)
      as [Hraise _].
    - rewrite <- fits_int64_iff. rewrite Efit. discriminate.
    - intros Hnil. rewrite Hnil in Hrecords. apply elem_of_nil in Hrecords.
      exact Hrecords.
    - rewrite Hraise in Hsaved. discriminate. }
  destruct (save_pick_history_table today cards game_date season conn
              (or_introl Hfit)) as [_ Htab]. fold saved in Htab.
  destruct (record_of_card_unresolved today season card x Hx)
    as [_ [_ [_ [Hgd [Hat [Hht Hmarket]]]]]].
  assert (Hlower : backtest.lower (backtest.pick_type x) = backtest.pick_type x).
  { destruct Hmarket as [[-> _] | [-> _]]; reflexivity. }
  assert (Hpt : backtest.lower (backtest.pick_type x)
                  ∈ ["spread"; "total"]%string).
  { rewrite Hlower. destruct Hmarket as [[-> _] | [-> _]]; repeat constructor. }
  destruct (fold_insert_or_replace_present _ (backtest.pick_history conn) x Hrecords)
    as [r [Hr [Hk Hrin]]].
  rewrite <- Htab in Hr.
  assert (Hrun : fst out = Return tt /\
            backtest.pick_history (snd out)
              = map (fun r => if backtest.where_unresolved
                                   (pick_card.game_date card)
                                   (pick_card.away_team card)
                                   (pick_card.home_team card)
                                   (backtest.pick_type x) r
                              then backtest.set_result (backtest.upper res) r
                              else r)
                  (backtest.pick_history saved)).
  { subst out. unfold backtest.record_result.
    rewrite (bool_decide_eq_true_2 _ Hres), (bool_decide_eq_true_2 _ Hpt).
    cbn [negb]. rewrite Hlower.
    unfold bind, backtest.execute_update. cbn [backtest.pick_history backtest.log].
    destruct (length _ =? 0)%nat; split; reflexivity. }
  destruct Hrun as [Hret Hout]. split; [exact Hret|]. split.
  - exists r. split; [exact Hrin|]. split; [exact Hk|].
    rewrite Hout. apply list_elem_of_In, in_map_iff. exists r.
    split; [|apply list_elem_of_In, Hr].
    assert (Hhit : backtest.where_unresolved (pick_card.game_date card)
                     (pick_card.away_team card) (pick_card.home_team card)
                     (backtest.pick_type x) r = true).
    { apply list_elem_of_In, in_flat_map in Hrin as [card' [_ Hrin]].
      apply list_elem_of_In in Hrin.
      destruct (record_of_card_unresolved today season card' r Hrin)
        as [Hnone _].
      apply same_key_iff in Hk. unfold loader.unique_key in Hk.
      injection Hk as _ Hg Ha Hh Hp.
      unfold backtest.where_unresolved.
      rewrite !andb_true_iff, !bool_decide_eq_true.
      repeat split; congruence. }
    rewrite Hhit. reflexivity.
  - intros r' Hr' Hg Ha Hh Hp Hnone.
    pose proof (update_leaves_no_match (pick_card.game_date card)
                  (pick_card.away_team card) (pick_card.home_team card)
                  (backtest.pick_type x) (backtest.upper res)
                  (backtest.pick_history saved)) as Hzero.
    rewrite <- Hout in Hzero.
    apply filter_length_zero with (r := r') in Hzero; [|exact Hr'].
    unfold backtest.where_unresolved in Hzero.
    rewrite !(bool_decide_eq_true_2 _ Hg), (bool_decide_eq_true_2 _ Ha),
      (bool_decide_eq_true_2 _ Hh), (bool_decide_eq_true_2 _ Hp),
      (bool_decide_eq_true_2 _ Hnone) in Hzero.
    discriminate.
Qed.

(** [saved_pick_can_be_resolved] on the game where every source reports a
    strong signal, saved over a table that holds an older row for the same
    pick, with the result code in lower case. *)
Lemma saved_pick_can_be_resolved_witness :
  exists card x,
    fst (pipeline.analyze_matchup example.import_overconfident example.ctx0
           pipeline.__init__) = Return card /\
    fst (cli._save_pick_history "2025-02-13" [card] "2025-02-14" 2025
           example.conn0) = Return tt /\
    x ∈ cli.records_of_card "2025-02-13" 2025 card /\
    backtest.upper "w" ∈ ["W"; "L"; "P"]%string /\
    fst (backtest.record_result (pick_card.game_date card)
           (pick_card.away_team card) (pick_card.home_team card)
           (backtest.pick_type x) "w"
           (snd (cli._save_pick_history "2025-02-13" [card] "2025-02-14" 2025
                   example.conn0)))
      = Return tt.
Proof.
  eexists. eexists. split; [vm_compute; reflexivity|].
  match goal with
  | |- fst (cli._save_pick_history _ [?c] _ _ _) = _ /\ _ => pose (card := c)
  end.
  split; [vm_compute; reflexivity|].
  split; [vm_compute; apply list_elem_of_here|].
  split; [vm_compute; apply list_elem_of_here|].
  match goal with
  | |- fst (backtest.record_result _ _ _ (backtest.pick_type ?x) _ _) = _ =>
      destruct (saved_pick_can_be_resolved "2025-02-13" [card] "2025-02-14"
                  2025 example.conn0 card x "w") as [H _]
  end.
  - vm_compute. reflexivity.
  - apply list_elem_of_here.
  - vm_compute. apply list_elem_of_here.
  - vm_compute. apply list_elem_of_here.
  - exact H.
Defined.

(** ** The [result] subcommand *)

(** X25: when the table holds no unresolved pick for the game and pick type
    given, the [result] subcommand leaves the table as it is; with valid
    codes it nevertheless returns and prints the line ["Recorded ..."], with
    the codes as typed, the only trace of the miss being a WARNING in the
    log; with an invalid code it raises [ValueError] and prints nothing. *)
Theorem result_command_confirms_without_a_match (args : cli.Namespace)
    (p : cli.Process)
    (Hnone : forall r, r ∈ backtest.pick_history (cli.conn p) ->
               backtest.where_unresolved (cli.date args) (cli.away args)
                 (cli.home args) (backtest.lower (cli.type args)) r = false) :
  let out := cli._handle_result args p in
  backtest.pick_history (cli.conn (snd out)) = backtest.pick_history (cli.conn p) /\
  (backtest.upper (cli.result args) ∈ ["W"; "L"; "P"]%string ->
   backtest.lower (cli.type args) ∈ ["spread"; "total"]%string ->
   fst out = Return tt /\
   cli.stdout (snd out)
     = cli.stdout p
       ++ [("Recorded " ++ cli.result args ++ " for " ++ cli.away args ++ " @ "
            ++ cli.home args ++ " on " ++ cli.date args
            ++ " (" ++ cli.type args ++ ").")%string] /\
   exists msg,
     backtest.log (cli.conn (snd out))
       = backtest.log (cli.conn p)
         ++ [ {| levelname := INFO;
                 message := ("Database initialized at " ++ cli.db args)%string |};
              {| levelname := WARNING; message := msg |} ]) /\
  (~ (backtest.upper (cli.result args) ∈ ["W"; "L"; "P"]%string /\
      backtest.lower (cli.type args) ∈ ["spread"; "total"]%string) ->
   (exists msg, fst out = Raise (ValueError msg)) /\
   cli.stdout (snd out) = cli.stdout p).
Proof.
  intros out. subst out.
  unfold cli._handle_result, cli.initialize_db, cli.get_connection, bind,
    backtest.logger, cli.print.
  cbn [fst snd cli.conn cli.stdout backtest.pick_history backtest.log].
  unfold backtest.record_result.
  destruct (bool_decide (backtest.upper (cli.result args) ∈ ["W"; "L"; "P"]%string))
    eqn:Eres; cbn [negb].
  - destruct (bool_decide (backtest.lower (cli.type args)
                             ∈ ["spread"; "total"]%string)) eqn:Etype; cbn [negb].
    + unfold bind, backtest.execute_update.
      cbn [fst snd backtest.pick_history backtest.log].
      apply filter_length_zero in Hnone. rewrite Hnone.
      cbn [Nat.eqb]. unfold backtest.logger.
      cbn [fst snd cli.conn cli.stdout backtest.pick_history backtest.log].
      split; [apply update_no_match; exact Hnone|]. split.
      * intros _ _. split; [reflexivity|]. split; [reflexivity|].
        eexists. rewrite <- app_assoc. reflexivity.
      * intros Hnot. exfalso. apply Hnot.
        apply bool_decide_eq_true in Eres, Etype. split; assumption.
    + unfold raise.
      cbn [fst snd cli.conn cli.stdout backtest.pick_history backtest.log].
      split; [reflexivity|]. split.
      * intros _ Ht. apply bool_decide_eq_false in Etype. contradiction.
      * intros _. split; [eexists; reflexivity | reflexivity].
  - unfold raise.
    cbn [fst snd cli.conn cli.stdout backtest.pick_history backtest.log].
    split; [reflexivity|]. split.
    + intros Hr. apply bool_decide_eq_false in Eres. contradiction.
    + intros _. split; [eexists; reflexivity | reflexivity].
Qed.

(** [result_command_confirms_without_a_match] on a game the table does not
    hold. *)
Lemma result_command_confirms_without_a_match_witness :
  (forall r, r ∈ backtest.pick_history example.conn0 ->
     backtest.where_unresolved "2025-03-01" "Kansas" "Baylor"
       (backtest.lower "spread") r = false) /\
  cli.stdout
    (snd (cli._handle_result
            {| cli.db := "ncaa_betting.db"; cli.date := "2025-03-01";
               cli.away := "Kansas"; cli.home := "Baylor";
               cli.type := "spread"; cli.result := "W" |}
            {| cli.conn := example.conn0; cli.stdout := [] |}))
    = ["Recorded W for Kansas @ Baylor on 2025-03-01 (spread)."]%string.
Proof.
  assert (H : forall r, r ∈ backtest.pick_history example.conn0 ->
            backtest.where_unresolved "2025-03-01" "Kansas" "Baylor"
              (backtest.lower "spread") r = false).
  { intros r Hr. apply list_elem_of_In in Hr.
    destruct Hr as [<- | [<- | []]]; vm_compute; reflexivity. }
  split; [exact H|].
  destruct (result_command_confirms_without_a_match
              {| cli.db := "ncaa_betting.db"; cli.date := "2025-03-01";
                 cli.away := "Kansas"; cli.home := "Baylor";
                 cli.type := "spread"; cli.result := "W" |}
              {| cli.conn := example.conn0; cli.stdout := [] |} H)
    as [_ [Hok _]].
  destruct Hok as [_ [Hout _]].
  - vm_compute. apply list_elem_of_here.
  - vm_compute. apply list_elem_of_here.
  - exact Hout.
Defined.
